(** * doc_app: command interpretation and selection-scoped mutation

    A shallow embedding of the parts of the doc-app front end that
    interpret chat commands and mutate the editor document:

    - [ChatSidebar.tsx]: [detectIntent], [handleWebSearch],
      [insertIntoEditor], [modifyEditorContent] and [handleSubmit];
    - [AgentContext.tsx]: [performWebSearch], [crawlUrl],
      [summarizeContent], [insertToEditor] and [processAgentCommand];
    - [AgentCommand.tsx]: [handleSubmit];
    - [AuthContext.tsx]: [initializeAuth], [login], [register],
      [logout] and [makeAuthenticatedRequest], and the form of
      [AuthLayout.tsx]: [handleSubmit] and [toggleMode];
    - [Editor.tsx]: the window bridge ([editorInsertContent],
      [getEditorContent], [setEditorContent]) and the preview workflow
      ([handleMouseUp], [callAIForEdit], [handleFloatingAction],
      [handlePreviewAccept], [handlePreviewReject]).

    Conventions.  A JavaScript string is a sequence of UTF-16 code
    units; the embedding keeps the code units below 256 (Latin-1), one
    [ascii] each.  Asynchronous functions are run to completion: a
    promise that rejects is a [Throw], one that resolves a [Normal],
    and no other event runs between the start and the end of a
    handler.  Two handlers are also given in two parts, where what
    happens while a request is pending matters:
    [Editor.floatingActionAnswered] is [handleFloatingAction] from
    the arrival of the answer on, in the world of that moment, and
    [AuthContext.logoutStart] is [logout] up to its request, which
    [makeAuthenticatedRequest] does not await.  The network, the
    storage of the window and the browser's HTML parser are not code
    of the repository; they are fields of the world the definitions
    run in.  Calls of [console.log] and [console.error] are left out. *)

From Stdlib Require Import Bool Arith Lia List Ascii String ZArith DecimalString.
Import ListNotations.
Open Scope string_scope.

Set Implicit Arguments.
Set Warnings "-register-all".

(* ================================================================== *)
(** * JavaScript strings *)

Module JsString.

(** Code units that [String.prototype.trim] removes and that the
    regular-expression class [\s] accepts: TAB, LF, VT, FF, CR, SP
    and NBSP (the members of WhiteSpace and LineTerminator below
    256). *)
Definition isSpace (c : ascii) : bool :=
  let n := nat_of_ascii c in
  (((9 <=? n) && (n <=? 13)) || (n =? 32) || (n =? 160))%nat.

(** [toLowerCase] on one Latin-1 code unit. *)
Definition lowerChar (c : ascii) : ascii :=
  let n := nat_of_ascii c in
  if (((65 <=? n) && (n <=? 90))
      || ((192 <=? n) && (n <=? 222) && negb (n =? 215)))%nat
  then ascii_of_nat (n + 32) else c.

Fixpoint toLowerCase (s : string) : string :=
  match s with
  | EmptyString => EmptyString
  | String c s' => String (lowerChar c) (toLowerCase s')
  end.

Fixpoint startsWith (s p : string) {struct p} : bool :=
  match p, s with
  | EmptyString, _ => true
  | String _ _, EmptyString => false
  | String a p', String b s' => Ascii.eqb a b && startsWith s' p'
  end.

(** [s.includes(sub)] *)
Fixpoint includes (s sub : string) : bool :=
  startsWith s sub ||
  match s with
  | EmptyString => false
  | String _ s' => includes s' sub
  end.

Fixpoint trimStart (s : string) : string :=
  match s with
  | EmptyString => EmptyString
  | String c s' => if isSpace c then trimStart s' else s
  end.

Fixpoint trimEnd (s : string) : string :=
  match s with
  | EmptyString => EmptyString
  | String c s' =>
      match trimEnd s' with
      | EmptyString => if isSpace c then EmptyString else String c EmptyString
      | t => String c t
      end
  end.

Definition trim (s : string) : string := trimEnd (trimStart s).

(** JavaScript truthiness of a string: only the empty string is falsy. *)
Definition truthy (s : string) : bool :=
  match s with EmptyString => false | _ => true end.

Fixpoint take (n : nat) (s : string) : string :=
  match n, s with
  | S k, String c s' => String c (take k s')
  | _, _ => EmptyString
  end.

Fixpoint drop (n : nat) (s : string) : string :=
  match n, s with
  | S k, String _ s' => drop k s'
  | _, _ => s
  end.

(** [s.substring(0, n)] *)
Definition substring0 (n : nat) (s : string) : string := take n s.

(** Decimal rendering of a length inside a template literal. *)
Definition ofNat (n : nat) : string := NilEmpty.string_of_uint (Nat.to_uint n).

Definition dquote : string := String (ascii_of_nat 34) EmptyString.
Definition newline : string := String (ascii_of_nat 10) EmptyString.

(** [xs.join(sep)] *)
Fixpoint join (sep : string) (xs : list string) : string :=
  match xs with
  | [] => EmptyString
  | [x] => x
  | x :: rest => x ++ sep ++ join sep rest
  end.

End JsString.

(* ================================================================== *)
(** * The regular expressions of the source *)

Module Regex.
Import JsString.

(** Canonicalisation used by the [i] flag without the [u] flag:
    upper-casing of a single code unit, never mapping a code unit
    above 127 onto one below 128. *)
Definition canonicalize (c : ascii) : ascii :=
  let n := nat_of_ascii c in
  if (((97 <=? n) && (n <=? 122))
      || ((224 <=? n) && (n <=? 254) && negb (n =? 247)))%nat
  then ascii_of_nat (n - 32) else c.

(** A literal word matched at the head of [s] under the [i] flag. *)
Fixpoint matchWordCI (w s : string) : bool :=
  match w, s with
  | EmptyString, _ => true
  | String _ _, EmptyString => false
  | String a w', String b s' =>
      Ascii.eqb (canonicalize a) (canonicalize b) && matchWordCI w' s'
  end.

(** An alternation [w1|w2|...] tried left to right at the head of
    [s]: the length of the first alternative that matches. *)
Fixpoint matchAlt (alts : list string) (s : string) : option nat :=
  match alts with
  | [] => None
  | w :: rest => if matchWordCI w s then Some (String.length w) else matchAlt rest s
  end.

(** [s.replace(/w1|w2|.../gi, '')]: scan from the left, delete each
    match and resume after it.  [skip] counts the code units of the
    current match that are still to be deleted. *)
Fixpoint replaceAllFrom (alts : list string) (skip : nat) (s : string) : string :=
  match s with
  | EmptyString => EmptyString
  | String c s' =>
      match skip with
      | S k => replaceAllFrom alts k s'
      | O =>
          match matchAlt alts s with
          | Some (S k) => replaceAllFrom alts k s'
          | _ => String c (replaceAllFrom alts 0 s')
          end
      end
  end.

Definition replaceAll (alts : list string) (s : string) : string :=
  replaceAllFrom alts 0 s.

(** [[^\s]+] matched greedily at the head of [s]. *)
Fixpoint takeNonSpace (s : string) : string :=
  match s with
  | EmptyString => EmptyString
  | String c s' => if isSpace c then EmptyString else String c (takeNonSpace s')
  end.

Definition urlWithScheme (scheme s : string) : option string :=
  if startsWith s scheme then
    match takeNonSpace (drop (String.length scheme) s) with
    | EmptyString => None
    | u => Some (scheme ++ u)
    end
  else None.

(** [/https?:\/\/[^\s]+/] anchored at the head of [s]; the optional
    [s] is tried first. *)
Definition matchUrlAt (s : string) : option string :=
  match urlWithScheme "https://" s with
  | Some u => Some u
  | None => urlWithScheme "http://" s
  end.

(** [s.match(/https?:\/\/[^\s]+/)]: element 0 of the leftmost match,
    [None] for [null]. *)
Fixpoint matchUrl (s : string) : option string :=
  match matchUrlAt s with
  | Some u => Some u
  | None =>
      match s with
      | EmptyString => None
      | String _ s' => matchUrl s'
      end
  end.

End Regex.

(* ================================================================== *)
(** * Completions, the network and JSON payloads *)

Module Js.

(** A thrown value: an instance of [Error] with its message, or
    anything else. *)
Inductive Thrown : Type :=
| ErrorObj (message : string)
| NonError.

Inductive Completion (A : Type) : Type :=
| Normal (a : A)
| Throw (e : Thrown).
Arguments Throw {A} e.

Definition bind {A B} (m : Completion A) (k : A -> Completion B) : Completion B :=
  match m with
  | Normal a => k a
  | Throw e => Throw e
  end.

(** [try { body } catch (error) { handler }] *)
Definition tryCatch {A} (body : Completion A) (handler : Thrown -> Completion A)
  : Completion A :=
  match body with
  | Normal a => Normal a
  | Throw e => handler e
  end.

(** A number, as far as the source can observe one: whether it is
    falsy (zero), and the text [ToString] gives for it, whatever its
    size or fraction ([1e+21] for ten to the twenty-first). *)
Record Number : Type := mkNumber {
  isZero : bool;
  numberText : string
}.

(** The number of an array length or a zero literal. *)
Definition ofLength (n : nat) : Number :=
  mkNumber (n =? 0)%nat (JsString.ofNat n).

(** Values that [response.json()] can produce; an object is its list
    of own properties. *)
Inductive Value : Type :=
| VUndefined
| VNull
| VBool (b : bool)
| VNum (n : Number)
| VStr (s : string)
| VArr (items : list Value)
| VObj (props : list (string * Value)).

Definition truthy (v : Value) : bool :=
  match v with
  | VUndefined | VNull => false
  | VBool b => b
  | VNum n => negb (isZero n)
  | VStr s => JsString.truthy s
  | VArr _ | VObj _ => true
  end.

(** [a || b] *)
Definition orElse (a b : Value) : Value := if truthy a then a else b.

(** [v === 'literal'] *)
Definition strictEq (v : Value) (literal : string) : bool :=
  match v with
  | VStr x => String.eqb x literal
  | _ => false
  end.

Fixpoint lookup (k : string) (props : list (string * Value)) : Value :=
  match props with
  | [] => VUndefined
  | (k', v) :: rest => if String.eqb k k' then v else lookup k rest
  end.

(** [v.k] for one of the property names the source reads ([status],
    [result], [detail], [query], [results], [summary],
    [total_results], [title], [url], [snippet], [content], [token],
    [user]): a [TypeError] on
    [undefined] and [null], the own property of an object, and
    [undefined] on every other value (none of these names is a
    built-in property of a boolean, number, string or array).  The
    wording of a [TypeError] message is the engine's; the functions
    of the source only look for other words in it. *)
Definition get (v : Value) (k : string) : Completion Value :=
  match v with
  | VUndefined =>
      Throw (ErrorObj ("Cannot read properties of undefined (reading '" ++ k ++ "')"))
  | VNull =>
      Throw (ErrorObj ("Cannot read properties of null (reading '" ++ k ++ "')"))
  | VObj props => Normal (lookup k props)
  | _ => Normal VUndefined
  end.

(** Whether an object has an own property of the given name. *)
Fixpoint hasOwn (k : string) (props : list (string * Value)) : bool :=
  match props with
  | [] => false
  | (k', _) :: rest => String.eqb k k' || hasOwn k rest
  end.

(** The [TypeError] of a conversion to text that finds no callable
    [toString] and no primitive [valueOf]. *)
Definition conversionError : Thrown :=
  ErrorObj "Cannot convert object to primitive value".

(** [String(v)], as the [Error] constructor, template literals and
    the string arguments of the platform apply it.  An object of a
    payload is rendered by the inherited [toString] unless it has an
    own property of that name, which cannot be called: then the
    conversion throws a [TypeError].  An array joins the texts of its
    elements, the empty text for [null] and [undefined]. *)
Fixpoint toString (v : Value) : Completion string :=
  match v with
  | VUndefined => Normal "undefined"
  | VNull => Normal "null"
  | VBool true => Normal "true"
  | VBool false => Normal "false"
  | VNum n => Normal (numberText n)
  | VStr s => Normal s
  | VArr items =>
      bind ((fix texts (xs : list Value) : Completion (list string) :=
               match xs with
               | [] => Normal []
               | x :: rest =>
                   bind (match x with
                         | VUndefined | VNull => Normal EmptyString
                         | _ => toString x
                         end)
                        (fun t => bind (texts rest) (fun ts => Normal (t :: ts)))
               end) items)
           (fun ts => Normal (JsString.join "," ts))
  | VObj props =>
      if hasOwn "toString" props
      then Throw conversionError
      else Normal "[object Object]"
  end.

(** Induction on a value that reaches the elements of an array. *)
Section ValueInduction.
Variable P : Value -> Prop.
Hypothesis HUndefined : P VUndefined.
Hypothesis HNull : P VNull.
Hypothesis HBool : forall b, P (VBool b).
Hypothesis HNum : forall n, P (VNum n).
Hypothesis HStr : forall s, P (VStr s).
Hypothesis HArr : forall items, Forall P items -> P (VArr items).
Hypothesis HObj : forall props, P (VObj props).

Fixpoint Value_elements_ind (v : Value) : P v :=
  match v with
  | VUndefined => HUndefined
  | VNull => HNull
  | VBool b => HBool b
  | VNum n => HNum n
  | VStr s => HStr s
  | VArr items =>
      HArr ((fix all (xs : list Value) : Forall P xs :=
               match xs with
               | [] => Forall_nil P
               | x :: rest => Forall_cons x (Value_elements_ind x) (all rest)
               end) items)
  | VObj props => HObj props
  end.
End ValueInduction.

(** An HTTP response: [response.ok], [response.status] and the
    outcome of [response.json()]. *)
Record Response (A : Type) : Type := mkResponse {
  ok : bool;
  status : nat;
  json : Completion A
}.

Fixpoint mapM {A B} (f : A -> Completion B) (xs : list A) : Completion (list B) :=
  match xs with
  | [] => Normal []
  | x :: rest => bind (f x) (fun y => bind (mapM f rest) (fun ys => Normal (y :: ys)))
  end.

End Js.

(* ================================================================== *)
(** * The browser: document, selection, network *)

Module Browser.
Import JsString Js.

(** A DOM range over the plain-text rendering of the document: the
    offsets of its two boundary points. *)
Record Range : Type := mkRange { startOffset : nat; endOffset : nat }.

(** The requests the source sends with [fetch]: a POST to
    [/api/agent] ([query], [action]) or to [/api/chat] ([prompt],
    [session_id]), with the bearer token of the [Authorization]
    header when the call sets one.  A [prompt] of [None] is the
    [undefined] that [JSON.stringify] drops. *)
Inductive Request : Type :=
| AgentRequest (query action : string) (authorization : option string)
| ChatRequest (prompt : option string) (session_id : string)
              (authorization : option string).

(** The body of a [/api/chat] answer, read through [data.response]:
    the text, or [None] when the field is absent. *)
Definition ChatData : Type := option string.

(** Everything a handler of the source can observe or change outside
    its own component state. *)
Record World : Type := mkWorld {
  (** [contentRef.current], as its [textContent]; [None] when the
      editable element is not attached. *)
  contentRef : option string;
  (** [window.getSelection()]: [None] for [null], [Some None] for a
      selection with [rangeCount = 0], [Some (Some r)] for its range. *)
  selection : option (option Range);
  (** whether the Editor component is mounted, that is whether
      [window.editorInsertContent], [window.getEditorContent] and
      [window.setEditorContent] are defined. *)
  bridge : bool;
  (** calls of [document.execCommand(name, false, value)], oldest first *)
  commands : list (string * string);
  (** [fetch] calls, oldest first *)
  requests : list Request;
  (** number of [insertContent] custom events dispatched on [window];
      nothing in the repository listens for them *)
  dispatched : nat;
  (** [alert] messages shown *)
  alerts : list string;
  (** the providers behind [fetch] *)
  fetchAgent : Request -> Completion (Response Value);
  fetchChat : Request -> Completion (Response ChatData);
  (** the text content of the nodes the HTML parser builds from a markup string *)
  textOfHtml : string -> string;
  (** [Date.now()] *)
  now : nat
}.

Definition withDocument (c : option string) (s : option (option Range)) (w : World) : World :=
  mkWorld c s (bridge w) (commands w) (requests w) (dispatched w) (alerts w)
          (fetchAgent w) (fetchChat w) (textOfHtml w) (now w).

Definition logCommand (name value : string) (w : World) : World :=
  mkWorld (contentRef w) (selection w) (bridge w) (commands w ++ [(name, value)])
          (requests w) (dispatched w) (alerts w)
          (fetchAgent w) (fetchChat w) (textOfHtml w) (now w).

Definition logRequest (r : Request) (w : World) : World :=
  mkWorld (contentRef w) (selection w) (bridge w) (commands w)
          (requests w ++ [r]) (dispatched w) (alerts w)
          (fetchAgent w) (fetchChat w) (textOfHtml w) (now w).

Definition dispatchEvent (w : World) : World :=
  mkWorld (contentRef w) (selection w) (bridge w) (commands w)
          (requests w) (S (dispatched w)) (alerts w)
          (fetchAgent w) (fetchChat w) (textOfHtml w) (now w).

Definition alert (msg : string) (w : World) : World :=
  mkWorld (contentRef w) (selection w) (bridge w) (commands w)
          (requests w) (dispatched w) (alerts w ++ [msg])
          (fetchAgent w) (fetchChat w) (textOfHtml w) (now w).

(** ** Computations over the world that may throw *)

Definition M (A : Type) : Type := World -> Completion A * World.

Definition ret {A} (a : A) : M A := fun w => (Normal a, w).
Definition throw {A} (e : Thrown) : M A := fun w => (Throw e, w).
Definition bindM {A B} (m : M A) (k : A -> M B) : M B :=
  fun w => match m w with
           | (Normal a, w') => k a w'
           | (Throw e, w') => (Throw e, w')
           end.
Definition lift {A} (c : Completion A) : M A := fun w => (c, w).
Definition effect (f : World -> World) : M unit := fun w => (Normal tt, f w).
Definition tryCatchM {A} (body : M A) (handler : Thrown -> M A) : M A :=
  fun w => match body w with
           | (Normal a, w') => (Normal a, w')
           | (Throw e, w') => handler e w'
           end.

Declare Scope js_scope.
Delimit Scope js_scope with js.
Notation "x <- m ;; k" := (bindM m (fun x => k))
  (at level 61, m at next level, right associativity) : js_scope.
Notation "m ;;; k" := (bindM m (fun _ => k))
  (at level 61, right associativity) : js_scope.

(** [await fetch(...)] against either endpoint: the call is logged,
    the provider decides the outcome. *)
Definition fetchAgentM (r : Request) : M (Response Value) :=
  fun w => (fetchAgent w r, logRequest r w).
Definition fetchChatM (r : Request) : M (Response ChatData) :=
  fun w => (fetchChat w r, logRequest r w).

(** ** Ranges on the plain text *)

Definition slice (r : Range) (t : string) : string :=
  take (endOffset r - startOffset r) (drop (startOffset r) t).

Definition wfRange (r : Range) (t : string) : Prop :=
  startOffset r <= endOffset r /\ endOffset r <= String.length t.

(** A boundary point of a live range after the text in [[a, b)] is removed. *)
Definition afterDelete (a b o : nat) : nat :=
  if (o <=? a)%nat then o else if (o <=? b)%nat then a else o - (b - a).

(** A boundary point of a live range after [n] code units are
    inserted at [a]: only points behind [a] move. *)
Definition afterInsert (a n o : nat) : nat :=
  if (a <? o)%nat then o + n else o.

Definition mapRange (f : nat -> nat) (s : option (option Range)) : option (option Range) :=
  match s with
  | Some (Some r) => Some (Some (mkRange (f (startOffset r)) (f (endOffset r))))
  | other => other
  end.

(** [range.deleteContents()]: the text of the range is removed, the
    range collapses to its start, the selection follows the mutation. *)
Definition deleteContents (r : Range) (w : World) : Range * World :=
  (mkRange (startOffset r) (startOffset r),
   withDocument
     (option_map (fun t => take (startOffset r) t ++ drop (endOffset r) t) (contentRef w))
     (mapRange (afterDelete (startOffset r) (endOffset r)) (selection w))
     w).

(** [range.insertNode(node)] for a node whose text is [txt]: the
    text goes in at the start of the range, and the range then
    extends over it. *)
Definition insertNode (r : Range) (txt : string) (w : World) : Range * World :=
  (mkRange (startOffset r) (endOffset r + String.length txt),
   withDocument
     (option_map (fun t => take (startOffset r) t ++ txt ++ drop (startOffset r) t)
                 (contentRef w))
     (mapRange (afterInsert (startOffset r) (String.length txt)) (selection w))
     w).

(** [range.collapse(false)] *)
Definition collapseToEnd (r : Range) : Range := mkRange (endOffset r) (endOffset r).

(** [selection?.removeAllRanges(); selection?.addRange(range)] *)
Definition selectRange (r : Range) (w : World) : World :=
  match selection w with
  | Some _ => withDocument (contentRef w) (Some (Some r)) w
  | None => w
  end.

(** [element.innerHTML = html] on the editable element in the plain
    text rendering: the children are replaced by the parsed markup,
    and a range of the selection collapses to the start of the
    element. *)
Definition setInnerText (txt : string) (w : World) : World :=
  withDocument (Some txt) (mapRange (fun _ => 0) (selection w)) w.

(** [document.execCommand('insertHTML', false, html)]: the command
    is enabled only when there is an active range; it then replaces
    the range by the parsed markup and leaves the caret behind it. *)
Definition execInsertHTML (html : string) (w : World) : World :=
  let w1 := logCommand "insertHTML" html w in
  match selection w1 with
  | Some (Some r) =>
      let '(r1, w2) := deleteContents r w1 in
      let '(r2, w3) := insertNode r1 (textOfHtml w html) w2 in
      selectRange (collapseToEnd r2) w3
  | _ => w1
  end.

End Browser.

(* ================================================================== *)
(** * Editor.tsx *)

Module Editor.
Import JsString Js Browser.
Local Open Scope js_scope.

Inductive ActionType : Type := Insert | Replace | Append.

(** [window.editorInsertContent(htmlContent, actionType = 'insert')] *)
Definition editorInsertContent (htmlContent : string) (actionType : ActionType)
           (w : World) : World :=
  match contentRef w with
  | Some text =>
      match actionType, selection w with
      | Replace, Some (Some range) =>
          let '(r1, w1) := deleteContents range w in
          let '(r2, w2) := insertNode r1 (textOfHtml w htmlContent) w1 in
          withDocument (contentRef w2) (Some (Some r2)) w2
      | Append, _ =>
          setInnerText (text ++ textOfHtml w htmlContent) w
      | _, _ =>
          execInsertHTML htmlContent w
      end
  | None => w
  end.

(** [window.getEditorContent()]: [contentRef.current?.textContent || ''] *)
Definition getEditorContent (w : World) : string :=
  match contentRef w with
  | Some text => text
  | None => EmptyString
  end.

(** [window.setEditorContent(content)] *)
Definition setEditorContent (content : string) (w : World) : World :=
  match contentRef w with
  | Some _ => setInnerText (textOfHtml w ("<p>" ++ content ++ "</p>")) w
  | None => w
  end.

Record PreviewData : Type := mkPreviewData {
  original : string;
  suggested : string;
  previewActionType : string;
  selectionRange : option Range
}.

Definition noPreview : PreviewData := mkPreviewData "" "" "" None.

(** The React state of [EnhancedEditor] that the handlers below read
    or write. *)
Record State : Type := mkState {
  selectedText : string;
  showFloatingToolbar : bool;
  isProcessing : bool;
  isConnected : bool;
  token : option string;
  showPreviewModal : bool;
  previewData : PreviewData
}.

Definition setSelectedText (t : string) (s : State) : State :=
  mkState t (showFloatingToolbar s) (isProcessing s) (isConnected s) (token s)
          (showPreviewModal s) (previewData s).
Definition setShowFloatingToolbar (b : bool) (s : State) : State :=
  mkState (selectedText s) b (isProcessing s) (isConnected s) (token s)
          (showPreviewModal s) (previewData s).
Definition setIsProcessing (b : bool) (s : State) : State :=
  mkState (selectedText s) (showFloatingToolbar s) b (isConnected s) (token s)
          (showPreviewModal s) (previewData s).
Definition setShowPreviewModal (b : bool) (s : State) : State :=
  mkState (selectedText s) (showFloatingToolbar s) (isProcessing s) (isConnected s)
          (token s) b (previewData s).
Definition setPreviewData (p : PreviewData) (s : State) : State :=
  mkState (selectedText s) (showFloatingToolbar s) (isProcessing s) (isConnected s)
          (token s) (showPreviewModal s) p.

(** [selection.toString()] *)
Definition selectionToString (w : World) : string :=
  match selection w, contentRef w with
  | Some (Some r), Some text => slice r text
  | _, _ => EmptyString
  end.

(** [handleMouseUp]; the screen position of the toolbar is left out. *)
Definition handleMouseUp (s : State) (w : World) : State :=
  match selection w with
  | Some _ =>
      if JsString.truthy (trim (selectionToString w))
      then setShowFloatingToolbar true (setSelectedText (trim (selectionToString w)) s)
      else setShowFloatingToolbar false s
  | None => setShowFloatingToolbar false s
  end.

Definition tokenTruthy (t : option string) : bool :=
  match t with Some x => JsString.truthy x | None => false end.

(** [prompts[action] || prompts.edit], for the action names of the
    floating toolbar; a name that only [Object.prototype] defines is
    outside the model. *)
Definition editPrompt (action text : string) : string :=
  let q := dquote in
  if String.eqb action "shorten" then
    "Please make this text shorter and more concise while keeping the key points: " ++ q ++ text ++ q
  else if String.eqb action "lengthen" then
    "Please expand this text with more details and examples: " ++ q ++ text ++ q
  else if String.eqb action "table" then
    "Convert this text into a well-formatted HTML table if applicable, or organize it in a structured format: " ++ q ++ text ++ q
  else if String.eqb action "formal" then
    "Rewrite this text in a more formal, professional tone: " ++ q ++ text ++ q
  else if String.eqb action "casual" then
    "Rewrite this text in a more casual, friendly tone: " ++ q ++ text ++ q
  else if String.eqb action "summary" then
    "Create a brief summary of this text: " ++ q ++ text ++ q
  else
    "Please improve and refine this text while keeping its original meaning: " ++ q ++ text ++ q.

(** [callAIForEdit(text, action)]; its [catch] logs and rethrows. *)
Definition callAIForEdit (s : State) (text action : string) : M string :=
  if negb (isConnected s) || negb (tokenTruthy (token s)) then
    throw (ErrorObj "Not connected to AI service or not authenticated")
  else
    fun w =>
    (response <- fetchChatM (ChatRequest (Some (editPrompt action text))
                               ("editor_" ++ ofNat (now w)) (token s)) ;;
     if negb (ok response) then
       if (status response =? 401)%nat
       then throw (ErrorObj "Authentication failed. Please login again.")
       else throw (ErrorObj ("Server error: " ++ ofNat (status response)))
     else
       data <- lift (json response) ;;
       match data with
       | Some r => if JsString.truthy r then ret r else ret text
       | None => ret text
       end) w.

Definition thrownMessage (e : Thrown) : string :=
  match e with
  | ErrorObj m => m
  | NonError => "Unknown error"
  end.

(** [handleFloatingAction(action)] from the point where
    [callAIForEdit] has settled: [outcome] is what it resolved to or
    threw, and [w1] is the world at that time, whose selection the
    handler reads. *)
Definition floatingActionAnswered (action : string) (s1 : State)
           (outcome : Completion string) (w1 : World) : State * World :=
  match outcome with
  | Normal suggestion =>
      match selection w1 with
      | Some (Some range) =>
          (setIsProcessing false
             (setShowPreviewModal true
                (setPreviewData
                   (mkPreviewData (selectedText s1) suggestion action (Some range))
                   s1)),
           w1)
      | _ => (setIsProcessing false s1, w1)
      end
  | Throw e =>
      (setIsProcessing false s1,
       alert ("AI editing failed: " ++ thrownMessage e) w1)
  end.

(** [handleFloatingAction(action)], with nothing else happening
    while the request is pending. *)
Definition handleFloatingAction (action : string) (s : State) (w : World)
  : State * World :=
  if negb (JsString.truthy (selectedText s)) || negb (isConnected s) then
    if negb (isConnected s)
    then (s, alert "Please check your connection to use AI editing features" w)
    else (s, w)
  else
    let s1 := setShowFloatingToolbar false (setIsProcessing true s) in
    let '(outcome, w1) := callAIForEdit s1 (selectedText s1) action w in
    floatingActionAnswered action s1 outcome w1.

(** [handlePreviewAccept] *)
Definition handlePreviewAccept (s : State) (w : World) : State * World :=
  let w' :=
    match selectionRange (previewData s) with
    | Some range =>
        if JsString.truthy (suggested (previewData s)) then
          let '(r1, w1) := deleteContents range w in
          let '(r2, w2) := insertNode r1 (suggested (previewData s)) w1 in
          selectRange (collapseToEnd r2) w2
        else w
    | None => w
    end in
  (setPreviewData noPreview (setShowPreviewModal false s), w').

(** [handlePreviewReject] *)
Definition handlePreviewReject (s : State) (w : World) : State * World :=
  (setPreviewData noPreview (setShowPreviewModal false s), w).

End Editor.

(* ================================================================== *)
(** * AgentContext.tsx *)

Module AgentContext.
Import JsString Js Browser.
Local Open Scope js_scope.

(** The fields are what the [||] defaults leave in them: any truthy
    value of the payload, or the default. *)
Record SearchResult : Type := mkSearchResult {
  title : Value;
  url : Value;
  snippet : Value
}.

Record WebSearchResponse : Type := mkWebSearchResponse {
  query : Value;
  results : list SearchResult;
  summary : Value;
  total_results : Value
}.

(** The callback of [backendResult.results.map(...)]. *)
Definition normalizeResult (result : Value) : Completion SearchResult :=
  bind (get result "title") (fun t =>
  bind (get result "url") (fun u =>
  bind (get result "snippet") (fun sn =>
  Normal (mkSearchResult (orElse t (VStr "Untitled"))
                         (orElse u (VStr "#"))
                         (orElse sn (VStr "No description available")))))).

(** [v.map(f)] on a payload value: only an array has the method. *)
Definition arrayMap {B} (v : Value) (f : Value -> Completion B) : Completion (list B) :=
  match v with
  | VArr items => mapM f items
  | VUndefined =>
      Throw (ErrorObj "Cannot read properties of undefined (reading 'map')")
  | VNull =>
      Throw (ErrorObj "Cannot read properties of null (reading 'map')")
  | _ => Throw (ErrorObj "results.map is not a function")
  end.

(** [v.length] once [v.map] has run, so on an array. *)
Definition arrayLength (v : Value) : nat :=
  match v with
  | VArr items => List.length items
  | _ => 0
  end.

(** The [try] block of [performWebSearch]. *)
Definition performWebSearchBody (q : string) : M WebSearchResponse :=
  response <- fetchAgentM (AgentRequest q "web_search" None) ;;
  if negb (ok response) then
    let errorData := tryCatch (json response)
                       (fun _ => Normal (VObj [("detail", VStr "Unknown error")])) in
    errorData <- lift errorData ;;
    detail <- lift (get errorData "detail") ;;
    message <- lift (toString
                 (orElse detail (VStr ("HTTP error! status: " ++ ofNat (status response))))) ;;
    throw (ErrorObj message)
  else
    data <- lift (json response) ;;
    st <- lift (get data "status") ;;
    if negb (strictEq st "success") then
      throw (ErrorObj "Invalid response format from server")
    else
      backendResult <- lift (get data "result") ;;
      if negb (truthy backendResult) then
        throw (ErrorObj "Invalid response format from server")
      else
        bq <- lift (get backendResult "query") ;;
        rs <- lift (get backendResult "results") ;;
        mapped <- lift (arrayMap rs normalizeResult) ;;
        sm <- lift (get backendResult "summary") ;;
        tr <- lift (get backendResult "total_results") ;;
        ret (mkWebSearchResponse
               (orElse bq (VStr q))
               mapped
               (orElse sm (VStr ("Found " ++ ofNat (arrayLength rs)
                                   ++ " results for: " ++ q)))
               (orElse tr (VNum (ofLength (arrayLength rs))))).

(** The message the [catch] block of [performWebSearch] chooses. *)
Definition searchErrorMessage (error : Thrown) : string :=
  match error with
  | ErrorObj message =>
      if includes message "Failed to fetch" || includes message "NetworkError"
      then "Unable to connect to search service. Please check if the backend is running."
      else if includes message "web_search"
      then "Search feature is not available at the moment."
      else "Error performing search"
  | NonError => "Error performing search"
  end.

(** [performWebSearch(query)] *)
Definition performWebSearch (q : string) : M WebSearchResponse :=
  tryCatchM (performWebSearchBody q)
    (fun error =>
       ret (mkWebSearchResponse (VStr q) [] (VStr (searchErrorMessage error))
                                (VNum (ofLength 0)))).

(** [crawlUrl(url)] *)
Definition crawlUrl (u : string) : M Value :=
  tryCatchM
    (response <- fetchAgentM (AgentRequest u "crawl_url" None) ;;
     if negb (ok response) then
       throw (ErrorObj ("HTTP error! status: " ++ ofNat (status response)))
     else
       data <- lift (json response) ;;
       result <- lift (get data "result") ;;
       content <- match result with
                  | VUndefined | VNull => ret VUndefined
                  | _ => lift (get result "content")
                  end ;;
       ret (orElse content (VStr "Unable to crawl URL")))
    (fun _ => ret (VStr "Error: Unable to crawl the specified URL")).

(** [summarizeContent(content)] *)
Definition summarizeContent (content : string) : M string :=
  tryCatchM
    (fun w =>
       (response <- fetchChatM
          (ChatRequest
             (Some ("Please provide a concise summary of the following content:"
                    ++ newline ++ newline ++ content))
             ("agent_summary_" ++ ofNat (now w)) None) ;;
        if negb (ok response) then
          throw (ErrorObj ("HTTP error! status: " ++ ofNat (status response)))
        else
          data <- lift (json response) ;;
          ret (match data with
               | Some r => if JsString.truthy r then r else "Unable to summarize content"
               | None => "Unable to summarize content"
               end)) w)
    (fun _ => ret "Error: Unable to summarize the provided content").

(** The template literal of [insertToEditor] for one entry; the
    three fields are converted in the order title, snippet, URL. *)
Definition formatResult (r : SearchResult) : Completion string :=
  bind (toString (title r)) (fun t =>
  bind (toString (snippet r)) (fun sn =>
  bind (toString (url r)) (fun u =>
  Normal ("<h3>" ++ t ++ "</h3><p>" ++ sn
          ++ "</p><p><a href=" ++ dquote ++ u ++ dquote
          ++ " target=" ++ dquote ++ "_blank" ++ dquote ++ ">Read more</a></p>")))).

(** [insertToEditor(content)]; the result tells whether the editor
    bridge was there.  The event is dispatched first; the entries
    are formatted only when the bridge is there. *)
Definition insertToEditor (content : WebSearchResponse + string) : M bool :=
  effect dispatchEvent ;;;
  fun w =>
    if bridge w then
      match content with
      | inr text =>
          (Normal true, Editor.editorInsertContent ("<p>" ++ text ++ "</p>") Editor.Insert w)
      | inl response =>
          match mapM formatResult (results response) with
          | Normal parts =>
              (Normal true,
               Editor.editorInsertContent (join "<br/><br/>" parts) Editor.Insert w)
          | Throw e => (Throw e, w)
          end
      end
    else (Normal false, w).

(** The object [processAgentCommand] resolves to, by its [type]. *)
Inductive AgentResult : Type :=
| SearchAndInsert (results : WebSearchResponse) (message : string)
| Crawl (content : Value) (message : string)
| Summarize (message : string)
| Search (results : WebSearchResponse) (message : string)
| Error (message : string).

Definition searchStopWords : list string :=
  ["search"; "for"; "and"; "insert"; "into"; "editor"; "please"].

(** The [try] block of [processAgentCommand]. *)
Definition processAgentCommandBody (command : string) : M AgentResult :=
  let lowerCommand := toLowerCase command in
  if includes lowerCommand "search" && includes lowerCommand "insert" then
    let searchQuery := trim (Regex.replaceAll searchStopWords command) in
    results <- performWebSearch searchQuery ;;
    _ <- insertToEditor (inl results) ;;
    ret (SearchAndInsert results
           ("Searched for " ++ dquote ++ searchQuery ++ dquote ++ " and inserted "
            ++ ofNat (List.length (AgentContext.results results))
            ++ " results into editor."))
  else if includes lowerCommand "crawl" || includes lowerCommand "fetch" then
    match Regex.matchUrl command with
    | Some urlMatch =>
        content <- crawlUrl urlMatch ;;
        ret (Crawl content ("Crawled content from " ++ urlMatch))
    | None => throw (ErrorObj "No valid URL found in command")
    end
  else if includes lowerCommand "summarize" then
    ret (Summarize "Please provide content to summarize or specify a URL to crawl first.")
  else
    results <- performWebSearch command ;;
    ret (Search results
           ("Found " ++ ofNat (List.length (AgentContext.results results))
            ++ " results for: " ++ command)).

(** [processAgentCommand(command)] *)
Definition processAgentCommand (command : string) : M AgentResult :=
  tryCatchM (processAgentCommandBody command)
    (fun error =>
       ret (Error match error with
                  | ErrorObj message => message
                  | NonError => "Unknown error occurred"
                  end)).

End AgentContext.

(* ================================================================== *)
(** * ChatSidebar.tsx *)

Module ChatSidebar.
Import JsString Js Browser.
Local Open Scope js_scope.

(** The object [detectIntent] returns, by its [type]. *)
Inductive Intent : Type :=
| EditorModify (action : string)
| CreateAndInsert
| Search (needsEditor : bool)
| EditorInsert
| Chat.

(** [detectIntent(message)] *)
Definition detectIntent (message : string) : Intent :=
  let lower := toLowerCase message in
  if includes lower "fix grammar" || includes lower "correct"
     || includes lower "improve writing" then
    EditorModify "grammar"
  else if includes lower "make professional" || includes lower "formal tone" then
    EditorModify "professional"
  else if includes lower "make casual" || includes lower "friendly tone" then
    EditorModify "casual"
  else if includes lower "summarize" || includes lower "make shorter" then
    EditorModify "summarize"
  else if (includes lower "write" || includes lower "create")
          && (includes lower "insert" || includes lower "add") then
    CreateAndInsert
  else if includes lower "search" || includes lower "find"
          || includes lower "look up" then
    Search (includes lower "insert" || includes lower "add")
  else if includes lower "insert" || includes lower "add to editor" then
    EditorInsert
  else
    Chat.

Inductive Role : Type := User | Assistant.

Record AIMessage : Type := mkAIMessage {
  content : string;
  role : Role;
  hasEditorAction : option bool;
  editorActionType : option Editor.ActionType;
  editorContent : option string
}.

(** [{ title: result.title, url: result.url, snippet: result.snippet }] *)
Record SearchResult : Type := mkSearchResult {
  title : Value;
  url : Value;
  snippet : Value
}.

(** The React state of [ChatSidebar] and the [token] of [useAuth]. *)
Record State : Type := mkState {
  messages : list AIMessage;
  input : string;
  searchResults : list SearchResult;
  isSearching : bool;
  isLoading : bool;
  sessionId : string;
  connected : bool;  (** [connectionStatus === 'connected'] *)
  token : option string
}.

Definition setMessages (m : list AIMessage) (s : State) : State :=
  mkState m (input s) (searchResults s) (isSearching s) (isLoading s)
          (sessionId s) (connected s) (token s).
Definition setInput (i : string) (s : State) : State :=
  mkState (messages s) i (searchResults s) (isSearching s) (isLoading s)
          (sessionId s) (connected s) (token s).
Definition setSearchResults (r : list SearchResult) (s : State) : State :=
  mkState (messages s) (input s) r (isSearching s) (isLoading s)
          (sessionId s) (connected s) (token s).
Definition setIsSearching (b : bool) (s : State) : State :=
  mkState (messages s) (input s) (searchResults s) b (isLoading s)
          (sessionId s) (connected s) (token s).
Definition setIsLoading (b : bool) (s : State) : State :=
  mkState (messages s) (input s) (searchResults s) (isSearching s) b
          (sessionId s) (connected s) (token s).

Definition tokenTruthy (t : option string) : bool :=
  match t with Some x => JsString.truthy x | None => false end.

Definition pickResult (result : Value) : Completion SearchResult :=
  bind (get result "title") (fun t =>
  bind (get result "url") (fun u =>
  bind (get result "snippet") (fun sn =>
  Normal (mkSearchResult t u sn)))).

(** [handleWebSearch(query)]: the value or the rethrown error, the
    state after [setIsSearching] and [setSearchResults], the world. *)
Definition handleWebSearch (s : State) (q : string) (w : World)
  : Completion (list SearchResult) * State * World :=
  if negb (connected s) || negb (tokenTruthy (token s)) then
    (Throw (ErrorObj "Backend is not connected or user not authenticated"), s, w)
  else
    let body : M (option (list SearchResult)) :=
      response <- fetchAgentM (AgentRequest q "web_search" (token s)) ;;
      if negb (ok response) then
        throw (ErrorObj ("HTTP error! status: " ++ ofNat (status response)))
      else
        data <- lift (json response) ;;
        st <- lift (get data "status") ;;
        if strictEq st "success" then
          result <- lift (get data "result") ;;
          if truthy result then
            rs <- lift (get result "results") ;;
            if truthy rs then
              mapped <- lift (AgentContext.arrayMap rs pickResult) ;;
              ret (Some mapped)
            else ret None
          else ret None
        else ret None in
    match body w with
    | (Normal (Some found), w') =>
        (Normal found, setIsSearching false (setSearchResults found (setIsSearching true s)), w')
    | (Normal None, w') =>
        (Normal [], setIsSearching false (setIsSearching true s), w')
    | (Throw e, w') =>
        (Throw e, setIsSearching false (setIsSearching true s), w')
    end.

(** [insertIntoEditor(content, actionType = 'insert')] *)
Definition insertIntoEditor (html : string) (actionType : Editor.ActionType) : M bool :=
  fun w =>
    if bridge w then (Normal true, Editor.editorInsertContent html actionType w)
    else (Normal false, w).

(** [prompts[action]], [None] for [undefined]; a name that only
    [Object.prototype] defines is outside the model. *)
Definition prompts (action currentContent : string) : option string :=
  if String.eqb action "grammar" then
    Some ("Please fix any grammar, spelling, and punctuation errors in this text while keeping the original meaning: " ++ currentContent)
  else if String.eqb action "professional" then
    Some ("Rewrite this text in a professional, formal tone: " ++ currentContent)
  else if String.eqb action "casual" then
    Some ("Rewrite this text in a casual, friendly tone: " ++ currentContent)
  else if String.eqb action "summarize" then
    Some ("Create a concise summary of this text: " ++ currentContent)
  else None.

Definition doneWord (action : string) : string :=
  if String.eqb action "grammar" then "corrected"
  else if String.eqb action "professional" then "made more professional"
  else if String.eqb action "casual" then "made more casual"
  else "summarized".

Definition noAccess : string :=
  "Unable to access editor content. Please ensure the editor is ready.".

(** [modifyEditorContent(action)] *)
Definition modifyEditorContent (s : State) (action : string) : M string :=
  fun w =>
    if bridge w then
      let currentContent := Editor.getEditorContent w in
      if negb (JsString.truthy currentContent) || String.eqb (trim currentContent) "" then
        ret "No content found in the editor to modify." w
      else
        tryCatchM
          (response <- fetchChatM (ChatRequest (prompts action currentContent)
                                     (sessionId s) (token s)) ;;
           if ok response then
             data <- lift (json response) ;;
             let improvedContent :=
               match data with Some r => r | None => "undefined" end in
             fun w1 =>
               if bridge w1 then
                 (Normal ("Content has been " ++ doneWord action ++ " in your editor."),
                  Editor.setEditorContent improvedContent w1)
               else (Normal noAccess, w1)
           else ret noAccess)
          (fun _ => ret "Failed to modify content. Please try again.")
          w
    else ret noAccess w.

Section Decorations.
(** Three symbols of the source's message literals that lie
    outside Latin-1: the bullet in front of a search hit, the check
    mark and the warning sign. *)
Variables bullet checkMark warningSign : string.

Definition insertStopWords : list string :=
  ["and insert"; "insert"; "add to editor"; "add it"].
Definition searchStopWords : list string :=
  ["search"; "find"; "look up"; "for"; "please"; "insert"; "add"].

(** The template literal of the insertion for one hit; the fields
    are converted in the order title, snippet, URL. *)
Definition formatResult (r : SearchResult) : Completion string :=
  bind (toString (title r)) (fun t =>
  bind (toString (snippet r)) (fun sn =>
  bind (toString (url r)) (fun u =>
  Normal ("<h3>" ++ t ++ "</h3><p>" ++ sn
          ++ "</p><p><a href=" ++ dquote ++ u ++ dquote
          ++ " target=" ++ dquote ++ "_blank" ++ dquote ++ ">Read more</a></p>")))).

(** The template literal of the listing for one hit. *)
Definition listResult (r : SearchResult) : Completion string :=
  bind (toString (title r)) (fun t =>
  bind (toString (snippet r)) (fun sn =>
  Normal (bullet ++ " " ++ t ++ ": " ++ sn))).

(** What the [catch] of the search branch leaves in the local
    variables. *)
Definition searchApology : string :=
  "Sorry, web search is currently unavailable. Please try again later.".

(** What the [try] block of [handleSubmit] has in its four local
    variables when it builds the assistant message. *)
Record Draft : Type := mkDraft {
  assistantContent : string;
  draftHasEditorAction : bool;
  draftActionType : Editor.ActionType;
  draftEditorContent : string
}.

(** The [create_and_insert] branch. *)
Definition createAndInsert (s : State) (currentInput : string) : M Draft :=
  response <- fetchChatM
    (ChatRequest
       (Some (Regex.replaceAll insertStopWords currentInput
              ++ ". Return only the content without any explanations or introductory text."))
       (sessionId s) (token s)) ;;
  if ok response then
    data <- lift (json response) ;;
    match data with
    | None => throw (ErrorObj "Cannot read properties of undefined (reading 'trim')")
    | Some aiResponse =>
        let generatedContent := trim aiResponse in
        inserted <- insertIntoEditor ("<p>" ++ generatedContent ++ "</p>") Editor.Insert ;;
        if inserted then
          ret (mkDraft
                 ("I've generated and inserted the content into your editor:"
                  ++ newline ++ newline ++ dquote ++ substring0 100 generatedContent
                  ++ (if (100 <? String.length generatedContent)%nat then "..." else "")
                  ++ dquote)
                 true Editor.Insert generatedContent)
        else
          ret (mkDraft
                 ("Generated content: " ++ generatedContent ++ newline ++ newline
                  ++ warningSign ++ " Could not insert into editor automatically.")
                 false Editor.Insert generatedContent)
    end
  else ret (mkDraft "Sorry, I could not generate the requested content."
                    false Editor.Insert "").

(** The [search] branch, with its own [try]/[catch]: whatever is
    thrown inside, by the search or by the conversion of a field to
    text, ends in the apology, with no editor action. *)
Definition searchBranch (needsEditor : bool) (s : State) (currentInput : string)
           (w : World) : Draft * State * World :=
  let searchQuery := trim (Regex.replaceAll searchStopWords currentInput) in
  match handleWebSearch s searchQuery w with
  | (Normal found, s1, w1) =>
      match found with
      | _ :: _ =>
          match mapM listResult found with
          | Normal lines =>
              let listing :=
                "Found " ++ ofNat (List.length found) ++ " results for "
                ++ dquote ++ searchQuery ++ dquote ++ ":" ++ newline ++ newline
                ++ join (newline ++ newline) lines in
              if needsEditor then
                match mapM formatResult found with
                | Normal parts =>
                    let formattedContent := join "<br/><br/>" parts in
                    match insertIntoEditor formattedContent Editor.Insert w1 with
                    | (Normal true, w2) =>
                        (mkDraft (listing ++ newline ++ newline ++ checkMark
                                  ++ " Search results have been inserted into your editor!")
                                 true Editor.Insert formattedContent, s1, w2)
                    | (_, w2) => (mkDraft listing false Editor.Insert "", s1, w2)
                    end
                | Throw _ => (mkDraft searchApology false Editor.Insert "", s1, w1)
                end
              else (mkDraft listing false Editor.Insert "", s1, w1)
          | Throw _ => (mkDraft searchApology false Editor.Insert "", s1, w1)
          end
      | [] =>
          (mkDraft ("No results found for " ++ dquote ++ searchQuery ++ dquote
                    ++ ". Please try a different search term.")
                   false Editor.Insert "", s1, w1)
      end
  | (Throw _, s1, w1) => (mkDraft searchApology false Editor.Insert "", s1, w1)
  end.

(** The plain chat branch. *)
Definition chatBranch (s : State) (currentInput : string) : M Draft :=
  response <- fetchChatM (ChatRequest (Some currentInput) (sessionId s) (token s)) ;;
  if ok response then
    data <- lift (json response) ;;
    ret (mkDraft
           (match data with
            | Some r => if JsString.truthy r then r
                        else "Sorry, I could not process your request."
            | None => "Sorry, I could not process your request."
            end)
           false Editor.Insert "")
  else ret (mkDraft "Sorry, I encountered an error processing your request."
                    false Editor.Insert "").

(** The message of the outer [catch] of [handleSubmit]. *)
Definition submitErrorMessage (error : Thrown) : string :=
  match error with
  | ErrorObj message =>
      if includes message "Failed to fetch"
      then "Unable to connect to the AI service. Please check if the backend is running."
      else if includes message "401"
      then "Authentication error. Please login again."
      else "Sorry, I encountered an error processing your request."
  | NonError => "Sorry, I encountered an error processing your request."
  end.

Definition pushMessage (m : AIMessage) (s : State) : State :=
  setMessages (messages s ++ [m]) s.

Definition draftMessage (d : Draft) : AIMessage :=
  mkAIMessage (assistantContent d) Assistant (Some (draftHasEditorAction d))
              (Some (draftActionType d)) (Some (draftEditorContent d)).

(** [handleSubmit(e)]; message ids are left out. *)
Definition handleSubmit (s : State) (w : World) : State * World :=
  if negb (JsString.truthy (trim (input s))) then (s, w)
  else if negb (connected s) || negb (tokenTruthy (token s)) then
    (s, alert "Please login first or check your connection." w)
  else
    let currentInput := input s in
    let s0 := setIsLoading true
                (setInput "" (pushMessage (mkAIMessage currentInput User None None None) s)) in
    let '(outcome, s1, w1) :=
      match detectIntent currentInput with
      | EditorModify action =>
          match modifyEditorContent s0 action w with
          | (Normal msg, w') => (Normal (mkDraft msg true Editor.Replace ""), s0, w')
          | (Throw e, w') => (Throw e, s0, w')
          end
      | CreateAndInsert =>
          let '(r, w') := createAndInsert s0 currentInput w in (r, s0, w')
      | Search needsEditor =>
          let '(d, s', w') := searchBranch needsEditor s0 currentInput w in
          (Normal d, s', w')
      | _ =>
          let '(r, w') := chatBranch s0 currentInput w in (r, s0, w')
      end in
    match outcome with
    | Normal d => (setIsLoading false (pushMessage (draftMessage d) s1), w1)
    | Throw e =>
        (setIsLoading false
           (pushMessage (mkAIMessage (submitErrorMessage e) Assistant None None None) s1),
         w1)
    end.

End Decorations.

End ChatSidebar.

(* ================================================================== *)
(** * AgentCommand.tsx *)

Module AgentCommand.
Import JsString Js Browser.
Local Open Scope js_scope.

(** The React state of [AgentCommand]: the text of the input, the
    busy flag and what is shown below the form. *)
Record State : Type := mkState {
  command : string;
  isProcessing : bool;
  result : option (AgentContext.WebSearchResponse + string)
}.

(** The [try] block of [handleSubmit]: the value is the last argument
    of [setResult]. *)
Definition handleSubmitBody (s : State) : M (AgentContext.WebSearchResponse + string) :=
  searchResults <- AgentContext.performWebSearch (command s) ;;
  if includes (toLowerCase (command s)) "insert into editor" then
    _ <- AgentContext.insertToEditor (inl searchResults) ;;
    ret (inr "Content inserted into editor!")
  else ret (inl searchResults).

(** [handleSubmit(e)] *)
Definition handleSubmit (s : State) (w : World) : State * World :=
  match tryCatchM (handleSubmitBody s)
                  (fun _ => ret (inr "Error processing command")) w with
  | (Normal shown, w') => (mkState (command s) false (Some shown), w')
  | (Throw _, w') => (mkState (command s) false (result s), w')
  end.

End AgentCommand.

(* ================================================================== *)
(** * AuthContext.tsx and the form of AuthLayout.tsx *)

Module AuthContext.
Import JsString Js.

(** The part of a [RequestInit] that [makeAuthenticatedRequest]
    inspects, its [headers] as a plain object, and the rest of it. *)
Record Options : Type := mkOptions {
  headers : list (string * string);
  method : option string;
  body : option string
}.

(** The requests of the provider: the path under [BACKEND_URL] and
    what the call puts into the headers or the body. *)
Inductive Request : Type :=
| Me (authorization : string)
| Login (email password : string)
| Register (name email password : string)
| Logout (authorization : string)
| Authenticated (url : string) (mergedHeaders : list (string * string))
                (method : option string) (body : option string).

(** The React state of [AuthProvider] ([null] is [VNull]), the
    [localStorage] of the window, the requests sent so far, and the
    three things of the platform the provider relies on: the backend
    behind [fetch], [JSON.stringify], and whether the storage refuses
    to store a value under a key given what it holds ([None] when it
    accepts, the thrown quota error otherwise). *)
Record Auth : Type := mkAuth {
  user : Value;
  token : Value;
  isLoading : bool;
  storage : list (string * string);
  sent : list Request;
  backend : Request -> Completion (Response Value);
  stringify : Value -> string;
  refusal : list (string * string) -> string -> string -> option Thrown
}.

Definition setUser (u : Value) (a : Auth) : Auth :=
  mkAuth u (token a) (isLoading a) (storage a) (sent a) (backend a) (stringify a)
         (refusal a).
Definition setToken (t : Value) (a : Auth) : Auth :=
  mkAuth (user a) t (isLoading a) (storage a) (sent a) (backend a) (stringify a)
         (refusal a).
Definition setIsLoading (b : bool) (a : Auth) : Auth :=
  mkAuth (user a) (token a) b (storage a) (sent a) (backend a) (stringify a)
         (refusal a).
Definition setStorage (st : list (string * string)) (a : Auth) : Auth :=
  mkAuth (user a) (token a) (isLoading a) st (sent a) (backend a) (stringify a)
         (refusal a).

(** [localStorage.getItem(key)], [None] for [null] *)
Fixpoint getItem (key : string) (st : list (string * string)) : option string :=
  match st with
  | [] => None
  | (k, v) :: rest => if String.eqb key k then Some v else getItem key rest
  end.

(** [localStorage.removeItem(key)] *)
Fixpoint removeItem (key : string) (st : list (string * string)) : list (string * string) :=
  match st with
  | [] => []
  | (k, v) :: rest =>
      if String.eqb key k then removeItem key rest else (k, v) :: removeItem key rest
  end.

(** The storage after a [localStorage.setItem(key, value)] that the
    storage accepted. *)
Definition setItem (key value : string) (st : list (string * string))
  : list (string * string) :=
  (key, value) :: removeItem key st.

(** [localStorage.setItem(key, value)]: the value is converted to
    text first, which can throw, and the storage can refuse it. *)
Definition storeItem (key : string) (value : Value) (a : Auth) : Completion unit * Auth :=
  match toString value with
  | Throw e => (Throw e, a)
  | Normal text =>
      match refusal a (storage a) key text with
      | Some e => (Throw e, a)
      | None => (Normal tt, setStorage (setItem key text (storage a)) a)
      end
  end.

(** Both keys of the provider removed. *)
Definition clearSaved (a : Auth) : Auth :=
  setStorage (removeItem "user" (removeItem "auth_token" (storage a))) a.

(** [await fetch(...)]: the request is recorded, the backend decides. *)
Definition send (r : Request) (a : Auth) : Completion (Response Value) * Auth :=
  (backend a r,
   mkAuth (user a) (token a) (isLoading a) (storage a) (sent a ++ [r])
          (backend a) (stringify a) (refusal a)).

Definition savedTruthy (v : option string) : bool :=
  match v with Some x => JsString.truthy x | None => false end.

(** [initializeAuth()], run by the effect on mount. *)
Definition initializeAuth (a : Auth) : Auth :=
  let a' :=
    match getItem "auth_token" (storage a), getItem "user" (storage a) with
    | Some savedToken, Some savedUser =>
        if JsString.truthy savedToken && JsString.truthy savedUser then
          match send (Me ("Bearer " ++ savedToken)) a with
          | (Normal response, a1) =>
              if ok response then
                match json response with
                | Normal data =>
                    let a2 := setToken (VStr savedToken) a1 in
                    match get data "user" with
                    | Normal u => setUser u a2
                    | Throw _ => clearSaved a2
                    end
                | Throw _ => clearSaved a1
                end
              else clearSaved a1
          | (Throw _, a1) => clearSaved a1
          end
        else a
    | _, _ => a
    end in
  setIsLoading false a'.

(** [new Error(value)]: the message is the text of the value. *)
Definition errorOf (value : Value) : Thrown :=
  match toString value with
  | Normal message => ErrorObj message
  | Throw e => e
  end.

(** The common body of [login] and [register]: they differ in the
    request and in the message for a refusal without detail.  For a
    payload with token and user, the state is set first and the two
    entries are stored after that, one by one. *)
Definition signIn (request : Request) (fallback : string) (a : Auth)
  : Completion unit * Auth :=
  match send request a with
  | (Normal response, a1) =>
      if ok response then
        match json response with
        | Normal data =>
            match get data "token" with
            | Normal t =>
                if truthy t then
                  match get data "user" with
                  | Normal u =>
                      if truthy u then
                        let a2 := setToken t (setUser u a1) in
                        match storeItem "auth_token" t a2 with
                        | (Normal _, a3) => storeItem "user" (VStr (stringify a3 u)) a3
                        | (Throw e, a3) => (Throw e, a3)
                        end
                      else (Throw (ErrorObj "Invalid response format from server"), a1)
                  | Throw e => (Throw e, a1)
                  end
                else (Throw (ErrorObj "Invalid response format from server"), a1)
            | Throw e => (Throw e, a1)
            end
        | Throw e => (Throw e, a1)
        end
      else
        match json response with
        | Normal errorData =>
            match get errorData "detail" with
            | Normal detail => (Throw (errorOf (orElse detail (VStr fallback))), a1)
            | Throw e => (Throw e, a1)
            end
        | Throw e => (Throw e, a1)
        end
  | (Throw e, a1) => (Throw e, a1)
  end.

(** [login(email, password)] *)
Definition login (email password : string) (a : Auth) : Completion unit * Auth :=
  signIn (Login email password) "Login failed" a.

(** [register(name, email, password)] *)
Definition register (name email password : string) (a : Auth) : Completion unit * Auth :=
  signIn (Register name email password) "Registration failed" a.

(** The [finally] of [logout()]. *)
Definition logoutFinish (a : Auth) : Auth :=
  clearSaved (setToken VNull (setUser VNull a)).

(** [logout()] as far as it runs before its caller continues, and
    whether its request is then pending.  With a token the header is
    built and the request is handed to [fetch]; the [finally] runs
    when the request has settled, whatever its outcome.  Without a
    token, or with one that cannot be converted to text (the
    [TypeError] is caught), nothing is sent and the [finally] runs at
    once. *)
Definition logoutStart (a : Auth) : Auth * bool :=
  if truthy (token a) then
    match toString (token a) with
    | Normal text => (snd (send (Logout ("Bearer " ++ text)) a), true)
    | Throw _ => (logoutFinish a, false)
    end
  else (logoutFinish a, false).

(** [logout()], awaited. *)
Definition logout (a : Auth) : Auth :=
  let (a1, pending) := logoutStart a in
  if pending then logoutFinish a1 else a1.

(** [{ ...base, ...extra }] on plain objects: a key of [extra]
    replaces the value of the same key. *)
Fixpoint assign (key value : string) (obj : list (string * string))
  : list (string * string) :=
  match obj with
  | [] => [(key, value)]
  | (k, v) :: rest =>
      if String.eqb key k then (k, value) :: rest else (k, v) :: assign key value rest
  end.

Definition spread (base extra : list (string * string)) : list (string * string) :=
  fold_left (fun acc kv => assign (fst kv) (snd kv) acc) extra base.

(** [makeAuthenticatedRequest(url, options = {})].  On a 401 the
    source calls [logout()] without awaiting it and throws at once:
    the state it throws in is the one [logoutStart] leaves, and
    [logoutFinish] runs later, when the logout request has settled. *)
Definition makeAuthenticatedRequest (url : string) (options : Options) (a : Auth)
  : Completion (Response Value) * Auth :=
  if negb (truthy (token a)) then
    (Throw (ErrorObj "No authentication token available"), a)
  else
    match toString (token a) with
    | Throw e => (Throw e, a)
    | Normal text =>
        let merged :=
          spread [("Content-Type", "application/json");
                  ("Authorization", "Bearer " ++ text)]
                 (headers options) in
        match send (Authenticated url merged (method options) (body options)) a with
        | (Normal response, a1) =>
            if (status response =? 401)%nat
            then (Throw (ErrorObj "Authentication failed"), fst (logoutStart a1))
            else (Normal response, a1)
        | (Throw e, a1) => (Throw e, a1)
        end
    end.

(** The React state of [AuthForm]. *)
Record Form : Type := mkForm {
  isSignUp : bool;
  formName : string;
  formEmail : string;
  formPassword : string;
  formIsLoading : bool;
  error : string
}.

(** [err.message || '... failed. Please try again.'] *)
Definition formError (signUp : bool) (err : Thrown) : string :=
  let fallback := (if signUp then "Registration" else "Login")
                  ++ " failed. Please try again." in
  match err with
  | ErrorObj message => if JsString.truthy message then message else fallback
  | NonError => fallback
  end.

(** [handleSubmit(e)] of [AuthForm] *)
Definition handleSubmit (f : Form) (a : Auth) : Form * Auth :=
  if negb (JsString.truthy (formEmail f)) || negb (JsString.truthy (formPassword f))
     || (isSignUp f && negb (JsString.truthy (formName f)))
  then (f, a)
  else
    let outcome :=
      if isSignUp f then register (formName f) (formEmail f) (formPassword f) a
      else login (formEmail f) (formPassword f) a in
    match outcome with
    | (Normal _, a1) =>
        (mkForm (isSignUp f) (formName f) (formEmail f) (formPassword f) false "", a1)
    | (Throw err, a1) =>
        (mkForm (isSignUp f) (formName f) (formEmail f) (formPassword f) false
                (formError (isSignUp f) err), a1)
    end.

(** [toggleMode()] *)
Definition toggleMode (f : Form) : Form :=
  mkForm (negb (isSignUp f)) "" "" "" (formIsLoading f) "".

End AuthContext.

(* ================================================================== *)
(** * Predicates of the statements and sample worlds *)

Module Samples.
Import JsString Js Browser.

(** A parser for the examples: the text outside the tags. *)
Fixpoint stripTags (inTag : bool) (s : string) : string :=
  match s with
  | EmptyString => EmptyString
  | String c s' =>
      if Ascii.eqb c "<" then stripTags true s'
      else if Ascii.eqb c ">" then
             if inTag then stripTags false s' else String c (stripTags false s')
           else if inTag then stripTags true s'
                else String c (stripTags false s')
  end.

(** Providers that cannot be reached. *)
Definition unreachableAgent (_ : Request) : Completion (Response Value) :=
  Throw (ErrorObj "Failed to fetch").
Definition unreachableChat (_ : Request) : Completion (Response ChatData) :=
  Throw (ErrorObj "Failed to fetch").

(** A completion provider that answers every prompt with [text]. *)
Definition answering (text : string) (_ : Request) : Completion (Response ChatData) :=
  Normal (mkResponse true 200 (Normal (Some text))).

(** The mounted editor holding [text], with the given selection and
    no provider reachable. *)
Definition editorWith (text : string) (sel : option (option Range)) : World :=
  mkWorld (Some text) sel true [] [] 0 [] unreachableAgent unreachableChat
          (stripTags false) 0.

(** The same editor with a completion provider that answers [reply]. *)
Definition editorAnswering (text reply : string) (sel : option (option Range)) : World :=
  mkWorld (Some text) sel true [] [] 0 [] unreachableAgent (answering reply)
          (stripTags false) 0.

(** A search provider that answers every query with the entries
    [items], and the mounted editor that reaches it. *)
Definition finding (items : list Value) (_ : Request) : Completion (Response Value) :=
  Normal (mkResponse true 200
            (Normal (VObj [("status", VStr "success");
                           ("result", VObj [("results", VArr items)])]))).

Definition editorFinding (text : string) (items : list Value)
           (sel : option (option Range)) : World :=
  mkWorld (Some text) sel true [] [] 0 [] (finding items) unreachableChat
          (stripTags false) 0.

Definition idleEditor : Editor.State :=
  Editor.mkState "" false false true (Some "token") false Editor.noPreview.

Definition readyChat (text : string) : ChatSidebar.State :=
  ChatSidebar.mkState [] text [] false false "session_0" true (Some "token").

End Samples.

Module Statements.
Import JsString Js Browser.

(** The selection carries no range: [window.getSelection()] is
    [null] or has [rangeCount = 0]. *)
Definition noActiveRange (w : World) : Prop :=
  selection w = None \/ selection w = Some None.

(** One of the four editor-transform rules of [detectIntent], which
    come before every other rule, fires on the message. *)
Definition transformRule (message : string) : bool :=
  let lower := toLowerCase message in
  includes lower "fix grammar" || includes lower "correct"
  || includes lower "improve writing"
  || includes lower "make professional" || includes lower "formal tone"
  || includes lower "make casual" || includes lower "friendly tone"
  || includes lower "summarize" || includes lower "make shorter".

(** A literal that the strict pattern accepts as a whole: the scheme
    [http://] or [https://] and then one or more code units, none of
    them white space. *)
Definition wellFormedUrl (u : string) : Prop :=
  exists rest,
    (u = "http://" ++ rest \/ u = "https://" ++ rest)
    /\ rest <> EmptyString
    /\ Regex.takeNonSpace rest = rest.

(** Nothing or white space follows. *)
Definition endsHere (post : string) : Prop :=
  post = EmptyString \/ exists c rest, post = String c rest /\ isSpace c = true.

(** The keyword gate of the crawl branch of [processAgentCommand]:
    the search-and-insert branch does not apply, and [crawl] or
    [fetch] occurs. *)
Definition crawlGate (command : string) : bool :=
  let lower := toLowerCase command in
  negb (includes lower "search" && includes lower "insert")
  && (includes lower "crawl" || includes lower "fetch").

(** The three messages the [catch] of [performWebSearch] can return. *)
Definition searchFailureMessages : list string :=
  [ "Error performing search";
    "Unable to connect to search service. Please check if the backend is running.";
    "Search feature is not available at the moment." ].

(** [sr] is the entry [performWebSearch] makes of the payload entry
    [raw]: each field is the payload's when that is truthy, and the
    default otherwise. *)
Definition normalizedFrom (raw : Value) (sr : AgentContext.SearchResult) : Prop :=
  exists t u sn,
    get raw "title" = Normal t /\ get raw "url" = Normal u
    /\ get raw "snippet" = Normal sn
    /\ AgentContext.title sr = (if truthy t then t else VStr "Untitled")
    /\ AgentContext.url sr = (if truthy u then u else VStr "#")
    /\ AgentContext.snippet sr
       = (if truthy sn then sn else VStr "No description available").

(** The response the [catch] of [performWebSearch] returns. *)
Definition searchFailure (q message : string) : AgentContext.WebSearchResponse :=
  AgentContext.mkWebSearchResponse (VStr q) [] (VStr message) (VNum (ofLength 0)).

(** An entry of a payload whose properties can be read: any value
    but [null] and [undefined]. *)
Definition readable (raw : Value) : Prop := raw <> VUndefined /\ raw <> VNull.

(** The search provider answers the query with a well-formed payload:
    the status is ok, the body parses to an object with the status
    ['success'] and a result object [props] whose [results] is the
    array [items] of readable entries. *)
Definition wellFormedPayload (w : World) (q : string)
           (props : list (string * Value)) (items : list Value) : Prop :=
  exists resp data,
    fetchAgent w (AgentRequest q "web_search" None) = Normal resp
    /\ ok resp = true
    /\ json resp = Normal data
    /\ get data "status" = Normal (VStr "success")
    /\ get data "result" = Normal (VObj props)
    /\ lookup "results" props = VArr items
    /\ Forall readable items.

End Statements.

Module MoreStatements.
Import JsString Js Browser.

(** The text is empty or does not begin with white space. *)
Definition headNonSpace (t : string) : Prop :=
  match t with
  | EmptyString => True
  | String c _ => isSpace c = false
  end.

(** The backend answers the sign-in request with a payload that has
    a truthy token [t] and a truthy user [u]. *)
Definition validPayload (a : AuthContext.Auth) (request : AuthContext.Request)
           (t u : Value) : Prop :=
  exists response data,
    AuthContext.backend a request = Normal response
    /\ ok response = true
    /\ json response = Normal data
    /\ get data "token" = Normal t /\ truthy t = true
    /\ get data "user" = Normal u /\ truthy u = true.

End MoreStatements.

Unset Implicit Arguments.

(* ================================================================== *)
(** * Properties of the editor bridge and the preview workflow *)

Section EditorProperties.
Import JsString Js Browser Editor Statements.

Lemma callAIForEdit_frame (s : State) (text action : string) (w w' : World)
      (r : Completion string) :
  callAIForEdit s text action w = (r, w') ->
  contentRef w' = contentRef w /\ selection w' = selection w
  /\ commands w' = commands w /\ bridge w' = bridge w.
Proof.
  unfold callAIForEdit.
  destruct (negb (isConnected s) || negb (tokenTruthy (token s))).
  - unfold throw. intros H; inversion H; subst; auto.
  - unfold bindM, fetchChatM, throw, lift, ret.
    destruct (fetchChat w _) as [resp | e]; cbn.
    + destruct (negb (ok resp)).
      * destruct (status resp =? 401)%nat; intros H; inversion H; subst; cbn; auto.
      * destruct (json resp) as [[d|]|e]; try destruct (JsString.truthy d);
          intros H; inversion H; subst; cbn; auto.
    + intros H; inversion H; subst; cbn; auto.
Qed.

Lemma handleFloatingAction_frame (action : string) (s : State) (w : World) :
  contentRef (snd (handleFloatingAction action s w)) = contentRef w
  /\ selection (snd (handleFloatingAction action s w)) = selection w
  /\ commands (snd (handleFloatingAction action s w)) = commands w.
Proof.
  unfold handleFloatingAction.
  destruct (negb (JsString.truthy (selectedText s)) || negb (isConnected s)).
  - destruct (negb (isConnected s)); cbn; auto.
  - destruct (callAIForEdit _ _ action w) as [r w1] eqn:E.
    apply callAIForEdit_frame in E. destruct E as (Hc & Hs & Hm & _).
    destruct r as [sg | e]; cbn.
    + destruct (selection w1) as [[rg|]|] eqn:Es; cbn; repeat split; congruence.
    + auto.
Qed.

(** C5. After a transform has been triggered, rejecting the preview
    leaves the document as it was before the trigger: the text read
    through the bridge, the editable element and the list of
    document commands are the same, and the stored suggestion and
    range are gone. *)
Theorem reject_restores_document (action : string) (s : State) (w : World) :
  let triggered := handleFloatingAction action s w in
  let rejected := handlePreviewReject (fst triggered) (snd triggered) in
  getEditorContent (snd rejected) = getEditorContent w
  /\ contentRef (snd rejected) = contentRef w
  /\ commands (snd rejected) = commands w
  /\ snd rejected = snd triggered
  /\ previewData (fst rejected) = noPreview
  /\ showPreviewModal (fst rejected) = false.
Proof.
  cbn zeta. unfold handlePreviewReject; cbn [fst snd].
  destruct (handleFloatingAction_frame action s w) as (Hc & _ & Hm).
  unfold getEditorContent. rewrite Hc, Hm. repeat split; reflexivity.
Qed.

(** C9. With an empty suggestion or without a stored range, the
    accept handler does not touch the world at all; it only closes
    the modal and clears the preview data, exactly as the reject
    handler does. *)
Theorem accept_guard_no_mutation (s : State) (w : World) :
  suggested (previewData s) = EmptyString \/ selectionRange (previewData s) = None ->
  handlePreviewAccept s w = (setPreviewData noPreview (setShowPreviewModal false s), w)
  /\ handlePreviewAccept s w = handlePreviewReject s w.
Proof.
  intros H. unfold handlePreviewAccept, handlePreviewReject.
  destruct (selectionRange (previewData s)) as [r|].
  - destruct H as [H | H]; [ rewrite H; cbn; auto | discriminate H ].
  - auto.
Qed.

Lemma accept_guard_no_mutation_witness :
  let s := mkState "cat" false false true (Some "token") true
                   (mkPreviewData "cat" "" "edit" (Some (mkRange 4 7))) in
  let w := Samples.editorWith "The cat sat" (Some (Some (mkRange 4 7))) in
  contentRef (snd (handlePreviewAccept s w)) = Some "The cat sat"
  /\ handlePreviewAccept s w = handlePreviewReject s w.
Proof.
  cbn zeta.
  split.
  - reflexivity.
  - apply (accept_guard_no_mutation
             (mkState "cat" false false true (Some "token") true
                      (mkPreviewData "cat" "" "edit" (Some (mkRange 4 7))))
             (Samples.editorWith "The cat sat" (Some (Some (mkRange 4 7))))).
    left; reflexivity.
Defined.

End EditorProperties.

(* ================================================================== *)
(** * Facts about strings and ranges *)

Section StringFacts.
Import JsString.

Lemma append_empty_r (s : string) : s ++ EmptyString = s.
Proof. induction s as [|c s IH]; cbn; [reflexivity | now rewrite IH]. Qed.

Lemma append_assoc (a b c : string) : (a ++ b) ++ c = a ++ (b ++ c).
Proof. induction a as [|x a IH]; cbn; [reflexivity | now rewrite IH]. Qed.

Lemma length_append (a b : string) :
  String.length (a ++ b) = String.length a + String.length b.
Proof. induction a as [|x a IH]; cbn; [reflexivity | now rewrite IH]. Qed.

Lemma length_take (n : nat) (s : string) :
  n <= String.length s -> String.length (take n s) = n.
Proof.
  revert s; induction n as [|n IH]; intros [|c s] H; cbn in *; try lia; try reflexivity.
  rewrite IH; lia.
Qed.

Lemma length_drop (n : nat) (s : string) :
  String.length (drop n s) = String.length s - n.
Proof.
  revert s; induction n as [|n IH]; intros [|c s]; cbn; try reflexivity; try lia.
  apply IH.
Qed.

Lemma take_append_exact (a b : string) : take (String.length a) (a ++ b) = a.
Proof. induction a as [|x a IH]; cbn; [now destruct b | now rewrite IH]. Qed.

Lemma drop_append_exact (a b : string) : drop (String.length a) (a ++ b) = b.
Proof. induction a as [|x a IH]; cbn; [now destruct b | exact IH]. Qed.

Lemma take_drop (n : nat) (s : string) : take n s ++ drop n s = s.
Proof.
  revert s; induction n as [|n IH]; intros [|c s]; cbn; try reflexivity.
  now rewrite IH.
Qed.

(** Replacing the text between two offsets: what is before and
    behind stays, and the new text sits at the first offset. *)
Lemma splice_parts (a b : nat) (t sg : string) :
  a <= b -> b <= String.length t ->
  let removed := take a t ++ drop b t in
  let spliced := take a removed ++ sg ++ drop a removed in
  spliced = take a t ++ sg ++ drop b t
  /\ take (String.length sg) (drop a spliced) = sg
  /\ String.length spliced + (b - a) = String.length t + String.length sg.
Proof.
  intros Hab Hb; cbn zeta.
  assert (Ha : String.length (take a t) = a) by (apply length_take; lia).
  assert (E1 : take a (take a t ++ drop b t) = take a t).
  { rewrite <- Ha at 1. apply take_append_exact. }
  assert (E2 : drop a (take a t ++ drop b t) = drop b t).
  { rewrite <- Ha at 1. apply drop_append_exact. }
  rewrite E1, E2. split; [reflexivity|]. split.
  - rewrite <- Ha at 1. rewrite drop_append_exact. apply take_append_exact.
  - rewrite !length_append, Ha, length_drop. lia.
Qed.

Lemma truthy_nonempty (s : string) : truthy s = true <-> s <> EmptyString.
Proof. destruct s; cbn; split; intros; try congruence; auto. Qed.

End StringFacts.

Section BridgeProperties.
Import JsString Js Browser Editor Statements.

(** C1, as the code has it.  A [replace] call made while the
    selection carries no range takes the very branch of an [insert]
    call: on a mounted editor it issues the document command
    [insertHTML] with the given markup, the resulting world is the one
    the [insert] call produces, and nothing distinguishes the call
    for the caller.  With no range the command is disabled, so the
    text of the document stays as it was. *)
Theorem replace_without_range_is_insert (html : string) (w : World) :
  noActiveRange w ->
  editorInsertContent html Replace w = editorInsertContent html Insert w
  /\ contentRef (editorInsertContent html Replace w) = contentRef w
  /\ (contentRef w <> None ->
      commands (editorInsertContent html Replace w)
      = (commands w ++ [("insertHTML", html)])%list).
Proof.
  intros H. unfold editorInsertContent, execInsertHTML.
  destruct (contentRef w) as [text|] eqn:Ec.
  - destruct H as [H | H]; rewrite H; cbn; rewrite H; cbn; repeat split; auto.
  - repeat split; auto. intros N; now elim N.
Qed.

Lemma replace_without_range_is_insert_witness :
  let w := Samples.editorWith "Hello world" (Some None) in
  editorInsertContent "<p>x</p>" Replace w = editorInsertContent "<p>x</p>" Insert w
  /\ contentRef (editorInsertContent "<p>x</p>" Replace w) = contentRef w
  /\ (contentRef w <> None ->
      commands (editorInsertContent "<p>x</p>" Replace w)
      = (commands w ++ [("insertHTML", "<p>x</p>")])%list).
Proof.
  cbn zeta.
  apply (replace_without_range_is_insert "<p>x</p>"
           (Samples.editorWith "Hello world" (Some None))).
  right; reflexivity.
Defined.

(** C1 as stated fails: on a mounted editor whose selection has no
    range, the [replace] call is not a no-op, it issues the
    [insertHTML] command of insert mode and ends in the same world
    as the [insert] call. *)
Lemma replace_without_range_not_noop :
  let w := Samples.editorWith "Hello world" (Some None) in
  noActiveRange w
  /\ editorInsertContent "<p>x</p>" Replace w <> w
  /\ commands (editorInsertContent "<p>x</p>" Replace w) = [("insertHTML", "<p>x</p>")]
  /\ editorInsertContent "<p>x</p>" Replace w = editorInsertContent "<p>x</p>" Insert w.
Proof.
  cbn zeta. split; [right; reflexivity|]. split; [|split; reflexivity].
  intros H. apply (f_equal commands) in H. cbn in H. discriminate H.
Qed.

(** With a selection, [replace] substitutes it; with a mere caret it
    inserts at the caret. *)
Example replace_substitutes_selection :
  getEditorContent
    (editorInsertContent "<b>dog</b>" Replace
       (Samples.editorWith "The cat sat" (Some (Some (mkRange 4 7)))))
  = "The dog sat".
Proof. reflexivity. Qed.

Example replace_at_caret_inserts :
  getEditorContent
    (editorInsertContent "<p>x</p>" Replace
       (Samples.editorWith "Hello world" (Some (Some (mkRange 5 5)))))
  = "Hellox world".
Proof. reflexivity. Qed.

(** What the accept handler does once its guard has passed: the text
    of the stored range is replaced by the suggestion, and the
    selection becomes a caret behind it. *)
Lemma accept_replaces_range (s : State) (w : World) (text sg : string) (r : Range) :
  contentRef w = Some text ->
  selectionRange (previewData s) = Some r ->
  suggested (previewData s) = sg ->
  sg <> EmptyString ->
  wfRange r text ->
  selection w <> None ->
  let w' := snd (handlePreviewAccept s w) in
  fst (handlePreviewAccept s w) = setPreviewData noPreview (setShowPreviewModal false s)
  /\ contentRef w' = Some (take (startOffset r) text ++ sg ++ drop (endOffset r) text)
  /\ selection w'
     = Some (Some (mkRange (startOffset r + String.length sg)
                           (startOffset r + String.length sg)))
  /\ commands w' = commands w /\ requests w' = requests w.
Proof.
  intros Hc Hr Hs Hne [Hab Hb] Hsel. cbn zeta.
  unfold handlePreviewAccept. rewrite Hr, Hs.
  apply truthy_nonempty in Hne. rewrite Hne.
  unfold deleteContents, insertNode, selectRange, collapseToEnd; cbn.
  rewrite Hc; cbn.
  destruct (selection w) as [[sel|]|]; cbn; try congruence;
    destruct (splice_parts _ _ text sg Hab Hb) as (E & _); cbn zeta in E; rewrite E;
    repeat split; reflexivity.
Qed.

Lemma withDocument_same (w : World) :
  withDocument (contentRef w) (selection w) w = w.
Proof. destruct w; reflexivity. Qed.

End BridgeProperties.

Section PreviewRoundTrip.
Import JsString Js Browser Editor Statements.

(** Three moments: the mouse-up in the world [w0], where the range
    [r0] of the text [text0] is selected; the click on the toolbar
    in the world [w]; and the arrival of the answer, when the
    document holds [text] and the selection is the range [r]. *)
Variables (action : string) (s : State) (w0 w : World).
Variables (text0 text : string) (r0 r : Range).
Variables (resp : Response ChatData) (data : ChatData).

(** The request [callAIForEdit] sends for the captured selection. *)
Let request : Request :=
  ChatRequest (Some (editPrompt action (trim (slice r0 text0))))
              ("editor_" ++ ofNat (now w)) (token s).

(** The value [callAIForEdit] resolves to: [data.response || text]. *)
Let reply : string :=
  match data with
  | Some answer => if JsString.truthy answer then answer else trim (slice r0 text0)
  | None => trim (slice r0 text0)
  end.

Hypothesis Hdoc0 : contentRef w0 = Some text0.
Hypothesis Hsel0 : selection w0 = Some (Some r0).
Hypothesis Hpicked : trim (slice r0 text0) <> EmptyString.
Hypothesis Hconn : isConnected s = true.
Hypothesis Htoken : tokenTruthy (token s) = true.
Hypothesis Hfetch : fetchChat w request = Normal resp.
Hypothesis Hok : ok resp = true.
Hypothesis Hjson : json resp = Normal data.
Hypothesis Hwf : wfRange r text.

Lemma reply_nonempty : reply <> EmptyString.
Proof.
  unfold reply. destruct data as [answer|]; [|exact Hpicked].
  destruct (JsString.truthy answer) eqn:E; [|exact Hpicked].
  now apply truthy_nonempty.
Qed.

Lemma mouse_up_stores_trimmed :
  handleMouseUp s w0
  = setShowFloatingToolbar true (setSelectedText (trim (slice r0 text0)) s).
Proof.
  assert (Ht : JsString.truthy (trim (slice r0 text0)) = true)
    by now apply truthy_nonempty.
  unfold handleMouseUp, selectionToString. rewrite Hsel0, Hdoc0, Ht. reflexivity.
Qed.

Lemma pending_edit_resolves :
  let s1 := setShowFloatingToolbar false (setIsProcessing true (handleMouseUp s w0)) in
  selectedText s1 = trim (slice r0 text0)
  /\ callAIForEdit s1 (selectedText s1) action w = (Normal reply, logRequest request w).
Proof.
  cbn zeta. rewrite mouse_up_stores_trimmed.
  cbn [selectedText setSelectedText setShowFloatingToolbar setIsProcessing].
  split; [reflexivity|].
  unfold callAIForEdit.
  cbn [isConnected token selectedText setSelectedText setShowFloatingToolbar
                   setIsProcessing].
  rewrite Hconn, Htoken; cbn [negb orb].
  unfold bindM, fetchChatM. fold request. rewrite Hfetch, Hok; cbn [negb].
  unfold lift. rewrite Hjson. fold reply.
  unfold reply, ret. destruct data as [answer|]; [destruct (JsString.truthy answer)|];
    reflexivity.
Qed.

(** C4, as the code has it.  A selection is captured at a mouse-up,
    a transform is requested and answered, and the preview is
    accepted.  The stored original is the trimmed text of the
    selection at the mouse-up; the stored range is the selection
    when the answer arrives, whatever it was at the mouse-up; the
    suggestion is not empty.  When nothing moved while the request
    was pending, this is [handleFloatingAction] itself.  Accepting
    leaves the text at the arrival with the whole stored range
    replaced by the suggestion, the suggestion at the start offset
    of the range, the cursor a caret at the end of the inserted text
    and the preview data cleared.  The length of the text changes by
    the length of the suggestion minus the length of the text the
    range covers; this is the length of the suggestion minus that of
    the stored original exactly when the range covers as many code
    units as the original has. *)
Theorem accept_round_trip :
  let captured := handleMouseUp s w0 in
  let s1 := setShowFloatingToolbar false (setIsProcessing true captured) in
  let pending := callAIForEdit s1 (selectedText s1) action w in
  let arrived := withDocument (Some text) (Some (Some r)) (snd pending) in
  let answered := floatingActionAnswered action s1 (fst pending) arrived in
  let accepted := handlePreviewAccept (fst answered) (snd answered) in
  let o := original (previewData (fst answered)) in
  let sg := suggested (previewData (fst answered)) in
  let a := startOffset r in
  o = trim (slice r0 text0)
  /\ sg = reply /\ sg <> EmptyString
  /\ selectionRange (previewData (fst answered)) = Some r
  /\ (contentRef w = Some text -> selection w = Some (Some r) ->
      handleFloatingAction action captured w = answered)
  /\ exists text',
      contentRef (snd accepted) = Some text'
      /\ text' = take a text ++ sg ++ drop (endOffset r) text
      /\ slice (mkRange a (a + String.length sg)) text' = sg
      /\ (Z.of_nat (String.length text') - Z.of_nat (String.length text)
          = Z.of_nat (String.length sg) - Z.of_nat (String.length (slice r text)))%Z
      /\ ((Z.of_nat (String.length text') - Z.of_nat (String.length text)
           = Z.of_nat (String.length sg) - Z.of_nat (String.length o))%Z
          <-> String.length (slice r text) = String.length o)
      /\ selection (snd accepted)
         = Some (Some (mkRange (a + String.length sg) (a + String.length sg)))
      /\ previewData (fst accepted) = noPreview.
Proof.
  cbn zeta. destruct pending_edit_resolves as [Hsel1 Hrun]; cbn zeta in Hsel1, Hrun.
  set (s1 := setShowFloatingToolbar false (setIsProcessing true (handleMouseUp s w0)))
    in *.
  assert (Hguard : handleFloatingAction action (handleMouseUp s w0) w
                   = floatingActionAnswered action s1 (Normal reply)
                       (logRequest request w)).
  { unfold handleFloatingAction. fold s1.
    replace (selectedText (handleMouseUp s w0)) with (selectedText s1) by reflexivity.
    replace (isConnected (handleMouseUp s w0)) with (isConnected s)
      by (rewrite mouse_up_stores_trimmed; reflexivity).
    rewrite Hsel1, Hconn. apply truthy_nonempty in Hpicked. rewrite Hpicked.
    cbn [negb orb]. rewrite <- Hsel1, Hrun. reflexivity. }
  rewrite Hrun. cbn [fst snd].
  unfold floatingActionAnswered.
  cbn [selection withDocument fst snd previewData setIsProcessing setShowPreviewModal
                 setPreviewData original suggested selectionRange].
  split; [exact Hsel1|]. split; [reflexivity|]. split; [exact reply_nonempty|].
  split; [reflexivity|]. split.
  { intros Hdoc Hsel. rewrite Hguard.
    replace (withDocument (Some text) (Some (Some r)) (logRequest request w))
      with (logRequest request w);
      [unfold floatingActionAnswered; cbn [selection logRequest];
       rewrite Hsel; reflexivity|].
    rewrite <- (withDocument_same (logRequest request w)) at 1.
    cbn [contentRef selection logRequest]. now rewrite Hdoc, Hsel. }
  set (arrived := withDocument (Some text) (Some (Some r)) (logRequest request w)).
  set (s2 := setIsProcessing false _).
  assert (Hd2 : contentRef arrived = Some text) by reflexivity.
  assert (Hs2 : selection arrived <> None) by (cbn; discriminate).
  destruct (accept_replaces_range s2 arrived text reply r
              Hd2 eq_refl eq_refl reply_nonempty Hwf Hs2) as (Hst & Hc & Hcur & _).
  cbn zeta in Hc, Hcur.
  destruct Hwf as [Hab Hb].
  destruct (splice_parts (startOffset r) (endOffset r) text reply Hab Hb)
    as (E & Hat & Hlen); cbn zeta in E, Hat, Hlen.
  exists (take (startOffset r) text ++ reply ++ drop (endOffset r) text).
  assert (Hslice : String.length (slice r text) = endOffset r - startOffset r).
  { unfold slice. rewrite length_take; [reflexivity|]. rewrite length_drop. lia. }
  assert (Hdelta :
    (Z.of_nat (String.length (take (startOffset r) text ++ reply ++ drop (endOffset r) text))
     - Z.of_nat (String.length text)
     = Z.of_nat (String.length reply) - Z.of_nat (String.length (slice r text)))%Z).
  { rewrite Hslice. rewrite E in Hlen. lia. }
  split; [exact Hc|]. split; [reflexivity|]. split.
  - unfold slice; cbn [startOffset endOffset].
    replace (startOffset r + String.length reply - startOffset r)
      with (String.length reply) by lia.
    rewrite <- E. exact Hat.
  - split; [exact Hdelta|]. split.
    + rewrite Hdelta. split; intros H; lia.
    + split; [exact Hcur|]. rewrite Hst. reflexivity.
Qed.

End PreviewRoundTrip.

Section PreviewRoundTripExamples.
Import JsString Js Browser Editor Statements.

Lemma accept_round_trip_witness :
  let w := Samples.editorAnswering "The cat sat" "dog" (Some (Some (mkRange 4 7))) in
  let captured := handleMouseUp Samples.idleEditor w in
  let s1 := setShowFloatingToolbar false (setIsProcessing true captured) in
  let pending := callAIForEdit s1 (selectedText s1) "edit" w in
  let arrived := withDocument (Some "The cat sat") (Some (Some (mkRange 4 11)))
                              (snd pending) in
  let answered := floatingActionAnswered "edit" s1 (fst pending) arrived in
  let accepted := handlePreviewAccept (fst answered) (snd answered) in
  original (previewData (fst answered)) = "cat"
  /\ suggested (previewData (fst answered)) = "dog"
  /\ selectionRange (previewData (fst answered)) = Some (mkRange 4 11)
  /\ contentRef (snd accepted) = Some "The dog".
Proof.
  cbn zeta.
  pose proof (accept_round_trip "edit" Samples.idleEditor
                (Samples.editorAnswering "The cat sat" "dog" (Some (Some (mkRange 4 7))))
                (Samples.editorAnswering "The cat sat" "dog" (Some (Some (mkRange 4 7))))
                "The cat sat" "The cat sat" (mkRange 4 7) (mkRange 4 11)
                (mkResponse true 200 (Normal (Some "dog")))
                (Some "dog")
                eq_refl eq_refl
                (fun H : trim (slice (mkRange 4 7) "The cat sat") = EmptyString =>
                   match H in (_ = y) return (match y with EmptyString => False | _ => True end)
                   with eq_refl => I end)
                eq_refl eq_refl eq_refl eq_refl eq_refl
                (conj (proj1 (Nat.leb_le 4 11) eq_refl) (le_n 11))) as H.
  cbn zeta in H.
  destruct H as (Ho & Hsg & _ & Hr & _ & text' & Hc & Ht & _).
  split; [exact Ho|]. split; [exact Hsg|]. split; [exact Hr|].
  rewrite Hc, Ht. reflexivity.
Defined.

(** C4 as stated fails.  The selection [" cat "] of ["The cat sat"]
    is stored trimmed, as ["cat"], while the stored range keeps its
    blanks; accepting the suggestion ["dog"] removes the blanks too,
    so the text shrinks by two code units although the suggestion
    is as long as the original. *)
Lemma accept_length_delta_differs :
  let w := Samples.editorAnswering "The cat sat" "dog" (Some (Some (mkRange 3 8))) in
  let triggered := handleFloatingAction "edit" (handleMouseUp Samples.idleEditor w) w in
  let accepted := handlePreviewAccept (fst triggered) (snd triggered) in
  original (previewData (fst triggered)) = "cat"
  /\ suggested (previewData (fst triggered)) = "dog"
  /\ selectionRange (previewData (fst triggered)) = Some (mkRange 3 8)
  /\ getEditorContent (snd accepted) = "Thedogsat"
  /\ (Z.of_nat (String.length (getEditorContent (snd accepted)))
      - Z.of_nat (String.length (getEditorContent w))
      <> Z.of_nat (String.length "dog") - Z.of_nat (String.length "cat"))%Z.
Proof.
  cbn zeta. repeat split; try reflexivity.
  vm_compute. discriminate.
Qed.

End PreviewRoundTripExamples.

(* ================================================================== *)
(** * Properties of the chat sidebar *)

Section ChatSidebarProperties.
Import JsString Js Browser Statements.
Import ChatSidebar.

(** C10. With the editor mounted and a text that is empty or white
    space only, [modifyEditorContent] answers that there is nothing
    to modify and leaves the world untouched: no request is sent and
    the document is the same. *)
Theorem modify_blank_editor (s : State) (action : string) (w : World) :
  bridge w = true ->
  trim (Editor.getEditorContent w) = EmptyString ->
  modifyEditorContent s action w
  = (Normal "No content found in the editor to modify.", w).
Proof.
  intros Hb Ht. unfold modifyEditorContent. rewrite Hb, Ht.
  cbn [String.eqb]. rewrite orb_true_r. reflexivity.
Qed.

Lemma modify_blank_editor_witness :
  let w := Samples.editorWith "   " (Some None) in
  modifyEditorContent (Samples.readyChat "fix grammar") "grammar" w
  = (Normal "No content found in the editor to modify.", w)
  /\ requests w = [] /\ Editor.getEditorContent w = "   ".
Proof.
  cbn zeta. split.
  - apply (modify_blank_editor (Samples.readyChat "fix grammar") "grammar"
             (Samples.editorWith "   " (Some None))); reflexivity.
  - split; reflexivity.
Defined.

(** C6, as the code has it.  A message with [write] or [create],
    with [insert] or [add], and on which no editor-transform rule
    fires, is classified as create-and-insert. *)
Theorem create_and_insert_rule (message : string) :
  let lower := toLowerCase message in
  includes lower "write" || includes lower "create" = true ->
  includes lower "insert" || includes lower "add" = true ->
  transformRule message = false ->
  detectIntent message = CreateAndInsert.
Proof.
  cbn zeta. intros Hgen Hins Hrule. unfold transformRule in Hrule.
  repeat (apply orb_false_elim in Hrule; destruct Hrule as [Hrule ?]).
  unfold detectIntent.
  repeat match goal with H : includes _ _ = false |- _ => rewrite H; clear H end.
  rewrite Hgen, Hins. reflexivity.
Qed.

Lemma create_and_insert_rule_witness :
  detectIntent "Write a paragraph about AI and add it" = CreateAndInsert.
Proof.
  apply (create_and_insert_rule "Write a paragraph about AI and add it");
    reflexivity.
Defined.

(** C6 as stated fails for the verb [generate]: the message has a
    generation verb of the claim and an insertion verb, no transform
    rule fires, and the intent is the plain editor insert. *)
Lemma generate_is_not_create_and_insert :
  let message := "generate a poem and insert it" in
  includes (toLowerCase message) "generate" = true
  /\ includes (toLowerCase message) "insert" = true
  /\ transformRule message = false
  /\ detectIntent message = EditorInsert
  /\ detectIntent message <> CreateAndInsert.
Proof. cbn zeta. repeat split; try reflexivity. vm_compute. discriminate. Qed.

End ChatSidebarProperties.

(* ================================================================== *)
(** * Properties of the agent context *)

Section AgentContextProperties.
Import JsString Js Browser Statements.
Import AgentContext.

(** Behind the keyword gate, a command in which the pattern finds no
    URL makes the [try] block throw before anything is sent. *)
Lemma crawl_branch_without_match (command : string) (w : World) :
  crawlGate command = true ->
  Regex.matchUrl command = None ->
  processAgentCommandBody command w
  = (Throw (ErrorObj "No valid URL found in command"), w).
Proof.
  intros Hgate Hnone. unfold crawlGate in Hgate.
  apply andb_true_iff in Hgate. destruct Hgate as [Hnot Hkey].
  apply negb_true_iff in Hnot.
  unfold processAgentCommandBody. rewrite Hnot, Hkey, Hnone. reflexivity.
Qed.

(** C7. The command ["crawl "] has the crawl keyword and no URL:
    the [try] block throws, [processAgentCommand] resolves to the
    error object with the message of the thrown error, and the world
    is untouched, so no request reached the crawl provider. *)
Theorem crawl_without_url (w : World) :
  Regex.matchUrl "crawl " = None
  /\ processAgentCommand "crawl " w
     = (Normal (Error "No valid URL found in command"), w)
  /\ requests (snd (processAgentCommand "crawl " w)) = requests w.
Proof.
  assert (Hbody : processAgentCommandBody "crawl " w
                  = (Throw (ErrorObj "No valid URL found in command"), w))
    by (apply crawl_branch_without_match; reflexivity).
  assert (Hrun : processAgentCommand "crawl " w
                 = (Normal (Error "No valid URL found in command"), w)).
  { unfold processAgentCommand, tryCatchM. rewrite Hbody. reflexivity. }
  split; [reflexivity|]. split; [exact Hrun|].
  rewrite Hrun. reflexivity.
Qed.

End AgentContextProperties.

Section SearchDispatch.
Import JsString Js Browser Statements.
Import AgentContext.

Lemma orElse_truthy (v d : Value) : truthy d = true -> truthy (orElse v d) = true.
Proof. unfold orElse. destruct (truthy v) eqn:E; auto. Qed.

Lemma normalizeResult_spec (raw : Value) (sr : SearchResult) :
  normalizeResult raw = Normal sr -> normalizedFrom raw sr.
Proof.
  unfold normalizeResult, bind.
  destruct (get raw "title") as [t|] eqn:Et; [|discriminate].
  destruct (get raw "url") as [u|] eqn:Eu; [|discriminate].
  destruct (get raw "snippet") as [sn|] eqn:Es; [|discriminate].
  intros H; inversion H; subst; clear H.
  exists t, u, sn. cbn. unfold orElse. repeat split; auto.
Qed.

Lemma mapM_normalize (items : list Value) (mapped : list SearchResult) :
  mapM normalizeResult items = Normal mapped ->
  Forall2 normalizedFrom items mapped.
Proof.
  revert mapped. induction items as [|raw items IH]; intros mapped; cbn.
  - intros H; inversion H; constructor.
  - unfold bind at 1.
    destruct (normalizeResult raw) as [sr|] eqn:E; [|discriminate].
    unfold bind at 1.
    destruct (mapM normalizeResult items) as [rest|]; [|discriminate].
    cbn. intros H; inversion H; subst.
    constructor; [now apply normalizeResult_spec | now apply IH].
Qed.

Lemma normalized_truthy (items : list Value) (mapped : list SearchResult) :
  Forall2 normalizedFrom items mapped ->
  forall sr, In sr mapped ->
    truthy (title sr) = true /\ truthy (url sr) = true /\ truthy (snippet sr) = true.
Proof.
  induction 1 as [|raw sr items mapped Hn _ IH]; intros x Hin; [destruct Hin|].
  destruct Hin as [<- | Hin]; [|now apply IH].
  destruct Hn as (t & u & sn & _ & _ & _ & Ht & Hu & Hs).
  rewrite Ht, Hu, Hs.
  destruct (truthy t) eqn:E1, (truthy u) eqn:E2, (truthy sn) eqn:E3; auto.
Qed.

Lemma searchErrorMessage_fixed (e : Thrown) :
  In (searchErrorMessage e) searchFailureMessages.
Proof.
  unfold searchErrorMessage, searchFailureMessages.
  destruct e as [message|]; [|cbn; auto].
  destruct (includes message "Failed to fetch" || includes message "NetworkError");
    [cbn; auto|].
  destruct (includes message "web_search"); cbn; auto.
Qed.

(** The [try] block sends exactly one request, whatever comes back. *)
Lemma performWebSearchBody_requests (q : string) (w : World) :
  snd (performWebSearchBody q w) = logRequest (AgentRequest q "web_search" None) w.
Proof.
  unfold performWebSearchBody, bindM, fetchAgentM, lift, throw, ret, tryCatch.
  destruct (fetchAgent w _) as [resp|e]; [|reflexivity].
  destruct (negb (ok resp)).
  - destruct (json resp) as [d|]; cbn;
      try match goal with
          | |- context [get ?v "detail"] => destruct (get v "detail") as [detail|]
          end; cbn; try reflexivity;
      try match goal with
          | |- context [toString ?v] => destruct (toString v)
          end; reflexivity.
  - destruct (json resp) as [d|]; [|reflexivity].
    destruct (get d "status") as [st|]; [|reflexivity].
    destruct (negb (strictEq st "success")); [reflexivity|].
    destruct (get d "result") as [br|]; [|reflexivity].
    destruct (negb (truthy br)); [reflexivity|].
    destruct (get br "query"); [|reflexivity].
    destruct (get br "results") as [rs|]; [|reflexivity].
    destruct (arrayMap rs normalizeResult); [|reflexivity].
    destruct (get br "summary"); [|reflexivity].
    destruct (get br "total_results"); reflexivity.
Qed.

(** An unreachable provider and a status that is not ok make the
    [try] block throw. *)
Lemma performWebSearchBody_refused (q : string) (w : World) :
  (forall e, fetchAgent w (AgentRequest q "web_search" None) = Throw e ->
     fst (performWebSearchBody q w) = Throw e)
  /\ (forall resp, fetchAgent w (AgentRequest q "web_search" None) = Normal resp ->
        ok resp = false ->
        exists e, fst (performWebSearchBody q w) = Throw e).
Proof.
  unfold performWebSearchBody, bindM, fetchAgentM, lift, throw, ret, tryCatch.
  split.
  - intros e He. rewrite He. reflexivity.
  - intros resp Hr Hok. rewrite Hr, Hok. cbn [negb].
    destruct (json resp) as [d|]; cbn;
      try match goal with
          | |- context [get ?v "detail"] => destruct (get v "detail") as [detail|]
          end; cbn; try (eexists; reflexivity);
      try match goal with
          | |- context [toString ?v] => destruct (toString v)
          end; eexists; reflexivity.
Qed.

Lemma get_readable (raw : Value) (k : string) :
  readable raw -> exists v, get raw k = Normal v.
Proof.
  intros [H1 H2]. destruct raw; try congruence; cbn; eexists; reflexivity.
Qed.

Lemma normalizeResult_readable (raw : Value) :
  readable raw <-> exists sr, normalizeResult raw = Normal sr.
Proof.
  split.
  - intros H. unfold normalizeResult.
    destruct (get_readable raw "title" H) as [t ->].
    destruct (get_readable raw "url" H) as [u ->].
    destruct (get_readable raw "snippet" H) as [sn ->].
    cbn. eexists; reflexivity.
  - intros [sr H]. split; intros ->; cbn in H; discriminate.
Qed.

Lemma mapM_normalize_readable (items : list Value) :
  Forall readable items <-> exists mapped, mapM normalizeResult items = Normal mapped.
Proof.
  induction items as [|raw items IH]; cbn.
  - split; [eexists; reflexivity | constructor].
  - split.
    + intros H. inversion H as [|? ? Hr Hrest]; subst.
      apply normalizeResult_readable in Hr. destruct Hr as [sr ->].
      apply IH in Hrest. destruct Hrest as [mapped ->].
      cbn. eexists; reflexivity.
    + intros [mapped H]. unfold bind at 1 in H.
      destruct (normalizeResult raw) as [sr|] eqn:E; [|discriminate].
      unfold bind at 1 in H.
      destruct (mapM normalizeResult items) as [rest|] eqn:Er; [|discriminate].
      constructor.
      * apply normalizeResult_readable. eexists; exact E.
      * apply IH. eexists; reflexivity.
Qed.

(** The [try] block returns exactly on a well-formed payload, and
    then with the fields of the payload or their defaults. *)
Lemma performWebSearchBody_wellFormed (q : string) (w : World)
      (props : list (string * Value)) (items : list Value) :
  wellFormedPayload w q props items ->
  exists mapped,
    mapM normalizeResult items = Normal mapped
    /\ fst (performWebSearchBody q w)
       = Normal (mkWebSearchResponse
                   (orElse (lookup "query" props) (VStr q))
                   mapped
                   (orElse (lookup "summary" props)
                           (VStr ("Found " ++ ofNat (List.length items)
                                  ++ " results for: " ++ q)))
                   (orElse (lookup "total_results" props)
                           (VNum (ofLength (List.length items))))).
Proof.
  intros (resp & data & Hf & Hok & Hj & Hst & Hres & Hitems & Hread).
  apply mapM_normalize_readable in Hread. destruct Hread as [mapped Hm].
  exists mapped. split; [exact Hm|].
  unfold performWebSearchBody, bindM, fetchAgentM, lift, throw, ret, tryCatch.
  rewrite Hf, Hok. cbn [negb]. rewrite Hj, Hst. cbn.
  rewrite Hres. cbn. rewrite Hitems. cbn. rewrite Hm. reflexivity.
Qed.

Lemma performWebSearchBody_returns (q : string) (w : World) (r : WebSearchResponse) :
  fst (performWebSearchBody q w) = Normal r ->
  exists props items, wellFormedPayload w q props items.
Proof.
  unfold performWebSearchBody, bindM, fetchAgentM, lift, throw, ret, tryCatch.
  destruct (fetchAgent w _) as [resp|e] eqn:Ef; [|discriminate].
  destruct (ok resp) eqn:Eok; cbn [negb].
  - destruct (json resp) as [d|] eqn:Ej; [|discriminate].
    destruct (get d "status") as [st|] eqn:Est; [|discriminate].
    destruct (strictEq st "success") eqn:Eeq; cbn [negb]; [|discriminate].
    destruct (get d "result") as [br|] eqn:Er; [|discriminate].
    destruct (truthy br) eqn:Etr; cbn [negb]; [|discriminate].
    destruct (get br "query"); [|discriminate].
    destruct (get br "results") as [rs|] eqn:Ers; [|discriminate].
    destruct (arrayMap rs normalizeResult) as [mapped|] eqn:Em; [|discriminate].
    intros _.
    destruct rs as [| | | | |items|]; cbn in Em; try discriminate.
    destruct br as [| | | | | |props]; cbn in Ers; try discriminate.
    exists props, items. exists resp, d.
    repeat split; auto.
    + destruct st; cbn in Eeq; try discriminate.
      apply String.eqb_eq in Eeq. now subst.
    + congruence.
    + apply mapM_normalize_readable. eexists; exact Em.
  - destruct (json resp) as [d|]; cbn;
      try match goal with
          | |- context [get ?v "detail"] => destruct (get v "detail") as [detail|]
          end; cbn; try discriminate;
      try match goal with
          | |- context [toString ?v] => destruct (toString v)
          end; discriminate.
Qed.

(** C8. [performWebSearch] always resolves to a response value, never
    throws, and sends one request.  Every entry of the response has a
    truthy title, URL and snippet.  When the provider cannot be
    reached, the response is the query, no entries, a total of zero
    and the fixed message chosen from the thrown value; when the
    status is not ok, it is the same with one of the three fixed
    messages, so nothing of the thrown value reaches the caller.
    When the provider answers with a well-formed payload, the entries
    are those of the payload in the payload's order, each field the
    payload's when that is truthy and otherwise ["Untitled"], ["#"]
    or ["No description available"], and the query, the summary and
    the total are the payload's or their defaults.  Every response is
    of one of these two kinds. *)
Theorem performWebSearch_normalizes (q : string) (w : World) :
  exists r,
    performWebSearch q w = (Normal r, logRequest (AgentRequest q "web_search" None) w)
    /\ (forall sr, In sr (results r) ->
          truthy (title sr) = true /\ truthy (url sr) = true
          /\ truthy (snippet sr) = true)
    /\ (forall e, fetchAgent w (AgentRequest q "web_search" None) = Throw e ->
          r = searchFailure q (searchErrorMessage e))
    /\ (forall resp, fetchAgent w (AgentRequest q "web_search" None) = Normal resp ->
          ok resp = false ->
          exists m, In m searchFailureMessages /\ r = searchFailure q m)
    /\ (forall props items, wellFormedPayload w q props items ->
          query r = orElse (lookup "query" props) (VStr q)
          /\ Forall2 normalizedFrom items (results r)
          /\ summary r = orElse (lookup "summary" props)
                                (VStr ("Found " ++ ofNat (List.length items)
                                       ++ " results for: " ++ q))
          /\ total_results r = orElse (lookup "total_results" props)
                                      (VNum (ofLength (List.length items))))
    /\ ((exists m, In m searchFailureMessages /\ r = searchFailure q m)
        \/ exists props items, wellFormedPayload w q props items).
Proof.
  pose proof (performWebSearchBody_requests q w) as Hreq.
  destruct (performWebSearchBody_refused q w) as [Hthrow Hnok].
  pose proof (performWebSearchBody_wellFormed q w) as Hwf.
  pose proof (performWebSearchBody_returns q w) as Hret.
  unfold performWebSearch, tryCatchM, ret.
  destruct (performWebSearchBody q w) as [[r0|e] w1]; cbn [fst snd] in *; subst w1.
  - exists r0. split; [reflexivity|].
    destruct (Hret r0 eq_refl) as (props & items & Hpay).
    assert (Hent : forall props' items', wellFormedPayload w q props' items' ->
              query r0 = orElse (lookup "query" props') (VStr q)
              /\ Forall2 normalizedFrom items' (results r0)
              /\ summary r0 = orElse (lookup "summary" props')
                                     (VStr ("Found " ++ ofNat (List.length items')
                                            ++ " results for: " ++ q))
              /\ total_results r0 = orElse (lookup "total_results" props')
                                           (VNum (ofLength (List.length items')))).
    { intros props' items' Hpay'.
      destruct (Hwf props' items' Hpay') as (mapped' & Hm' & Hr').
      injection Hr' as ->. cbn [query results summary total_results].
      repeat split; auto. now apply mapM_normalize. }
    split; [|split; [|split; [|split]]].
    + destruct (Hent props items Hpay) as (_ & Hall & _).
      now apply (normalized_truthy items).
    + intros e He. specialize (Hthrow e He). discriminate.
    + intros resp Hr Hok. destruct (Hnok resp Hr Hok) as [e He]. discriminate.
    + exact Hent.
    + right. exists props, items. exact Hpay.
  - exists (searchFailure q (searchErrorMessage e)). split; [reflexivity|].
    split; [|split; [|split; [|split]]].
    + intros sr [].
    + intros e' He. specialize (Hthrow e' He). congruence.
    + intros resp Hr Hok. eexists. split; [apply searchErrorMessage_fixed | reflexivity].
    + intros props items Hpay.
      destruct (Hwf props items Hpay) as (mapped & _ & Hr). discriminate.
    + left. eexists. split; [apply searchErrorMessage_fixed | reflexivity].
Qed.

Lemma performWebSearch_normalizes_witness :
  let w := Samples.editorFinding "Hello"
             [VObj [("url", VStr "https://a.b/c"); ("title", VStr "")]; VStr "x"]
             (Some None) in
  exists r,
    performWebSearch "cats" w
    = (Normal r, logRequest (AgentRequest "cats" "web_search" None) w)
    /\ results r
       = [mkSearchResult (VStr "Untitled") (VStr "https://a.b/c")
                         (VStr "No description available");
          mkSearchResult (VStr "Untitled") (VStr "#")
                         (VStr "No description available")]
    /\ query r = VStr "cats"
    /\ summary r = VStr "Found 2 results for: cats"
    /\ total_results r = VNum (ofLength 2).
Proof.
  cbn zeta.
  destruct (performWebSearch_normalizes "cats"
              (Samples.editorFinding "Hello"
                 [VObj [("url", VStr "https://a.b/c"); ("title", VStr "")]; VStr "x"]
                 (Some None)))
    as (r & Hrun & _ & _ & _ & Hpayload & _).
  exists r. split; [exact Hrun|].
  destruct (Hpayload
              [("results",
                VArr [VObj [("url", VStr "https://a.b/c"); ("title", VStr "")]; VStr "x"])]
              [VObj [("url", VStr "https://a.b/c"); ("title", VStr "")]; VStr "x"])
    as (Hq & Hall & Hs & Ht).
  { eexists _, _. repeat split; try reflexivity.
    repeat constructor; discriminate. }
  split; [|split; [exact Hq|split; [exact Hs | exact Ht]]].
  destruct r as [rq rs rsum rt]. cbn [results] in Hall |- *.
  inversion Hall as [|raw1 sr1 rest1 tail1 H1 Hrest]; subst.
  inversion Hrest as [|raw2 sr2 rest2 tail2 H2 Hnil]; subst.
  inversion Hnil; subst.
  destruct H1 as (t1 & u1 & s1 & Ht1 & Hu1 & Hs1 & E1 & E2 & E3).
  destruct H2 as (t2 & u2 & s2 & Ht2 & Hu2 & Hs2 & E4 & E5 & E6).
  cbn in Ht1, Hu1, Hs1, Ht2, Hu2, Hs2.
  injection Ht1 as <-. injection Hu1 as <-. injection Hs1 as <-.
  injection Ht2 as <-. injection Hu2 as <-. injection Hs2 as <-.
  destruct sr1, sr2. cbn in E1, E2, E3, E4, E5, E6. subst. reflexivity.
Defined.

Lemma performWebSearch_requests (q : string) (w : World) :
  exists r,
    performWebSearch q w = (Normal r, logRequest (AgentRequest q "web_search" None) w).
Proof.
  pose proof (performWebSearchBody_requests q w) as H.
  unfold performWebSearch, tryCatchM, ret.
  destruct (performWebSearchBody q w) as [[r0|e] w1]; cbn [snd] in H; subst w1;
    eexists; reflexivity.
Qed.

End SearchDispatch.

Section ArgumentForwarding.
Import JsString Js Browser Statements.

Lemma editorInsertContent_requests (html : string) (a : Editor.ActionType) (w : World) :
  requests (Editor.editorInsertContent html a w) = requests w.
Proof.
  unfold Editor.editorInsertContent, execInsertHTML, setInnerText, selectRange.
  destruct (contentRef w); [|reflexivity].
  destruct a, (selection w) as [[r|]|] eqn:E; cbn; rewrite ?E; reflexivity.
Qed.

(** A conversion to text throws nothing but the conversion error. *)
Lemma toString_throws (v : Value) (e : Thrown) :
  toString v = Throw e -> e = conversionError.
Proof.
  revert e. induction v as [| |b|n|s|items IH|props] using Value_elements_ind;
    intros e; cbn.
  - discriminate.
  - discriminate.
  - destruct b; discriminate.
  - discriminate.
  - discriminate.
  - match goal with
    | |- bind (?f items) _ = _ -> _ =>
        assert (Hitems : forall e', f items = Throw e' -> e' = conversionError)
    end.
    { intros e'. induction IH as [|x rest Hx _ IHrest]; cbn; [discriminate|].
      assert (Hx' : forall t, match x with
                              | VUndefined | VNull => Normal EmptyString
                              | _ => toString x
                              end = Throw t -> t = conversionError).
      { intros t. destruct x; try discriminate; apply Hx. }
      match goal with
      | |- bind ?m _ = _ -> _ => destruct m as [t|t] eqn:Et
      end; cbn.
      - match goal with
        | |- bind ?m _ = _ -> _ => destruct m as [ts|t'] eqn:Ets
        end; cbn; [discriminate|].
        intros H; injection H as <-. now apply IHrest.
      - intros H; injection H as <-. now apply Hx'. }
    match goal with
    | |- bind ?m _ = _ -> _ => destruct m as [ts|t'] eqn:Ets
    end; cbn; [discriminate|].
    intros H; injection H as <-. now apply Hitems.
  - destruct (hasOwn "toString" props); [|discriminate].
    intros H; injection H as <-. reflexivity.
Qed.

Lemma formatResult_throws (r : AgentContext.SearchResult) (e : Thrown) :
  AgentContext.formatResult r = Throw e -> e = conversionError.
Proof.
  unfold AgentContext.formatResult, bind.
  destruct (toString (AgentContext.title r)) eqn:E1;
    [|intros H; injection H as <-; now apply toString_throws in E1].
  destruct (toString (AgentContext.snippet r)) eqn:E2;
    [|intros H; injection H as <-; now apply toString_throws in E2].
  destruct (toString (AgentContext.url r)) eqn:E3;
    [discriminate|intros H; injection H as <-; now apply toString_throws in E3].
Qed.

Lemma mapM_formatResult_throws (rs : list AgentContext.SearchResult) (e : Thrown) :
  mapM AgentContext.formatResult rs = Throw e -> e = conversionError.
Proof.
  induction rs as [|r rs IH]; cbn; [discriminate|].
  unfold bind at 1. destruct (AgentContext.formatResult r) eqn:E;
    [|intros H; injection H as <-; now apply formatResult_throws in E].
  unfold bind at 1. destruct (mapM AgentContext.formatResult rs); [discriminate|].
  intros H; injection H as <-. now apply IH.
Qed.

(** [insertToEditor] on a response sends nothing and dispatches one
    event; it returns unless the bridge is there and an entry has a
    field that cannot be converted to text, and then it throws the
    conversion error with the document untouched. *)
Lemma insertToEditor_outcome (r : AgentContext.WebSearchResponse) (w : World) :
  requests (snd (AgentContext.insertToEditor (inl r) w)) = requests w
  /\ dispatched (snd (AgentContext.insertToEditor (inl r) w)) = S (dispatched w)
  /\ (((bridge w = false
        \/ exists parts, mapM AgentContext.formatResult (AgentContext.results r)
                         = Normal parts)
       /\ fst (AgentContext.insertToEditor (inl r) w) = Normal (bridge w))
      \/ (bridge w = true
          /\ (exists e, mapM AgentContext.formatResult (AgentContext.results r) = Throw e)
          /\ AgentContext.insertToEditor (inl r) w
             = (Throw conversionError, dispatchEvent w))).
Proof.
  unfold AgentContext.insertToEditor, bindM, effect. cbn [bridge dispatchEvent].
  fold (dispatchEvent w).
  destruct (bridge w) eqn:Eb.
  - destruct (mapM AgentContext.formatResult (AgentContext.results r)) as [parts|e] eqn:Em.
    + cbn [fst snd]. rewrite editorInsertContent_requests.
      split; [reflexivity|]. split.
      * unfold Editor.editorInsertContent, execInsertHTML, setInnerText, selectRange.
        cbn. destruct (contentRef w); [|reflexivity].
        destruct (selection w) as [[rg|]|]; reflexivity.
      * left. split; [right; eexists; reflexivity | reflexivity].
    + cbn [fst snd]. split; [reflexivity|]. split; [reflexivity|].
      right. split; [reflexivity|]. split; [eexists; reflexivity|].
      now rewrite (mapM_formatResult_throws _ _ Em).
  - cbn [fst snd]. split; [reflexivity|]. split; [reflexivity|].
    left. split; [now left | reflexivity].
Qed.

(** The search-and-insert branch of [processAgentCommand] sends the
    stripped and trimmed command to the search provider as it is,
    and resolves to the search-and-insert object unless the
    insertion throws the conversion error, which it reports. *)
Lemma processAgentCommand_forwards (command : string) (w : World) :
  includes (toLowerCase command) "search"
  && includes (toLowerCase command) "insert" = true ->
  let searchQuery := trim (Regex.replaceAll AgentContext.searchStopWords command) in
  exists r res w',
    AgentContext.performWebSearch searchQuery w
    = (Normal r, logRequest (AgentRequest searchQuery "web_search" None) w)
    /\ AgentContext.processAgentCommand command w = (Normal res, w')
    /\ requests w' = (requests w ++ [AgentRequest searchQuery "web_search" None])%list
    /\ dispatched w' = S (dispatched w)
    /\ (((bridge w = false
          \/ exists parts, mapM AgentContext.formatResult (AgentContext.results r)
                           = Normal parts)
         /\ res = AgentContext.SearchAndInsert r
                    ("Searched for " ++ dquote ++ searchQuery ++ dquote ++ " and inserted "
                     ++ ofNat (List.length (AgentContext.results r))
                     ++ " results into editor."))
        \/ (bridge w = true
            /\ (exists e, mapM AgentContext.formatResult (AgentContext.results r)
                          = Throw e)
            /\ res = AgentContext.Error "Cannot convert object to primitive value"
            /\ w' = dispatchEvent
                      (logRequest (AgentRequest searchQuery "web_search" None) w))).
Proof.
  intros Hgate; cbn zeta.
  unfold AgentContext.processAgentCommand, tryCatchM, AgentContext.processAgentCommandBody.
  rewrite Hgate. unfold bindM at 1.
  destruct (performWebSearch_requests
              (trim (Regex.replaceAll AgentContext.searchStopWords command)) w) as [r Hr].
  rewrite Hr. unfold bindM at 1.
  set (w1 := logRequest _ w).
  destruct (insertToEditor_outcome r w1) as (Hreq & Hdis & Hout).
  change (bridge w1) with (bridge w) in Hout.
  destruct Hout as [[Hok Hfst] | (Hb & Hthrow & Hrun)].
  - destruct (AgentContext.insertToEditor (inl r) w1) as [res w2].
    cbn [fst snd] in Hreq, Hdis, Hfst. subst res. unfold ret.
    eexists r, _, w2. split; [reflexivity|]. split; [reflexivity|].
    split; [exact Hreq|]. split; [exact Hdis|].
    left. split; [exact Hok | reflexivity].
  - rewrite Hrun. unfold ret, conversionError.
    eexists r, _, _. split; [reflexivity|]. split; [reflexivity|].
    split; [reflexivity|]. split; [reflexivity|].
    right. repeat split; auto.
Qed.

Lemma handleWebSearch_requests (s : ChatSidebar.State) (q : string) (w : World) :
  ChatSidebar.connected s = true ->
  ChatSidebar.tokenTruthy (ChatSidebar.token s) = true ->
  requests (snd (ChatSidebar.handleWebSearch s q w))
  = (requests w ++ [AgentRequest q "web_search" (ChatSidebar.token s)])%list.
Proof.
  intros Hc Ht. unfold ChatSidebar.handleWebSearch. rewrite Hc, Ht. cbn [negb orb].
  unfold bindM, fetchAgentM, lift, throw, ret.
  destruct (fetchAgent w _) as [resp|e]; [|reflexivity].
  destruct (negb (ok resp)); [reflexivity|].
  destruct (json resp) as [d|]; [|reflexivity].
  destruct (get d "status") as [st|]; [|reflexivity].
  destruct (strictEq st "success"); [|reflexivity].
  destruct (get d "result") as [res|]; [|reflexivity].
  destruct (truthy res); [|reflexivity].
  destruct (get res "results") as [rs|]; [|reflexivity].
  destruct (truthy rs); [|reflexivity].
  destruct (AgentContext.arrayMap rs ChatSidebar.pickResult); reflexivity.
Qed.

(** The search branch of [handleSubmit] does the same with the chat
    input. *)
Lemma handleSubmit_forwards (bullet checkMark warningSign : string)
      (s : ChatSidebar.State) (needsEditor : bool) (w : World) :
  trim (ChatSidebar.input s) <> EmptyString ->
  ChatSidebar.connected s = true ->
  ChatSidebar.tokenTruthy (ChatSidebar.token s) = true ->
  ChatSidebar.detectIntent (ChatSidebar.input s) = ChatSidebar.Search needsEditor ->
  requests (snd (ChatSidebar.handleSubmit bullet checkMark warningSign s w))
  = (requests w
     ++ [AgentRequest
           (trim (Regex.replaceAll ChatSidebar.searchStopWords (ChatSidebar.input s)))
           "web_search" (ChatSidebar.token s)])%list.
Proof.
  intros Hin Hc Ht Hintent. apply truthy_nonempty in Hin.
  unfold ChatSidebar.handleSubmit. rewrite Hin, Hc, Ht, Hintent. cbn [negb orb].
  unfold ChatSidebar.searchBranch.
  set (s0 := ChatSidebar.setIsLoading true _).
  set (q := trim _).
  pose proof (handleWebSearch_requests s0 q w Hc Ht) as Hreq.
  change (ChatSidebar.token s0) with (ChatSidebar.token s) in Hreq.
  destruct (ChatSidebar.handleWebSearch s0 q w) as [[res s1] w1].
  cbn [snd] in Hreq.
  destruct res as [found|e]; [|exact Hreq].
  destruct found as [|hit found]; [exact Hreq|].
  destruct (mapM _ (hit :: found)); [|exact Hreq].
  destruct needsEditor; [|exact Hreq].
  destruct (mapM _ (hit :: found)); [|exact Hreq].
  unfold ChatSidebar.insertIntoEditor.
  destruct (bridge w1); cbn [snd]; [|exact Hreq].
  rewrite editorInsertContent_requests. exact Hreq.
Qed.

(** C3, as the code has it.  Neither search entry point checks the
    extracted argument.  [processAgentCommand] on a command with
    [search] and [insert], and the search branch of [handleSubmit],
    each send one request to the search provider whose query is the
    command with the stop words removed and the ends trimmed,
    whatever is left of it.  [processAgentCommand] then dispatches
    the insertion event and resolves to the search-and-insert object
    for the response of that search, unless the bridge is there and
    a field of an entry cannot be converted to text: then it
    resolves to the error object with the message of the conversion
    error, the request sent and the event dispatched. *)
Theorem search_argument_forwarded (command : string) (w : World) :
  (includes (toLowerCase command) "search"
   && includes (toLowerCase command) "insert" = true ->
   let searchQuery := trim (Regex.replaceAll AgentContext.searchStopWords command) in
   exists r res w',
     AgentContext.performWebSearch searchQuery w
     = (Normal r, logRequest (AgentRequest searchQuery "web_search" None) w)
     /\ AgentContext.processAgentCommand command w = (Normal res, w')
     /\ requests w' = (requests w ++ [AgentRequest searchQuery "web_search" None])%list
     /\ dispatched w' = S (dispatched w)
     /\ (((bridge w = false
           \/ exists parts, mapM AgentContext.formatResult (AgentContext.results r)
                            = Normal parts)
          /\ res = AgentContext.SearchAndInsert r
                     ("Searched for " ++ dquote ++ searchQuery ++ dquote
                      ++ " and inserted "
                      ++ ofNat (List.length (AgentContext.results r))
                      ++ " results into editor."))
         \/ (bridge w = true
             /\ (exists e, mapM AgentContext.formatResult (AgentContext.results r)
                           = Throw e)
             /\ res = AgentContext.Error "Cannot convert object to primitive value"
             /\ w' = dispatchEvent
                       (logRequest (AgentRequest searchQuery "web_search" None) w))))
  /\ (forall (bullet checkMark warningSign : string) (s : ChatSidebar.State)
             (needsEditor : bool),
        ChatSidebar.input s = command ->
        trim command <> EmptyString ->
        ChatSidebar.connected s = true ->
        ChatSidebar.tokenTruthy (ChatSidebar.token s) = true ->
        ChatSidebar.detectIntent command = ChatSidebar.Search needsEditor ->
        requests (snd (ChatSidebar.handleSubmit bullet checkMark warningSign s w))
        = (requests w
           ++ [AgentRequest (trim (Regex.replaceAll ChatSidebar.searchStopWords command))
                            "web_search" (ChatSidebar.token s)])%list).
Proof.
  split.
  - intros Hgate. exact (processAgentCommand_forwards command w Hgate).
  - intros bullet checkMark warningSign s needsEditor Hcmd Hin Hc Ht Hintent.
    subst command. now apply handleSubmit_forwards with (needsEditor := needsEditor).
Qed.

Lemma search_argument_forwarded_witness :
  let command := "search for retrieval augmented generation and insert" in
  let w := Samples.editorFinding "Hello"
             [VObj [("title", VObj [("toString", VStr "x")])]] (Some None) in
  (exists r res w',
     AgentContext.performWebSearch "retrieval augmented generation" w
     = (Normal r,
        logRequest (AgentRequest "retrieval augmented generation" "web_search" None) w)
     /\ AgentContext.processAgentCommand command w = (Normal res, w')
     /\ requests w' = [AgentRequest "retrieval augmented generation" "web_search" None]
     /\ dispatched w' = 1
     /\ (((bridge w = false
           \/ exists parts, mapM AgentContext.formatResult (AgentContext.results r)
                            = Normal parts)
          /\ res = AgentContext.SearchAndInsert r
                     ("Searched for " ++ dquote ++ "retrieval augmented generation"
                      ++ dquote ++ " and inserted "
                      ++ ofNat (List.length (AgentContext.results r))
                      ++ " results into editor."))
         \/ (bridge w = true
             /\ (exists e, mapM AgentContext.formatResult (AgentContext.results r)
                           = Throw e)
             /\ res = AgentContext.Error "Cannot convert object to primitive value"
             /\ w' = dispatchEvent
                       (logRequest (AgentRequest "retrieval augmented generation"
                                                 "web_search" None) w))))
  /\ requests (snd (ChatSidebar.handleSubmit "*" "+" "!" (Samples.readyChat command) w))
     = [AgentRequest "retrieval augmented generation and" "web_search" (Some "token")].
Proof.
  cbn zeta.
  destruct (search_argument_forwarded
              "search for retrieval augmented generation and insert"
              (Samples.editorFinding "Hello"
                 [VObj [("title", VObj [("toString", VStr "x")])]] (Some None)))
    as [Hagent Hchat].
  split.
  - exact (Hagent eq_refl).
  - refine (Hchat "*" "+" "!"
              (Samples.readyChat "search for retrieval augmented generation and insert")
              true eq_refl _ eq_refl eq_refl eq_refl).
    intros H; vm_compute in H; discriminate H.
Defined.

(** A title that is an object with a property [toString] of its own
    cannot be converted to text: with the editor mounted, the
    command resolves to the error object, after the request and the
    event, and the document keeps its text. *)
Example unconvertible_title_is_reported :
  let w := Samples.editorFinding "Hello"
             [VObj [("title", VObj [("toString", VStr "x")])]] (Some None) in
  let run := AgentContext.processAgentCommand "search cats and insert" w in
  fst run = Normal (AgentContext.Error "Cannot convert object to primitive value")
  /\ requests (snd run) = [AgentRequest "cats" "web_search" None]
  /\ dispatched (snd run) = 1
  /\ contentRef (snd run) = Some "Hello"
  /\ commands (snd run) = [].
Proof. cbn zeta. repeat split; reflexivity. Qed.

(** C3 as stated fails.  The commands below consist of stop words
    only, the extracted query is empty, and a request with the
    empty query is sent all the same: by [processAgentCommand],
    which resolves to the search-and-insert object and not to an
    error, and by [handleSubmit]. *)
Lemma empty_query_reaches_provider :
  let w := Samples.editorWith "Hello" (Some None) in
  let agentRun := AgentContext.processAgentCommand "search and insert" w in
  let chatRun := ChatSidebar.handleSubmit "*" "+" "!" (Samples.readyChat "search for") w in
  trim (Regex.replaceAll AgentContext.searchStopWords "search and insert") = EmptyString
  /\ requests (snd agentRun) = [AgentRequest "" "web_search" None]
  /\ (exists r, fst agentRun
               = Normal (AgentContext.SearchAndInsert r
                   ("Searched for " ++ dquote ++ dquote
                    ++ " and inserted 0 results into editor.")))
  /\ ChatSidebar.detectIntent "search for" = ChatSidebar.Search false
  /\ trim (Regex.replaceAll ChatSidebar.searchStopWords "search for") = EmptyString
  /\ requests (snd chatRun) = [AgentRequest "" "web_search" (Some "token")].
Proof.
  cbn zeta. split; [reflexivity|]. split; [reflexivity|].
  split; [eexists; reflexivity|]. repeat split; reflexivity.
Qed.

End ArgumentForwarding.

Section UrlExtraction.
Import JsString Js Browser Statements.
Import AgentContext.


Lemma startsWith_split (s p : string) :
  startsWith s p = true -> s = p ++ drop (String.length p) s.
Proof.
  revert s; induction p as [|x p IH]; intros s; cbn.
  - now destruct s.
  - destruct s as [|y s]; [discriminate|].
    intros H. apply andb_true_iff in H. destruct H as [Hxy H].
    apply Ascii.eqb_eq in Hxy. subst y. f_equal. now apply IH.
Qed.









(** [crawlUrl] sends one request with the URL as its query and
    always resolves. *)
Lemma crawlUrl_requests (u : string) (w : World) :
  exists content,
    crawlUrl u w = (Normal content, logRequest (AgentRequest u "crawl_url" None) w).
Proof.
  unfold crawlUrl, tryCatchM, bindM, fetchAgentM, lift, throw, ret.
  destruct (fetchAgent w _) as [resp|e]; [|eexists; reflexivity].
  destruct (negb (ok resp)); [eexists; reflexivity|].
  destruct (json resp) as [d|]; [|eexists; reflexivity].
  destruct (get d "result") as [res|]; [|eexists; reflexivity].
  destruct res; cbn; try (eexists; reflexivity);
    match goal with
    | |- context [lookup ?k ?p] => destruct (lookup k p)
    end; eexists; reflexivity.
Qed.




End UrlExtraction.

(* ================================================================== *)
(** * Further properties of the editor *)

Section TrimFacts.
Import JsString MoreStatements.

Lemma trimStart_head (s : string) : headNonSpace (trimStart s).
Proof.
  induction s as [|c s IH]; cbn; [exact I|].
  destruct (isSpace c) eqn:E; [exact IH | exact E].
Qed.

Lemma trimStart_fixed (t : string) : headNonSpace t -> trimStart t = t.
Proof. destruct t as [|c t]; cbn; [reflexivity|]. now intros ->. Qed.

Lemma trimEnd_head (t : string) : headNonSpace t -> headNonSpace (trimEnd t).
Proof.
  destruct t as [|c t]; cbn; [auto|]. intros H.
  destruct (trimEnd t); [rewrite H|]; exact H.
Qed.

Lemma trimEnd_idempotent (t : string) : trimEnd (trimEnd t) = trimEnd t.
Proof.
  induction t as [|c t IH]; [reflexivity|]. cbn.
  destruct (trimEnd t) as [|d r] eqn:E.
  - destruct (isSpace c) eqn:Ec; cbn; [reflexivity | now rewrite Ec].
  - cbn [trimEnd] in *. rewrite IH. reflexivity.
Qed.

Lemma trim_idempotent (s : string) : trim (trim s) = trim s.
Proof.
  unfold trim.
  rewrite (trimStart_fixed (trimEnd (trimStart s)));
    [apply trimEnd_idempotent | apply trimEnd_head, trimStart_head].
Qed.

End TrimFacts.

Section EditorExtras.
Import JsString Js Browser Editor Statements.

(** X1. A [replace] call on a mounted editor whose selection has a
    range inside the text substitutes exactly that range: the text
    before and behind it stays, the text of the parsed markup sits
    at the start offset, the selection spans the inserted text, and
    no document command is issued. *)
Theorem replace_substitutes_range (html text : string) (r : Range) (w : World) :
  contentRef w = Some text ->
  selection w = Some (Some r) ->
  wfRange r text ->
  let inserted := textOfHtml w html in
  let w' := editorInsertContent html Replace w in
  let span := mkRange (startOffset r) (startOffset r + String.length inserted) in
  contentRef w' = Some (take (startOffset r) text ++ inserted ++ drop (endOffset r) text)
  /\ selection w' = Some (Some span)
  /\ slice span (getEditorContent w') = inserted
  /\ String.length (getEditorContent w') + (endOffset r - startOffset r)
     = String.length text + String.length inserted
  /\ commands w' = commands w.
Proof.
  intros Hc Hs [Hab Hb]; cbn zeta.
  destruct (splice_parts (startOffset r) (endOffset r) text (textOfHtml w html) Hab Hb)
    as (E & Hat & Hlen); cbn zeta in E, Hat, Hlen.
  assert (Hdoc : contentRef (editorInsertContent html Replace w)
                 = Some (take (startOffset r) text ++ textOfHtml w html
                         ++ drop (endOffset r) text)).
  { unfold editorInsertContent, deleteContents, insertNode. rewrite Hc, Hs. cbn.
    now rewrite E. }
  split; [exact Hdoc|]. split.
  - unfold editorInsertContent, deleteContents, insertNode. rewrite Hc, Hs. reflexivity.
  - unfold getEditorContent. rewrite Hdoc. split; [|split].
    + unfold slice; cbn [startOffset endOffset].
      replace (startOffset r + String.length (textOfHtml w html) - startOffset r)
        with (String.length (textOfHtml w html)) by lia.
      rewrite <- E. exact Hat.
    + rewrite <- E. exact Hlen.
    + unfold editorInsertContent, deleteContents, insertNode. rewrite Hc, Hs. reflexivity.
Qed.

Lemma replace_substitutes_range_witness :
  let w := Samples.editorWith "The cat sat" (Some (Some (mkRange 4 7))) in
  contentRef (editorInsertContent "<b>dog</b>s" Replace w) = Some "The dogs sat"
  /\ selection (editorInsertContent "<b>dog</b>s" Replace w) = Some (Some (mkRange 4 8)).
Proof.
  cbn zeta.
  destruct (replace_substitutes_range "<b>dog</b>s" "The cat sat" (mkRange 4 7)
              (Samples.editorWith "The cat sat" (Some (Some (mkRange 4 7))))
              eq_refl eq_refl
              (conj (proj1 (Nat.leb_le 4 7) eq_refl) (proj1 (Nat.leb_le 7 11) eq_refl)))
    as (Hc & Hs & _).
  split; [exact Hc | exact Hs].
Defined.

(** X2. The bridge never reaches a provider or the user: whatever
    the markup, the mode and the world, [editorInsertContent] and
    [setEditorContent] leave the requests, the alerts, the dispatched
    events and the bridge itself as they were, and on an editor that
    is not attached they change nothing at all. *)
Theorem bridge_touches_document_only (html : string) (mode : ActionType) (w : World) :
  let inserted := editorInsertContent html mode w in
  let replaced := setEditorContent html w in
  (requests inserted = requests w /\ alerts inserted = alerts w
   /\ dispatched inserted = dispatched w /\ bridge inserted = bridge w)
  /\ (requests replaced = requests w /\ alerts replaced = alerts w
      /\ dispatched replaced = dispatched w /\ bridge replaced = bridge w
      /\ commands replaced = commands w)
  /\ (contentRef w = None -> inserted = w /\ replaced = w).
Proof.
  cbn zeta. unfold editorInsertContent, setEditorContent, execInsertHTML,
    setInnerText, selectRange.
  destruct (contentRef w) as [text|] eqn:Ec.
  - split; [|split; [repeat split|discriminate]].
    destruct mode, (selection w) as [[r|]|] eqn:Es; cbn; rewrite ?Es; repeat split.
  - repeat split.
Qed.

Lemma bridge_touches_document_only_witness :
  editorInsertContent "<p>x</p>" Append (Samples.editorWith "" None)
  = setInnerText "x" (Samples.editorWith "" None)
  /\ requests (editorInsertContent "<p>x</p>" Append (Samples.editorWith "" None)) = [].
Proof.
  split; [reflexivity|].
  destruct (bridge_touches_document_only "<p>x</p>" Append (Samples.editorWith "" None))
    as ((Hreq & _) & _).
  exact Hreq.
Defined.

(** X3. [handleMouseUp] shows the floating toolbar exactly when the
    selected text is more than white space.  When it shows it, the
    stored text is the trimmed selection: it is not empty and
    trimming it again changes nothing.  When it hides it, the text
    stored by an earlier selection is kept. *)
Theorem mouse_up_captures_trimmed (s : State) (w : World) :
  let s' := handleMouseUp s w in
  (showFloatingToolbar s' = true <-> trim (selectionToString w) <> EmptyString)
  /\ (showFloatingToolbar s' = true ->
      selectedText s' = trim (selectionToString w)
      /\ selectedText s' <> EmptyString
      /\ trim (selectedText s') = selectedText s')
  /\ (showFloatingToolbar s' = false -> selectedText s' = selectedText s).
Proof.
  cbn zeta. unfold handleMouseUp.
  destruct (selection w) as [sel|] eqn:Es.
  - destruct (JsString.truthy (trim (selectionToString w))) eqn:Et; cbn.
    + pose proof (proj1 (truthy_nonempty _) Et) as Hne.
      split; [tauto|]. split; [|discriminate].
      intros _. split; [reflexivity|]. split; [exact Hne | apply trim_idempotent].
    + assert (Hempty : trim (selectionToString w) = EmptyString)
        by (destruct (trim (selectionToString w)); [reflexivity | discriminate]).
      split; [|split; [discriminate | reflexivity]].
      split; [discriminate | intros H; now elim H].
  - assert (Hempty : selectionToString w = EmptyString)
      by (unfold selectionToString; now rewrite Es).
    rewrite Hempty. cbn.
    split; [|split; [discriminate | reflexivity]].
    split; [discriminate | intros H; now elim H].
Qed.

Lemma mouse_up_captures_trimmed_witness :
  let w := Samples.editorWith "The cat sat" (Some (Some (mkRange 3 8))) in
  selectedText (handleMouseUp Samples.idleEditor w) = "cat".
Proof.
  cbn zeta.
  destruct (mouse_up_captures_trimmed Samples.idleEditor
              (Samples.editorWith "The cat sat" (Some (Some (mkRange 3 8)))))
    as (_ & Hshown & _).
  destruct (Hshown eq_refl) as (Htext & _). exact Htext.
Defined.

(** X4. Accepting twice changes the document once: after one accept
    the preview data are cleared, so a second accept finds its guard
    closed and returns the state and the world it was given. *)
Theorem accept_twice_is_accept_once (s : State) (w : World) :
  let once := handlePreviewAccept s w in
  handlePreviewAccept (fst once) (snd once) = once.
Proof.
  cbn zeta. unfold handlePreviewAccept at 1. cbn [fst snd].
  destruct (handlePreviewAccept s w) as [s1 w1] eqn:E.
  unfold handlePreviewAccept in E. inversion E; subst; clear E.
  cbn [previewData setPreviewData selectionRange noPreview].
  reflexivity.
Qed.

End EditorExtras.

Section FloatingActionExtras.
Import JsString Js Browser Editor Statements.



(** X6. A provider that refuses the edit is reported and nothing is
    stored: for a status other than success the user gets one alert,
    the login request for 401 and the status number otherwise; the
    preview data and the modal are as before, the busy flag is off
    and the toolbar hidden. *)
Theorem refused_edit_is_reported (action : string) (s : State) (w : World)
        (resp : Response ChatData) :
  selectedText s <> EmptyString ->
  isConnected s = true ->
  tokenTruthy (token s) = true ->
  fetchChat w (ChatRequest (Some (editPrompt action (selectedText s)))
                           ("editor_" ++ ofNat (now w)) (token s)) = Normal resp ->
  ok resp = false ->
  let r := handleFloatingAction action s w in
  alerts (snd r)
  = (alerts w
     ++ [("AI editing failed: "
          ++ (if (status resp =? 401)%nat
              then "Authentication failed. Please login again."
              else "Server error: " ++ ofNat (status resp)))%string])%list
  /\ previewData (fst r) = previewData s
  /\ showPreviewModal (fst r) = showPreviewModal s
  /\ isProcessing (fst r) = false
  /\ showFloatingToolbar (fst r) = false
  /\ contentRef (snd r) = contentRef w.
Proof.
  intros Hne Hconn Htok Hfetch Hok; cbn zeta.
  apply truthy_nonempty in Hne.
  unfold handleFloatingAction. rewrite Hne, Hconn; cbn [negb orb].
  unfold callAIForEdit.
  cbn [isConnected token selectedText setShowFloatingToolbar setIsProcessing].
  rewrite Hconn, Htok; cbn [negb orb].
  unfold bindM, fetchChatM. rewrite Hfetch, Hok; cbn [negb].
  destruct (status resp =? 401)%nat; cbn; repeat split; reflexivity.
Qed.

Lemma refused_edit_is_reported_witness :
  let w := mkWorld (Some "The cat sat") (Some (Some (mkRange 4 7))) true [] [] 0 []
             Samples.unreachableAgent
             (fun _ => Normal (mkResponse false 401 (Throw NonError)))
             (Samples.stripTags false) 0 in
  let s := mkState "cat" true false true (Some "token") false noPreview in
  alerts (snd (handleFloatingAction "formal" s w))
  = ["AI editing failed: Authentication failed. Please login again."].
Proof.
  cbn zeta.
  assert (Hne : "cat" <> EmptyString) by discriminate.
  destruct (refused_edit_is_reported "formal"
              (mkState "cat" true false true (Some "token") false noPreview)
              (mkWorld (Some "The cat sat") (Some (Some (mkRange 4 7))) true [] [] 0 []
                 Samples.unreachableAgent
                 (fun _ => Normal (mkResponse false 401 (Throw NonError)))
                 (Samples.stripTags false) 0)
              (mkResponse false 401 (Throw NonError))
              Hne eq_refl eq_refl eq_refl eq_refl) as (Ha & _).
  exact Ha.
Defined.

End FloatingActionExtras.

(* ================================================================== *)
(** * Further properties of the chat sidebar *)

Section IntentExtras.
Import JsString Js Browser Statements.
Import ChatSidebar.

Lemma lowerChar_idempotent (c : Ascii.ascii) : lowerChar (lowerChar c) = lowerChar c.
Proof. destruct c as [[] [] [] [] [] [] [] []]; reflexivity. Qed.

Lemma toLowerCase_idempotent (s : string) : toLowerCase (toLowerCase s) = toLowerCase s.
Proof.
  induction s as [|c s IH]; cbn; [reflexivity|].
  now rewrite lowerChar_idempotent, IH.
Qed.

(** X7. [detectIntent] does not see the case of letters: two
    messages with the same lower-case form get the same intent, and
    so does a message and its lower-case form. *)
Theorem detectIntent_ignores_case (m1 m2 : string) :
  toLowerCase m1 = toLowerCase m2 ->
  detectIntent m1 = detectIntent m2
  /\ detectIntent (toLowerCase m1) = detectIntent m1.
Proof.
  intros H. split.
  - unfold detectIntent. now rewrite H.
  - unfold detectIntent. now rewrite toLowerCase_idempotent.
Qed.

Lemma detectIntent_ignores_case_witness :
  detectIntent "FIX Grammar, PLEASE" = detectIntent "fix grammar, please".
Proof.
  apply (detectIntent_ignores_case "FIX Grammar, PLEASE" "fix grammar, please").
  reflexivity.
Defined.

Ltac split_transform_phrases lower :=
  destruct (includes lower "fix grammar"), (includes lower "correct"),
    (includes lower "improve writing"), (includes lower "make professional"),
    (includes lower "formal tone"), (includes lower "make casual"),
    (includes lower "friendly tone"), (includes lower "summarize"),
    (includes lower "make shorter"); cbn [orb].

Lemma transform_gives_editor_modify (message : string) :
  transformRule message = true ->
  exists action,
    In action ["grammar"; "professional"; "casual"; "summarize"]
    /\ detectIntent message = EditorModify action.
Proof.
  unfold transformRule, detectIntent.
  set (lower := toLowerCase message).
  split_transform_phrases lower; intros H; try discriminate H;
    refine (ex_intro _ _ (conj _ eq_refl)); cbn; tauto.
Qed.

Lemma no_transform_no_editor_modify (message action : string) :
  transformRule message = false ->
  detectIntent message <> EditorModify action.
Proof.
  unfold transformRule, detectIntent.
  set (lower := toLowerCase message).
  split_transform_phrases lower; intros H; try discriminate H.
  destruct ((includes lower "write" || includes lower "create")
            && (includes lower "insert" || includes lower "add")); [discriminate|].
  destruct (includes lower "search" || includes lower "find" || includes lower "look up");
    [discriminate|].
  destruct (includes lower "insert" || includes lower "add to editor"); discriminate.
Qed.

Lemma known_action_has_prompt (action currentContent : string) :
  In action ["grammar"; "professional"; "casual"; "summarize"] ->
  prompts action currentContent <> None.
Proof.
  intros [<- | [<- | [<- | [<- | []]]]]; cbn; discriminate.
Qed.

(** X8. The editor-transform intent is produced exactly when one of
    the transform phrases occurs, whatever else the message holds,
    and its action is always one of the four for which
    [modifyEditorContent] has a prompt. *)
Theorem editor_modify_exactly_on_transform (message : string) :
  (transformRule message = true <-> exists action, detectIntent message = EditorModify action)
  /\ (forall action, detectIntent message = EditorModify action ->
        In action ["grammar"; "professional"; "casual"; "summarize"]
        /\ forall currentContent, prompts action currentContent <> None).
Proof.
  split.
  - split.
    + intros H. destruct (transform_gives_editor_modify message H) as (a & _ & Ha).
      now exists a.
    + intros [a Ha]. destruct (transformRule message) eqn:E; [reflexivity|].
      now elim (no_transform_no_editor_modify message a E).
  - intros a Ha. destruct (transformRule message) eqn:E.
    + destruct (transform_gives_editor_modify message E) as (b & Hin & Hb).
      assert (a = b) by congruence. subst b.
      split; [exact Hin|]. intros c. now apply known_action_has_prompt.
    + now elim (no_transform_no_editor_modify message a E).
Qed.

End IntentExtras.

Section SubmitExtras.
Import JsString Js Browser Statements.
Import ChatSidebar.

Variables bullet checkMark warningSign : string.

Lemma setEditorContent_requests (c : string) (w : World) :
  requests (Editor.setEditorContent c w) = requests w.
Proof. unfold Editor.setEditorContent. destruct (contentRef w); reflexivity. Qed.

Lemma insertIntoEditor_requests (html : string) (mode : Editor.ActionType) (w : World) :
  requests (snd (insertIntoEditor html mode w)) = requests w
  /\ exists b, fst (insertIntoEditor html mode w) = Normal b.
Proof.
  unfold insertIntoEditor. destruct (bridge w); cbn [fst snd].
  - rewrite editorInsertContent_requests. split; [reflexivity | now exists true].
  - split; [reflexivity | now exists false].
Qed.

(** [modifyEditorContent] always resolves to a message and sends at
    most one request. *)
Lemma modifyEditorContent_requests (s : State) (action : string) (w : World) :
  (exists msg, fst (modifyEditorContent s action w) = Normal msg)
  /\ (requests (snd (modifyEditorContent s action w)) = requests w
      \/ exists req,
          requests (snd (modifyEditorContent s action w)) = (requests w ++ [req])%list).
Proof.
  unfold modifyEditorContent.
  destruct (bridge w) eqn:Eb; [|split; [eexists; reflexivity | left; reflexivity]].
  destruct (negb (JsString.truthy (Editor.getEditorContent w))
            || String.eqb (trim (Editor.getEditorContent w)) "");
    [split; [eexists; reflexivity | left; reflexivity]|].
  unfold tryCatchM, bindM, fetchChatM, lift, ret.
  destruct (fetchChat w _) as [resp|e];
    [|split; [eexists; reflexivity | right; eexists; reflexivity]].
  destruct (ok resp); [|split; [eexists; reflexivity | right; eexists; reflexivity]].
  destruct (json resp) as [d|e];
    [|split; [eexists; reflexivity | right; eexists; reflexivity]].
  cbn [bridge logRequest]. rewrite Eb. cbn [fst snd].
  rewrite setEditorContent_requests.
  split; [eexists; reflexivity | right; eexists; reflexivity].
Qed.

Lemma createAndInsert_requests (s : State) (currentInput : string) (w : World) :
  exists req,
    requests (snd (createAndInsert warningSign s currentInput w))
    = (requests w ++ [req])%list.
Proof.
  unfold createAndInsert, bindM, fetchChatM, lift, ret, throw.
  destruct (fetchChat w _) as [resp|e]; [|eexists; reflexivity].
  destruct (ok resp); [|eexists; reflexivity].
  destruct (json resp) as [[d|]|e]; try (eexists; reflexivity).
  match goal with
  | |- context [insertIntoEditor ?h ?m ?x] =>
      destruct (insertIntoEditor_requests h m x) as (Hreq & b & Hb);
      destruct (insertIntoEditor h m x) as [res x']
  end.
  cbn [fst snd] in Hreq, Hb. subst res.
  destruct b; cbn [snd]; rewrite Hreq; eexists; reflexivity.
Qed.

Lemma chatBranch_requests (s : State) (currentInput : string) (w : World) :
  exists req,
    requests (snd (chatBranch s currentInput w)) = (requests w ++ [req])%list.
Proof.
  unfold chatBranch, bindM, fetchChatM, lift, ret.
  destruct (fetchChat w _) as [resp|e]; [|eexists; reflexivity].
  destruct (ok resp); [|eexists; reflexivity].
  destruct (json resp) as [d|e]; eexists; reflexivity.
Qed.

(** [handleWebSearch] only moves the search flag and the result list. *)
Lemma handleWebSearch_state (s : State) (q : string) (w : World) :
  let s1 := snd (fst (handleWebSearch s q w)) in
  messages s1 = messages s /\ input s1 = input s /\ isLoading s1 = isLoading s.
Proof.
  cbn zeta. unfold handleWebSearch.
  destruct (negb (connected s) || negb (tokenTruthy (token s))); [repeat split|].
  match goal with
  | |- context [match ?b w with _ => _ end] => destruct (b w) as [[[found|]|e] w1]
  end; repeat split.
Qed.

Lemma searchBranch_frame (needsEditor : bool) (s : State) (currentInput : string)
      (w : World) :
  connected s = true ->
  tokenTruthy (token s) = true ->
  let run := searchBranch bullet checkMark needsEditor s currentInput w in
  (exists req, requests (snd run) = (requests w ++ [req])%list)
  /\ messages (snd (fst run)) = messages s
  /\ input (snd (fst run)) = input s.
Proof.
  intros Hc Ht; cbn zeta. unfold searchBranch.
  set (q := trim _).
  pose proof (handleWebSearch_requests s q w Hc Ht) as Hreq.
  pose proof (handleWebSearch_state s q w) as (Hm & Hi & _); cbn zeta in Hm, Hi.
  destruct (handleWebSearch s q w) as [[res s1] w1]. cbn [fst snd] in Hreq, Hm, Hi.
  assert (Hex : exists req, requests w1 = (requests w ++ [req])%list)
    by (eexists; exact Hreq).
  destruct res as [found|e]; [|cbn [fst snd]; auto].
  destruct found as [|hit found]; [cbn [fst snd]; auto|].
  destruct (mapM _ (hit :: found)); [|cbn [fst snd]; auto].
  destruct needsEditor; [|cbn [fst snd]; auto].
  destruct (mapM _ (hit :: found)); [|cbn [fst snd]; auto].
  match goal with
  | |- context [insertIntoEditor ?h ?m ?x] =>
      destruct (insertIntoEditor_requests h m x) as (Hins & b & Hb);
      destruct (insertIntoEditor h m x) as [r2 w2]
  end.
  cbn [fst snd] in Hins, Hb. subst r2.
  destruct b; cbn [fst snd]; rewrite Hins; auto.
Qed.

(** X9. Every submission is either turned away or answered once.
    [handleSubmit] leaves the state alone and sends nothing when the
    input is blank, the backend is not connected or there is no
    token.  Otherwise it appends the user's message and exactly one
    assistant message, whatever the provider does, clears the input,
    ends with the loading flag off and has sent at most one request. *)
Theorem submit_answers_once (s : State) (w : World) :
  let run := handleSubmit bullet checkMark warningSign s w in
  (fst run = s /\ requests (snd run) = requests w
   /\ contentRef (snd run) = contentRef w
   /\ (trim (input s) = EmptyString \/ connected s = false
       \/ tokenTruthy (token s) = false))
  \/ (trim (input s) <> EmptyString /\ connected s = true
      /\ tokenTruthy (token s) = true
      /\ (exists reply,
            messages (fst run)
            = (messages s ++ [mkAIMessage (input s) User None None None; reply])%list
            /\ role reply = Assistant)
      /\ input (fst run) = EmptyString
      /\ isLoading (fst run) = false
      /\ (requests (snd run) = requests w
          \/ exists req, requests (snd run) = (requests w ++ [req])%list)).
Proof.
  cbn zeta. unfold handleSubmit.
  destruct (JsString.truthy (trim (input s))) eqn:Et; cbn [negb].
  2:{ left. repeat split. left.
      destruct (trim (input s)); [reflexivity | discriminate]. }
  apply truthy_nonempty in Et.
  destruct (connected s) eqn:Ec; cbn [negb orb].
  2:{ left. repeat split. right; left; reflexivity. }
  destruct (tokenTruthy (token s)) eqn:Etok; cbn [negb].
  2:{ left. repeat split. right; right; reflexivity. }
  right. split; [exact Et|]. split; [reflexivity|]. split; [reflexivity|].
  set (user := mkAIMessage (input s) User None None None).
  set (s0 := setIsLoading true (setInput "" (pushMessage user s))).
  assert (Hm0 : messages s0 = (messages s ++ [user])%list) by reflexivity.
  assert (Hfinal : forall (outcome : Completion Draft) (s1 : State) (w1 : World),
            messages s1 = messages s0 -> input s1 = EmptyString ->
            (requests w1 = requests w
             \/ exists req, requests w1 = (requests w ++ [req])%list) ->
            let run := match outcome with
                       | Normal d => (setIsLoading false (pushMessage (draftMessage d) s1), w1)
                       | Throw e =>
                           (setIsLoading false
                              (pushMessage
                                 (mkAIMessage (submitErrorMessage e) Assistant None None None)
                                 s1), w1)
                       end in
            (exists reply,
               messages (fst run) = (messages s ++ [user; reply])%list
               /\ role reply = Assistant)
            /\ input (fst run) = EmptyString /\ isLoading (fst run) = false
            /\ (requests (snd run) = requests w
                \/ exists req, requests (snd run) = (requests w ++ [req])%list)).
  { intros outcome s1 w1 Hm Hi Hr; cbn zeta.
    destruct outcome as [d|e]; cbn [fst snd messages input isLoading setIsLoading
                                     pushMessage setMessages];
      (split; [eexists; split;
                [rewrite Hm, Hm0, <- app_assoc; reflexivity | reflexivity]|]);
      repeat split; assumption. }
  destruct (detectIntent (input s)) as [action| |needsEditor| |].
  - destruct (modifyEditorContent_requests s0 action w) as ((msg & Hmsg) & Hreq).
    destruct (modifyEditorContent s0 action w) as [res w']. cbn [fst snd] in Hmsg, Hreq.
    subst res. now apply (Hfinal (Normal _) s0 w').
  - destruct (createAndInsert_requests s0 (input s) w) as (req & Hreq).
    destruct (createAndInsert warningSign s0 (input s) w) as [res w'].
    cbn [snd] in Hreq. apply (Hfinal res s0 w'); [reflexivity | reflexivity |].
    right; now exists req.
  - destruct (searchBranch_frame needsEditor s0 (input s) w Ec Etok)
      as ((req & Hreq) & Hm & Hi); cbn zeta in Hreq, Hm, Hi.
    destruct (searchBranch bullet checkMark needsEditor s0 (input s) w) as [[d s1] w1].
    cbn [fst snd] in Hreq, Hm, Hi.
    apply (Hfinal (Normal d) s1 w1); [exact Hm | exact Hi |]. right; now exists req.
  - destruct (chatBranch_requests s0 (input s) w) as (req & Hreq).
    destruct (chatBranch s0 (input s) w) as [res w']. cbn [snd] in Hreq.
    apply (Hfinal res s0 w'); [reflexivity | reflexivity |]. right; now exists req.
  - destruct (chatBranch_requests s0 (input s) w) as (req & Hreq).
    destruct (chatBranch s0 (input s) w) as [res w']. cbn [snd] in Hreq.
    apply (Hfinal res s0 w'); [reflexivity | reflexivity |]. right; now exists req.
Qed.

End SubmitExtras.

Section ModifyExtras.
Import JsString Js Browser Statements.
Import ChatSidebar.

(** X10. On a mounted editor whose text is more than white space,
    [modifyEditorContent] sends exactly one request, with the prompt
    for the action, the session and the token, and the document is
    replaced only by an answer that arrived: when the provider
    cannot be reached, refuses, or sends a body that cannot be read,
    the text stays and the message says so; when the answer is
    there, the text becomes the answer wrapped in a paragraph (the
    word [undefined] when the answer has no text) and the message
    names what was done. *)
Theorem modify_outcomes (s : State) (action text : string) (w : World) :
  bridge w = true ->
  contentRef w = Some text ->
  trim text <> EmptyString ->
  let request := ChatRequest (prompts action text) (sessionId s) (token s) in
  let run := modifyEditorContent s action w in
  requests (snd run) = (requests w ++ [request])%list
  /\ match fetchChat w request with
     | Throw _ =>
         fst run = Normal "Failed to modify content. Please try again."
         /\ Editor.getEditorContent (snd run) = text
     | Normal response =>
         if ok response then
           match json response with
           | Throw _ =>
               fst run = Normal "Failed to modify content. Please try again."
               /\ Editor.getEditorContent (snd run) = text
           | Normal data =>
               fst run = Normal ("Content has been " ++ doneWord action
                                 ++ " in your editor.")
               /\ Editor.getEditorContent (snd run)
                  = textOfHtml w ("<p>" ++ match data with
                                           | Some answer => answer
                                           | None => "undefined"
                                           end ++ "</p>")
           end
         else
           fst run = Normal noAccess
           /\ Editor.getEditorContent (snd run) = text
     end.
Proof.
  intros Hb Hc Hne; cbn zeta.
  assert (Htext : text <> EmptyString)
    by (intros ->; apply Hne; reflexivity).
  assert (Eget : Editor.getEditorContent w = text)
    by (unfold Editor.getEditorContent; now rewrite Hc).
  apply truthy_nonempty in Htext.
  assert (Heq : String.eqb (trim text) "" = false)
    by (apply String.eqb_neq; exact Hne).
  unfold modifyEditorContent. rewrite Hb, Eget, Htext, Heq. cbn [negb orb].
  unfold tryCatchM, bindM, fetchChatM, lift, ret.
  destruct (fetchChat w _) as [resp|e].
  - destruct (ok resp).
    + destruct (json resp) as [d|e].
      * cbn [bridge logRequest]. rewrite Hb. cbn [fst snd].
        split; [rewrite setEditorContent_requests; reflexivity|].
        split; [reflexivity|].
        unfold Editor.getEditorContent, Editor.setEditorContent.
        cbn [contentRef logRequest]. rewrite Hc. reflexivity.
      * cbn [fst snd]. unfold Editor.getEditorContent. cbn. rewrite Hc. auto.
    + cbn [fst snd]. unfold Editor.getEditorContent. cbn. rewrite Hc. auto.
  - cbn [fst snd]. unfold Editor.getEditorContent. cbn. rewrite Hc. auto.
Qed.

Lemma modify_outcomes_witness :
  let w := Samples.editorAnswering "teh cat" "<b>The</b> cat" (Some None) in
  let run := modifyEditorContent (Samples.readyChat "fix grammar") "grammar" w in
  fst run = Normal "Content has been corrected in your editor."
  /\ Editor.getEditorContent (snd run) = "The cat".
Proof.
  cbn zeta.
  assert (Hne : trim "teh cat" <> EmptyString) by discriminate.
  destruct (modify_outcomes (Samples.readyChat "fix grammar") "grammar" "teh cat"
              (Samples.editorAnswering "teh cat" "<b>The</b> cat" (Some None))
              eq_refl eq_refl Hne) as (_ & H).
  exact H.
Defined.

Variables bullet checkMark warningSign : string.

(** X11. A search that fails stays inside the chat: when the search
    provider cannot be reached or answers with a status other than
    success, [handleSubmit] answers with the one fixed apology, marks
    no editor action and leaves the document as it was. *)
Theorem failed_search_is_apologised (s : State) (needsEditor : bool) (w : World) :
  trim (input s) <> EmptyString ->
  connected s = true ->
  tokenTruthy (token s) = true ->
  detectIntent (input s) = Search needsEditor ->
  match fetchAgent w (AgentRequest (trim (Regex.replaceAll searchStopWords (input s)))
                                   "web_search" (token s)) with
  | Throw _ => True
  | Normal response => ok response = false
  end ->
  let run := handleSubmit bullet checkMark warningSign s w in
  messages (fst run)
  = (messages s
     ++ [mkAIMessage (input s) User None None None;
         mkAIMessage "Sorry, web search is currently unavailable. Please try again later."
                     Assistant (Some false) (Some Editor.Insert) (Some EmptyString)])%list
  /\ searchResults (fst run) = searchResults s
  /\ contentRef (snd run) = contentRef w
  /\ commands (snd run) = commands w.
Proof.
  intros Hin Hc Ht Hintent Hfail; cbn zeta.
  apply truthy_nonempty in Hin.
  unfold handleSubmit. rewrite Hin, Hc, Ht, Hintent. cbn [negb orb].
  unfold searchBranch, handleWebSearch.
  cbn [connected token setIsLoading setInput pushMessage setMessages].
  rewrite Hc, Ht. cbn [negb orb].
  unfold bindM, fetchAgentM, throw.
  destruct (fetchAgent w _) as [resp|e].
  - rewrite Hfail. cbn. rewrite <- app_assoc. repeat split.
  - cbn. rewrite <- app_assoc. repeat split.
Qed.

End ModifyExtras.

Section ModifyExamples.
Import JsString Js Browser Statements.
Import ChatSidebar.

Lemma failed_search_is_apologised_witness :
  let run := handleSubmit "*" "+" "!" (Samples.readyChat "find cats")
               (Samples.editorWith "Hello" (Some None)) in
  map content (messages (fst run))
  = ["find cats"; "Sorry, web search is currently unavailable. Please try again later."].
Proof.
  cbn zeta.
  assert (Hne : trim "find cats" <> EmptyString) by discriminate.
  destruct (failed_search_is_apologised "*" "+" "!" (Samples.readyChat "find cats") false
              (Samples.editorWith "Hello" (Some None))
              Hne eq_refl eq_refl eq_refl I) as (Hm & _).
  cbn zeta in Hm. rewrite Hm. reflexivity.
Defined.

End ModifyExamples.

(* ================================================================== *)
(** * Further properties of the agent context *)

Section AgentExtras.
Import JsString Js Browser Statements.
Import AgentContext.

(** X12. [crawlUrl] always resolves, after exactly one request that
    carries the URL as its query and no authorization, and what it
    resolves to is never falsy.  It is the fixed error text when the
    provider cannot be reached, refuses, or sends a body that does
    not parse or parses to [null]; the [content] of the [result]
    object of the payload when that is truthy; and the fixed text
    ["Unable to crawl URL"] for every other payload. *)
Theorem crawlUrl_always_answers (u : string) (w : World) :
  let request := AgentRequest u "crawl_url" None in
  let failed := VStr "Error: Unable to crawl the specified URL" in
  exists content,
    crawlUrl u w = (Normal content, logRequest request w)
    /\ truthy content = true
    /\ match fetchAgent w request with
       | Throw _ => content = failed
       | Normal response =>
           if ok response then
             match json response with
             | Throw _ => content = failed
             | Normal VUndefined | Normal VNull => content = failed
             | Normal (VObj props) =>
                 match lookup "result" props with
                 | VObj result =>
                     content = orElse (lookup "content" result)
                                      (VStr "Unable to crawl URL")
                 | _ => content = VStr "Unable to crawl URL"
                 end
             | Normal _ => content = VStr "Unable to crawl URL"
             end
           else content = failed
       end.
Proof.
  cbn zeta. unfold crawlUrl, tryCatchM, bindM, fetchAgentM, lift, throw, ret.
  destruct (fetchAgent w _) as [resp|e]; [|eexists; repeat split].
  destruct (ok resp) eqn:Eok; cbn [negb]; [|eexists; repeat split].
  destruct (json resp) as [d|]; [|eexists; repeat split].
  assert (Hdef : forall c, truthy (orElse c (VStr "Unable to crawl URL")) = true)
    by (intros c; now apply orElse_truthy).
  destruct d as [| |b|n|s|items|props]; cbn -[orElse truthy];
    try (eexists; repeat split; fail).
  destruct (lookup "result" props) as [| |b|n|s|items|result]; cbn -[orElse truthy];
    try (eexists; repeat split; fail).
  eexists. split; [reflexivity|]. split; [apply Hdef | reflexivity].
Qed.

(** X13. [summarizeContent] always resolves to a text that is not
    empty, after exactly one chat request without authorization whose
    prompt is the fixed instruction followed by the content; when the
    provider cannot be reached or refuses, the text is the fixed
    error. *)
Theorem summarizeContent_always_answers (content : string) (w : World) :
  let request :=
    ChatRequest (Some ("Please provide a concise summary of the following content:"
                       ++ newline ++ newline ++ content))
                ("agent_summary_" ++ ofNat (now w)) None in
  exists summary,
    summarizeContent content w = (Normal summary, logRequest request w)
    /\ summary <> EmptyString
    /\ match fetchChat w request with
       | Throw _ => summary = "Error: Unable to summarize the provided content"
       | Normal response =>
           ok response = false ->
           summary = "Error: Unable to summarize the provided content"
       end.
Proof.
  cbn zeta. unfold summarizeContent, tryCatchM, bindM, fetchChatM, lift, throw, ret.
  destruct (fetchChat w _) as [resp|e]; [|eexists; repeat split; discriminate].
  destruct (ok resp) eqn:Eok; cbn [negb]; [|eexists; repeat split; discriminate].
  destruct (json resp) as [[d|]|]; try (eexists; repeat split; discriminate).
  destruct (JsString.truthy d) eqn:Ed.
  - exists d. split; [reflexivity|]. split; [now apply truthy_nonempty | discriminate].
  - eexists; repeat split; discriminate.
Qed.

(** X14. [processAgentCommand] always resolves, and the object it
    resolves to tells what was sent.  A search-and-insert or search
    object means exactly one search request, with the stripped
    command or the whole command as query; a crawl object means
    exactly one crawl request for the URL the pattern found; the
    summarize notice means that nothing was sent and nothing
    changed.  An error is one of two: the missing URL of a crawl
    command, with nothing sent and nothing changed, or the
    conversion error of the insertion of a search-and-insert
    command with the editor mounted, after the search request and
    the insertion event, with the document untouched. *)
Theorem processAgentCommand_accounts (command : string) (w : World) :
  exists result w',
    processAgentCommand command w = (Normal result, w')
    /\ match result with
       | SearchAndInsert r m =>
           requests w'
           = (requests w
              ++ [AgentRequest (trim (Regex.replaceAll searchStopWords command))
                               "web_search" None])%list
       | Search r m =>
           requests w' = (requests w ++ [AgentRequest command "web_search" None])%list
           /\ contentRef w' = contentRef w
           /\ m = "Found " ++ ofNat (List.length (results r)) ++ " results for: " ++ command
       | Crawl c m =>
           exists u,
             Regex.matchUrl command = Some u
             /\ m = "Crawled content from " ++ u
             /\ requests w' = (requests w ++ [AgentRequest u "crawl_url" None])%list
             /\ contentRef w' = contentRef w
       | Summarize m => w' = w
       | Error m =>
           (crawlGate command = true /\ Regex.matchUrl command = None
            /\ w' = w /\ m = "No valid URL found in command")
           \/ (includes (toLowerCase command) "search"
               && includes (toLowerCase command) "insert" = true
               /\ bridge w = true
               /\ w' = dispatchEvent
                         (logRequest
                            (AgentRequest
                               (trim (Regex.replaceAll searchStopWords command))
                               "web_search" None) w)
               /\ m = "Cannot convert object to primitive value")
       end.
Proof.
  destruct (includes (toLowerCase command) "search"
            && includes (toLowerCase command) "insert") eqn:Egate.
  - destruct (processAgentCommand_forwards command w Egate)
      as (r & res & w' & _ & Hrun & Hreq & _ & Hout).
    exists res, w'. split; [exact Hrun|].
    destruct Hout as [[_ ->] | (Hb & _ & -> & Hw)]; [exact Hreq|].
    right. repeat split; auto.
  - unfold processAgentCommand, tryCatchM, processAgentCommandBody. rewrite Egate.
    destruct (includes (toLowerCase command) "crawl"
              || includes (toLowerCase command) "fetch") eqn:Ecrawl.
    + destruct (Regex.matchUrl command) as [u|] eqn:Em.
      * unfold bindM, ret. destruct (crawlUrl_requests u w) as [content Hc]. rewrite Hc.
        eexists _, _. split; [reflexivity|]. exists u. repeat split.
      * eexists _, _. split; [reflexivity|]. left.
        unfold crawlGate. rewrite Egate, Ecrawl. repeat split.
    + destruct (includes (toLowerCase command) "summarize").
      * eexists _, _. split; reflexivity.
      * unfold bindM, ret. destruct (performWebSearch_requests command w) as [r Hr].
        rewrite Hr. eexists _, _. split; [reflexivity|]. repeat split.
Qed.

Lemma takeNonSpace_split (t : string) :
  exists post, t = Regex.takeNonSpace t ++ post /\ endsHere post.
Proof.
  induction t as [|c t (post & Ht & Hpost)]; cbn.
  - exists EmptyString. split; [reflexivity | now left].
  - destruct (isSpace c) eqn:Ec.
    + exists (String c t). split; [reflexivity|]. right. now exists c, t.
    + exists post. split; [cbn; now rewrite <- Ht | exact Hpost].
Qed.

Lemma takeNonSpace_idempotent (t : string) :
  Regex.takeNonSpace (Regex.takeNonSpace t) = Regex.takeNonSpace t.
Proof.
  induction t as [|c t IH]; cbn; [reflexivity|].
  destruct (isSpace c) eqn:Ec; cbn; [reflexivity|]. now rewrite Ec, IH.
Qed.

Lemma urlWithScheme_sound (scheme s u : string) :
  Regex.urlWithScheme scheme s = Some u ->
  exists rest post,
    u = scheme ++ rest /\ rest <> EmptyString /\ Regex.takeNonSpace rest = rest
    /\ s = u ++ post /\ endsHere post.
Proof.
  unfold Regex.urlWithScheme.
  destruct (startsWith s scheme) eqn:Es; [|discriminate].
  apply startsWith_split in Es.
  destruct (takeNonSpace_split (drop (String.length scheme) s)) as (post & Ht & Hpost).
  destruct (Regex.takeNonSpace (drop (String.length scheme) s)) as [|c rest] eqn:Et;
    [discriminate|].
  intros H; inversion H; subst u; clear H.
  exists (String c rest), post. split; [reflexivity|]. split; [discriminate|].
  split; [rewrite <- Et; apply takeNonSpace_idempotent|].
  split; [|exact Hpost].
  rewrite append_assoc, <- Ht. exact Es.
Qed.

Lemma matchUrlAt_sound (s u : string) :
  Regex.matchUrlAt s = Some u ->
  wellFormedUrl u /\ exists post, s = u ++ post /\ endsHere post.
Proof.
  unfold Regex.matchUrlAt.
  destruct (Regex.urlWithScheme "https://" s) as [v|] eqn:E.
  - intros H; inversion H; subst v; clear H.
    destruct (urlWithScheme_sound _ _ _ E) as (rest & post & Hu & Hne & Hr & Hs & Hp).
    split; [exists rest; auto | exists post; auto].
  - intros H.
    destruct (urlWithScheme_sound _ _ _ H) as (rest & post & Hu & Hne & Hr & Hs & Hp).
    split; [exists rest; auto | exists post; auto].
Qed.

(** X15. What the URL pattern of [processAgentCommand] extracts is
    always a well-formed URL that stands in the command as it is
    and runs up to the next white space or the end. *)
Theorem matchUrl_sound (command u : string) :
  Regex.matchUrl command = Some u ->
  wellFormedUrl u
  /\ exists pre post, command = pre ++ u ++ post /\ endsHere post.
Proof.
  induction command as [|c command IH]; cbn [Regex.matchUrl].
  - destruct (Regex.matchUrlAt "") as [v|] eqn:E; [|discriminate].
    intros H; inversion H; subst v.
    destruct (matchUrlAt_sound _ _ E) as (Hw & post & Hs & Hp).
    split; [exact Hw|]. exists EmptyString, post. auto.
  - destruct (Regex.matchUrlAt (String c command)) as [v|] eqn:E.
    + intros H; inversion H; subst v.
      destruct (matchUrlAt_sound _ _ E) as (Hw & post & Hs & Hp).
      split; [exact Hw|]. exists EmptyString, post. auto.
    + intros H. destruct (IH H) as (Hw & pre & post & Hs & Hp).
      split; [exact Hw|]. exists (String c pre), post. split; [|exact Hp].
      cbn. now rewrite Hs.
Qed.

Lemma matchUrl_sound_witness :
  wellFormedUrl "http://a.b/c"
  /\ exists pre post, "see http://a.b/c now" = pre ++ "http://a.b/c" ++ post /\ endsHere post.
Proof.
  apply (matchUrl_sound "see http://a.b/c now" "http://a.b/c"). reflexivity.
Defined.

End AgentExtras.

Section AgentCommandExtras.
Import JsString Js Browser Statements.

(** X16. The command box of [AgentCommand] sends the whole command,
    keywords included, as one search request.  Without the phrase
    [insert into editor] it shows the search response.  With the
    phrase it shows the inserted notice, also when no editor is
    mounted, unless the editor is mounted and a field of an entry
    cannot be converted to text: then it shows its error text.  The
    busy flag ends off and the command is kept. *)
Theorem command_box_searches_verbatim (s : AgentCommand.State) (w : World) :
  let run := AgentCommand.handleSubmit s w in
  exists response,
    AgentContext.performWebSearch (AgentCommand.command s) w
    = (Normal response,
       logRequest (AgentRequest (AgentCommand.command s) "web_search" None) w)
    /\ requests (snd run)
       = (requests w ++ [AgentRequest (AgentCommand.command s) "web_search" None])%list
    /\ AgentCommand.result (fst run)
       = Some (if includes (toLowerCase (AgentCommand.command s)) "insert into editor"
               then
                 if bridge w then
                   match mapM AgentContext.formatResult
                              (AgentContext.results response) with
                   | Normal _ => inr "Content inserted into editor!"
                   | Throw _ => inr "Error processing command"
                   end
                 else inr "Content inserted into editor!"
               else inl response)
    /\ AgentCommand.isProcessing (fst run) = false
    /\ AgentCommand.command (fst run) = AgentCommand.command s.
Proof.
  cbn zeta.
  destruct (performWebSearch_requests (AgentCommand.command s) w) as [r Hr].
  exists r. split; [exact Hr|].
  unfold AgentCommand.handleSubmit, tryCatchM, AgentCommand.handleSubmitBody, bindM.
  rewrite Hr.
  destruct (includes (toLowerCase (AgentCommand.command s)) "insert into editor").
  - set (w1 := logRequest _ w).
    destruct (insertToEditor_outcome r w1) as (Hreq & _ & Hout).
    change (bridge w1) with (bridge w) in Hout.
    destruct Hout as [[Hok Hfst] | (Hb & [e He] & Hrun)].
    + destruct (AgentContext.insertToEditor (inl r) w1) as [res w2].
      cbn [fst snd] in Hreq, Hfst. subst res. cbn [fst snd ret].
      unfold ret. cbn [fst snd AgentCommand.result AgentCommand.isProcessing
                       AgentCommand.command].
      split; [exact Hreq|]. split; [|split; reflexivity].
      destruct Hok as [-> | [parts ->]]; [reflexivity|].
      destruct (bridge w); reflexivity.
    + rewrite Hrun, Hb, He. cbn. repeat split.
  - cbn. repeat split.
Qed.

(** With the editor mounted and a title that is an object with a
    property [toString] of its own, the command box shows its error
    text, and the document keeps its text. *)
Example command_box_shows_error :
  let w := Samples.editorFinding "Hello"
             [VObj [("title", VObj [("toString", VStr "x")])]] (Some None) in
  let run := AgentCommand.handleSubmit
               (AgentCommand.mkState "cats insert into editor" true None) w in
  AgentCommand.result (fst run) = Some (inr "Error processing command")
  /\ contentRef (snd run) = Some "Hello".
Proof. cbn zeta. split; reflexivity. Qed.

End AgentCommandExtras.

(* ================================================================== *)
(** * Properties of the session provider *)

Section StorageFacts.
Import AuthContext.

Lemma getItem_removeItem_same (k : string) (st : list (string * string)) :
  getItem k (removeItem k st) = None.
Proof.
  induction st as [|[k' v] st IH]; cbn; [reflexivity|].
  destruct (String.eqb k k') eqn:E; [exact IH|]. cbn. now rewrite E.
Qed.

Lemma getItem_removeItem_other (k k' : string) (st : list (string * string)) :
  k <> k' -> getItem k (removeItem k' st) = getItem k st.
Proof.
  intros Hne. induction st as [|[k2 v] st IH]; cbn; [reflexivity|].
  destruct (String.eqb k' k2) eqn:E.
  - apply String.eqb_eq in E. subst k2.
    apply String.eqb_neq in Hne. now rewrite Hne.
  - cbn. now rewrite IH.
Qed.

Lemma getItem_setItem_same (k v : string) (st : list (string * string)) :
  getItem k (setItem k v st) = Some v.
Proof. unfold setItem. cbn. now rewrite String.eqb_refl. Qed.

Lemma getItem_setItem_other (k k' v : string) (st : list (string * string)) :
  k <> k' -> getItem k (setItem k' v st) = getItem k st.
Proof.
  intros Hne. unfold setItem. cbn.
  pose proof Hne as Hneb. apply String.eqb_neq in Hneb. rewrite Hneb.
  now apply getItem_removeItem_other.
Qed.

Lemma removed_both (st : list (string * string)) :
  getItem "auth_token" (removeItem "user" (removeItem "auth_token" st)) = None
  /\ getItem "user" (removeItem "user" (removeItem "auth_token" st)) = None.
Proof.
  split.
  - rewrite getItem_removeItem_other; [apply getItem_removeItem_same | discriminate].
  - apply getItem_removeItem_same.
Qed.

Lemma clearSaved_storage (a : Auth) :
  getItem "auth_token" (storage (clearSaved a)) = None
  /\ getItem "user" (storage (clearSaved a)) = None
  /\ forall k, k <> "auth_token" -> k <> "user" ->
       getItem k (storage (clearSaved a)) = getItem k (storage a).
Proof.
  unfold clearSaved; cbn [storage setStorage]. split; [|split].
  - rewrite getItem_removeItem_other; [apply getItem_removeItem_same | discriminate].
  - apply getItem_removeItem_same.
  - intros k H1 H2. now rewrite !getItem_removeItem_other.
Qed.

End StorageFacts.

Section SessionExtras.
Import JsString Js AuthContext MoreStatements.

Lemma logoutFinish_session_gone (a : Auth) :
  user (logoutFinish a) = VNull /\ token (logoutFinish a) = VNull
  /\ getItem "auth_token" (storage (logoutFinish a)) = None
  /\ getItem "user" (storage (logoutFinish a)) = None
  /\ (forall k, k <> "auth_token" -> k <> "user" ->
        getItem k (storage (logoutFinish a)) = getItem k (storage a))
  /\ sent (logoutFinish a) = sent a.
Proof.
  unfold logoutFinish.
  destruct (clearSaved_storage (setToken VNull (setUser VNull a))) as (H1 & H2 & H3).
  repeat split; assumption.
Qed.

(** X17. [logout] always ends the session on the client, whatever
    the backend does: user and token are null, both saved entries
    are gone and every other entry of the storage is kept.  The
    logout request is sent exactly when there was a token that can
    be converted to text, and carries that text; a token that cannot
    be converted sends nothing. *)
Theorem logout_always_clears (a : Auth) :
  let a' := logout a in
  user a' = VNull /\ token a' = VNull
  /\ getItem "auth_token" (storage a') = None
  /\ getItem "user" (storage a') = None
  /\ (forall k, k <> "auth_token" -> k <> "user" ->
        getItem k (storage a') = getItem k (storage a))
  /\ sent a' = (if truthy (token a)
                then match toString (token a) with
                     | Normal text => (sent a ++ [Logout ("Bearer " ++ text)])%list
                     | Throw _ => sent a
                     end
                else sent a).
Proof.
  cbn zeta. unfold logout, logoutStart, send.
  destruct (truthy (token a)); [destruct (toString (token a)) as [text|e]|]; cbn [snd].
  - match goal with
    | |- context [logoutFinish ?x] =>
        destruct (logoutFinish_session_gone x) as (H1 & H2 & H3 & H4 & H5 & H6)
    end.
    repeat split; assumption.
  - destruct (logoutFinish_session_gone a) as (H1 & H2 & H3 & H4 & H5 & H6).
    repeat split; assumption.
  - destruct (logoutFinish_session_gone a) as (H1 & H2 & H3 & H4 & H5 & H6).
    repeat split; assumption.
Qed.

(** A token object with a property [toString] of its own: the
    session is cleared and no logout request is sent. *)
Example logout_with_unconvertible_token :
  let a := mkAuth (VStr "ann") (VObj [("toString", VStr "x")]) false
             [("auth_token", "t"); ("user", "u")] []
             (fun _ => Throw NonError) (fun _ => "{}") (fun _ _ _ => None) in
  sent (logout a) = [] /\ token (logout a) = VNull /\ storage (logout a) = [].
Proof. cbn zeta. repeat split; reflexivity. Qed.

(** [localStorage.setItem] changes the storage or nothing. *)
Lemma storeItem_outcome (key : string) (value : Value) (a : Auth) :
  let run := storeItem key value a in
  user (snd run) = user a /\ token (snd run) = token a
  /\ sent (snd run) = sent a /\ isLoading (snd run) = isLoading a
  /\ backend (snd run) = backend a /\ stringify (snd run) = stringify a
  /\ refusal (snd run) = refusal a
  /\ match fst run with
     | Normal _ =>
         exists text, toString value = Normal text
                      /\ refusal a (storage a) key text = None
                      /\ storage (snd run) = setItem key text (storage a)
     | Throw e =>
         storage (snd run) = storage a
         /\ (toString value = Throw e
             \/ exists text, toString value = Normal text
                             /\ refusal a (storage a) key text = Some e)
     end.
Proof.
  cbn zeta. unfold storeItem.
  destruct (toString value) as [text|e]; [|cbn; repeat split; auto].
  destruct (refusal a (storage a) key text) as [e|] eqn:Er; cbn; repeat split; eauto.
Qed.

(** The outcomes of a sign-in.  One request is sent.  Without a
    valid payload it throws and nothing else changes.  With one,
    user and token are set first; it then resolves with both entries
    stored, or throws what the conversion of the token or the
    storage threw, with the entries stored so far. *)
Lemma signIn_outcomes (request : Request) (fallback : string) (a : Auth) :
  let run := signIn request fallback a in
  sent (snd run) = (sent a ++ [request])%list
  /\ isLoading (snd run) = isLoading a
  /\ backend (snd run) = backend a
  /\ match fst run with
     | Normal _ =>
         exists t u text,
           validPayload a request t u /\ toString t = Normal text
           /\ user (snd run) = u /\ token (snd run) = t
           /\ refusal a (storage a) "auth_token" text = None
           /\ refusal a (setItem "auth_token" text (storage a)) "user" (stringify a u)
              = None
           /\ storage (snd run)
              = setItem "user" (stringify a u) (setItem "auth_token" text (storage a))
     | Throw e =>
         ((forall t u, ~ validPayload a request t u)
          /\ user (snd run) = user a /\ token (snd run) = token a
          /\ storage (snd run) = storage a)
         \/ exists t u,
              validPayload a request t u
              /\ user (snd run) = u /\ token (snd run) = t
              /\ ((toString t = Throw e /\ storage (snd run) = storage a)
                  \/ (exists text,
                        toString t = Normal text
                        /\ refusal a (storage a) "auth_token" text = Some e
                        /\ storage (snd run) = storage a)
                  \/ (exists text,
                        toString t = Normal text
                        /\ refusal a (storage a) "auth_token" text = None
                        /\ refusal a (setItem "auth_token" text (storage a)) "user"
                                   (stringify a u) = Some e
                        /\ storage (snd run) = setItem "auth_token" text (storage a)))
     end.
Proof.
  cbn zeta. unfold signIn, send.
  assert (Hnone : forall P : Prop,
            (forall t u, validPayload a request t u -> P) ->
            (P -> False) -> forall t u, ~ validPayload a request t u)
    by (intros P H1 H2 t u H; exact (H2 (H1 t u H))).
  destruct (backend a request) as [resp|e] eqn:Eb.
  2:{ cbn. repeat split. left. repeat split.
      intros t u (r & d & H & _). congruence. }
  destruct (ok resp) eqn:Eok.
  2:{ assert (Hno : forall t u, ~ validPayload a request t u).
      { intros t u (r & d & H1 & H2 & _). congruence. }
      destruct (json resp) as [d|e]; [|cbn; repeat split; left; repeat split; exact Hno].
      destruct (get d "detail") as [detail|e]; cbn; repeat split; left;
        repeat split; exact Hno. }
  destruct (json resp) as [d|e] eqn:Ej.
  2:{ cbn. repeat split. left. repeat split.
      intros t u (r & d & H1 & H2 & H3 & _). congruence. }
  destruct (get d "token") as [t|e] eqn:Et.
  2:{ cbn. repeat split. left. repeat split.
      intros t u (r & d' & H1 & H2 & H3 & H4 & _). congruence. }
  destruct (truthy t) eqn:Ett.
  2:{ cbn. repeat split. left. repeat split.
      intros t' u (r & d' & H1 & H2 & H3 & H4 & H5 & _). congruence. }
  destruct (get d "user") as [u|e] eqn:Eu.
  2:{ cbn. repeat split. left. repeat split.
      intros t' u (r & d' & H1 & H2 & H3 & H4 & H5 & H6 & _). congruence. }
  destruct (truthy u) eqn:Etu.
  2:{ cbn. repeat split. left. repeat split.
      intros t' u' (r & d' & H1 & H2 & H3 & H4 & H5 & H6 & H7). congruence. }
  assert (Hvalid : validPayload a request t u).
  { exists resp, d. repeat split; assumption. }
  cbn zeta.
  match goal with
  | |- context [storeItem "auth_token" t ?x] =>
      set (a2 := x);
      pose proof (storeItem_outcome "auth_token" t a2) as H1; cbn zeta in H1;
      destruct (storeItem "auth_token" t a2) as [[[]|e1] a3]
  end; cbn [fst snd] in H1;
    destruct H1 as (Hu1 & Ht1 & Hs1 & Hl1 & Hb1 & Hj1 & Hr1 & Hcase1).
  - destruct Hcase1 as (text & Htext & Hacc & Hst1).
    pose proof (storeItem_outcome "user" (VStr (stringify a3 u)) a3) as H2;
      cbn zeta in H2.
    destruct (storeItem "user" (VStr (stringify a3 u)) a3) as [[[]|e2] a4];
      cbn [fst snd] in H2 |- *;
      destruct H2 as (Hu2 & Ht2 & Hs2 & Hl2 & Hb2 & Hj2 & Hr2 & Hcase2).
    + rewrite Hs2, Hs1, Hl2, Hl1, Hb2, Hb1. split; [reflexivity|].
      split; [reflexivity|]. split; [reflexivity|].
      destruct Hcase2 as (text2 & Htext2 & Hacc2 & Hst2).
      cbn [toString] in Htext2. injection Htext2 as <-.
      rewrite Hj1 in Hst2, Hacc2. rewrite Hr1, Hst1 in Hacc2. rewrite Hst1 in Hst2.
      exists t, u, text. rewrite Hu2, Hu1, Ht2, Ht1.
      repeat split; assumption.
    + rewrite Hs2, Hs1, Hl2, Hl1, Hb2, Hb1. split; [reflexivity|].
      split; [reflexivity|]. split; [reflexivity|].
      destruct Hcase2 as (Hst2 & [Hbad | (text2 & Htext2 & Href2)]);
        [cbn in Hbad; discriminate|].
      cbn [toString] in Htext2. injection Htext2 as <-.
      rewrite Hj1 in Href2. rewrite Hr1, Hst1 in Href2. rewrite Hst1 in Hst2.
      right. exists t, u. rewrite Hu2, Hu1, Ht2, Ht1.
      split; [exact Hvalid|]. split; [reflexivity|]. split; [reflexivity|].
      right. right. exists text. repeat split; assumption.
  - cbn [fst snd]. rewrite Hs1, Hl1, Hb1. split; [reflexivity|].
    split; [reflexivity|]. split; [reflexivity|].
    destruct Hcase1 as (Hst1 & Hwhy).
    right. exists t, u. rewrite Hu1, Ht1.
    split; [exact Hvalid|]. split; [reflexivity|]. split; [reflexivity|].
    destruct Hwhy as [Hbad | (text & Htext & Href)].
    + left. split; assumption.
    + right. left. exists text. repeat split; assumption.
Qed.

(** X18. The outcomes of [login] and [register].  Each sends exactly
    one request.  When it resolves, the payload was valid, user and
    token are the payload's, and the storage holds the token as text
    and the user as JSON under the two keys.  When it throws without
    a valid payload, for an unreachable backend, a refusal or a
    payload without token or user, the session and the storage are
    exactly as before.  When it throws with a valid payload, user
    and token are already set: the token could not be converted to
    text or the storage refused it, and nothing was stored, or the
    storage refused the user, and the token alone was stored. *)
Theorem sign_in_outcomes (name email password : string) (a : Auth) :
  let attempt (request : Request) (run : Completion unit * Auth) :=
    sent (snd run) = (sent a ++ [request])%list
    /\ match fst run with
       | Normal _ =>
           exists t u text,
             validPayload a request t u /\ toString t = Normal text
             /\ user (snd run) = u /\ token (snd run) = t
             /\ getItem "auth_token" (storage (snd run)) = Some text
             /\ getItem "user" (storage (snd run)) = Some (stringify a u)
             /\ storage (snd run)
                = setItem "user" (stringify a u)
                          (setItem "auth_token" text (storage a))
       | Throw e =>
           ((forall t u, ~ validPayload a request t u)
            /\ user (snd run) = user a /\ token (snd run) = token a
            /\ storage (snd run) = storage a)
           \/ exists t u,
                validPayload a request t u
                /\ user (snd run) = u /\ token (snd run) = t
                /\ ((toString t = Throw e /\ storage (snd run) = storage a)
                    \/ (exists text,
                          toString t = Normal text
                          /\ refusal a (storage a) "auth_token" text = Some e
                          /\ storage (snd run) = storage a)
                    \/ (exists text,
                          toString t = Normal text
                          /\ refusal a (setItem "auth_token" text (storage a)) "user"
                                     (stringify a u) = Some e
                          /\ storage (snd run)
                             = setItem "auth_token" text (storage a)))
       end in
  attempt (Login email password) (login email password a)
  /\ attempt (Register name email password) (register name email password a).
Proof.
  assert (Hboth : forall request fallback,
            let run := signIn request fallback a in
            sent (snd run) = (sent a ++ [request])%list
            /\ match fst run with
               | Normal _ =>
                   exists t u text,
                     validPayload a request t u /\ toString t = Normal text
                     /\ user (snd run) = u /\ token (snd run) = t
                     /\ getItem "auth_token" (storage (snd run)) = Some text
                     /\ getItem "user" (storage (snd run)) = Some (stringify a u)
                     /\ storage (snd run)
                        = setItem "user" (stringify a u)
                                  (setItem "auth_token" text (storage a))
               | Throw e =>
                   ((forall t u, ~ validPayload a request t u)
                    /\ user (snd run) = user a /\ token (snd run) = token a
                    /\ storage (snd run) = storage a)
                   \/ exists t u,
                        validPayload a request t u
                        /\ user (snd run) = u /\ token (snd run) = t
                        /\ ((toString t = Throw e /\ storage (snd run) = storage a)
                            \/ (exists text,
                                  toString t = Normal text
                                  /\ refusal a (storage a) "auth_token" text = Some e
                                  /\ storage (snd run) = storage a)
                            \/ (exists text,
                                  toString t = Normal text
                                  /\ refusal a (setItem "auth_token" text (storage a))
                                             "user" (stringify a u) = Some e
                                  /\ storage (snd run)
                                     = setItem "auth_token" text (storage a)))
               end).
  { intros request fallback. cbn zeta.
    destruct (signIn_outcomes request fallback a) as (Hs & _ & _ & H); cbn zeta in Hs, H.
    split; [exact Hs|].
    destruct (fst (signIn request fallback a)) as [[]|e].
    - destruct H as (t & u & text & Hv & Ht & Hu & Htok & _ & _ & Hst).
      exists t, u, text. rewrite Hst.
      split; [exact Hv|]. split; [exact Ht|]. split; [exact Hu|]. split; [exact Htok|].
      split; [|split; [|reflexivity]].
      + rewrite getItem_setItem_other by discriminate. apply getItem_setItem_same.
      + apply getItem_setItem_same.
    - destruct H as [H | (t & u & Hv & Hu & Htok & Hcase)]; [left; exact H|].
      right. exists t, u. repeat split; try assumption.
      destruct Hcase as [H | [H | (text & H1 & _ & H2 & H3)]]; auto.
      right. right. exists text. auto. }
  cbn zeta. unfold login, register. split; apply Hboth.
Qed.

(** A storage without room: the login throws what the storage threw,
    with user and token already set and nothing stored. *)
Example login_with_full_storage :
  let answer := VObj [("token", VStr "abc"); ("user", VObj [("name", VStr "Ann")])] in
  let a := mkAuth VNull VNull false [] []
             (fun _ => Normal (mkResponse true 200 (Normal answer)))
             (fun _ => "{}") (fun _ _ _ => Some (ErrorObj "QuotaExceededError")) in
  let run := login "ann@example.com" "secret" a in
  fst run = Throw (ErrorObj "QuotaExceededError")
  /\ token (snd run) = VStr "abc"
  /\ user (snd run) = VObj [("name", VStr "Ann")]
  /\ storage (snd run) = [].
Proof. cbn zeta. repeat split; reflexivity. Qed.



End SessionExtras.

Section SessionRestoreExtras.
Import JsString Js AuthContext MoreStatements.

(** X20. [initializeAuth] always ends with the loading flag off and
    sends at most one request, the verification of the saved token.
    It never invents a session: the token changes only to the saved
    token and only after the backend accepted it, and the user
    changes only together with that, the storage untouched.  The
    storage is either as before or has lost both saved entries. *)
Theorem initializeAuth_restores_only_verified (a : Auth) :
  let a' := initializeAuth a in
  isLoading a' = false
  /\ (sent a' = sent a
      \/ exists saved, getItem "auth_token" (storage a) = Some saved
                       /\ sent a' = (sent a ++ [Me ("Bearer " ++ saved)])%list)
  /\ (storage a' = storage a
      \/ (getItem "auth_token" (storage a') = None
          /\ getItem "user" (storage a') = None))
  /\ (token a' = token a
      \/ exists saved response,
          getItem "auth_token" (storage a) = Some saved
          /\ backend a (Me ("Bearer " ++ saved)) = Normal response
          /\ ok response = true
          /\ token a' = VStr saved)
  /\ (user a' = user a
      \/ exists saved, token a' = VStr saved /\ storage a' = storage a).
Proof.
  cbn zeta. unfold initializeAuth.
  destruct (getItem "auth_token" (storage a)) as [saved|] eqn:Et;
    [|cbn; repeat split; auto].
  destruct (getItem "user" (storage a)) as [savedUser|] eqn:Eu;
    [|cbn; repeat split; auto].
  destruct (JsString.truthy saved && JsString.truthy savedUser);
    [|cbn; repeat split; auto].
  unfold send.
  destruct (backend a (Me ("Bearer " ++ saved))) as [resp|e] eqn:Eb.
  - destruct (ok resp) eqn:Eok.
    + destruct (json resp) as [d|e].
      * destruct (get d "user") as [u|e]; cbn.
        -- split; [reflexivity|]. split; [right; exists saved; split; reflexivity|].
           split; [left; reflexivity|].
           split; [right; exists saved, resp; auto|].
           right. exists saved. auto.
        -- split; [reflexivity|]. split; [right; exists saved; split; reflexivity|].
           split; [right; apply removed_both|].
           split; [right; exists saved, resp; auto | left; reflexivity].
      * cbn. split; [reflexivity|]. split; [right; exists saved; split; reflexivity|].
        split; [right; apply removed_both|].
        split; left; reflexivity.
    + cbn. split; [reflexivity|]. split; [right; exists saved; split; reflexivity|].
      split; [right; apply removed_both|].
      split; left; reflexivity.
  - cbn. split; [reflexivity|]. split; [right; exists saved; split; reflexivity|].
    split; [right; apply removed_both|].
    split; left; reflexivity.
Qed.

(** X21. [makeAuthenticatedRequest] needs a token and answers a 401
    by starting a logout.  Without a token it throws before anything
    is sent, and so it does with a token that cannot be converted to
    text.  Otherwise it sends the one request with the merged
    headers, and when it settles, user, token and storage are as
    before, in every case.  It resolves to the response unless the
    status is 401, and rejects with what [fetch] rejected with.  On
    a 401 it throws the authentication failure with the logout
    request sent and not awaited: the session is still set at the
    rejection, and it is cleared, user and token null and both saved
    entries gone, once the logout request has settled. *)
Theorem authenticated_request_guards_session (url : string) (options : Options) (a : Auth) :
  let run := makeAuthenticatedRequest url options a in
  (truthy (token a) = false ->
   run = (Throw (ErrorObj "No authentication token available"), a))
  /\ (forall e, truthy (token a) = true -> toString (token a) = Throw e ->
        run = (Throw e, a))
  /\ (forall text, truthy (token a) = true -> toString (token a) = Normal text ->
        let request :=
          Authenticated url
            (spread [("Content-Type", "application/json");
                     ("Authorization", "Bearer " ++ text)] (headers options))
            (method options) (body options) in
        user (snd run) = user a /\ token (snd run) = token a
        /\ storage (snd run) = storage a
        /\ match backend a request with
           | Throw e => fst run = Throw e /\ sent (snd run) = (sent a ++ [request])%list
           | Normal response =>
               if (status response =? 401)%nat then
                 fst run = Throw (ErrorObj "Authentication failed")
                 /\ sent (snd run)
                    = (sent a ++ [request; Logout ("Bearer " ++ text)])%list
                 /\ user (logoutFinish (snd run)) = VNull
                 /\ token (logoutFinish (snd run)) = VNull
                 /\ getItem "auth_token" (storage (logoutFinish (snd run))) = None
                 /\ getItem "user" (storage (logoutFinish (snd run))) = None
               else
                 fst run = Normal response
                 /\ sent (snd run) = (sent a ++ [request])%list
           end).
Proof.
  cbn zeta. unfold makeAuthenticatedRequest.
  destruct (truthy (token a)) eqn:Et; cbn [negb].
  - split; [discriminate|]. split.
    + intros e _ He. rewrite He. reflexivity.
    + intros text _ Htext. rewrite Htext. unfold send.
      destruct (backend a _) as [resp|e]; [|cbn; repeat split].
      destruct (status resp =? 401)%nat eqn:Es; [|cbn; repeat split].
      unfold logoutStart. cbn [token]. rewrite Et, Htext. unfold send. cbn [fst snd].
      match goal with
      | |- context [logoutFinish ?x] =>
          destruct (logoutFinish_session_gone x) as (Hu & Htok & H1 & H2 & _)
      end.
      cbn [user token storage sent].
      rewrite <- app_assoc. repeat split; assumption.
  - split; [reflexivity|]. split; discriminate.
Qed.




End SessionRestoreExtras.

(* ================================================================== *)
(** * Insertion through the bridge from the agent and the chat *)

Section InsertionExtras.
Import JsString Js Browser Statements.

(** X23. The search-and-insert message of [processAgentCommand] does
    not depend on the editor: when the bridge is not installed the
    command still resolves to the search-and-insert object whose
    message says that the results were inserted, while the world
    only gained the request and the dispatched event, so the
    document is as it was. *)
Theorem insert_reported_without_editor (command : string) (w : World) :
  includes (toLowerCase command) "search"
  && includes (toLowerCase command) "insert" = true ->
  bridge w = false ->
  let q := trim (Regex.replaceAll AgentContext.searchStopWords command) in
  exists r,
    AgentContext.processAgentCommand command w
    = (Normal (AgentContext.SearchAndInsert r
                 ("Searched for " ++ dquote ++ q ++ dquote ++ " and inserted "
                  ++ ofNat (List.length (AgentContext.results r))
                  ++ " results into editor.")),
       dispatchEvent (logRequest (AgentRequest q "web_search" None) w))
    /\ contentRef (snd (AgentContext.processAgentCommand command w)) = contentRef w
    /\ commands (snd (AgentContext.processAgentCommand command w)) = commands w.
Proof.
  intros Hgate Hb; cbn zeta.
  destruct (performWebSearch_requests
              (trim (Regex.replaceAll AgentContext.searchStopWords command)) w) as [r Hr].
  exists r.
  assert (Hrun : AgentContext.processAgentCommand command w
                 = (Normal (AgentContext.SearchAndInsert r
                      ("Searched for " ++ dquote
                       ++ trim (Regex.replaceAll AgentContext.searchStopWords command)
                       ++ dquote ++ " and inserted "
                       ++ ofNat (List.length (AgentContext.results r))
                       ++ " results into editor.")),
                    dispatchEvent
                      (logRequest
                         (AgentRequest
                            (trim (Regex.replaceAll AgentContext.searchStopWords command))
                            "web_search" None) w))).
  { unfold AgentContext.processAgentCommand, tryCatchM,
      AgentContext.processAgentCommandBody.
    rewrite Hgate. unfold bindM at 1. rewrite Hr.
    unfold AgentContext.insertToEditor, effect, ret, bindM.
    cbn [bridge dispatchEvent logRequest]. rewrite Hb. reflexivity. }
  rewrite Hrun. repeat split.
Qed.

Lemma insert_reported_without_editor_witness :
  let w := mkWorld None None false [] [] 0 [] Samples.unreachableAgent
             Samples.unreachableChat (Samples.stripTags false) 0 in
  exists r,
    fst (AgentContext.processAgentCommand "search cats and insert" w)
    = Normal (AgentContext.SearchAndInsert r
                ("Searched for " ++ dquote ++ "cats" ++ dquote ++ " and inserted "
                 ++ ofNat (List.length (AgentContext.results r))
                 ++ " results into editor.")).
Proof.
  cbn zeta.
  destruct (insert_reported_without_editor "search cats and insert"
              (mkWorld None None false [] [] 0 [] Samples.unreachableAgent
                 Samples.unreachableChat (Samples.stripTags false) 0)
              eq_refl eq_refl) as (r & Hrun & _).
  exists r. rewrite Hrun. reflexivity.
Defined.

Variables bullet checkMark warningSign : string.

Lemma modifyEditorContent_reads_session (s1 s2 : ChatSidebar.State) (action : string)
      (w : World) :
  ChatSidebar.sessionId s1 = ChatSidebar.sessionId s2 ->
  ChatSidebar.token s1 = ChatSidebar.token s2 ->
  ChatSidebar.modifyEditorContent s1 action w = ChatSidebar.modifyEditorContent s2 action w.
Proof. intros H1 H2. unfold ChatSidebar.modifyEditorContent. now rewrite H1, H2. Qed.

(** X24. An editor-transform submission is always shown as an editor
    action of kind replace: the assistant message is the message of
    [modifyEditorContent], whether it reports a change, an empty
    editor, a failure or a missing editor, and it carries the
    editor-action mark in each case. *)
Theorem transform_reply_is_marked (s : ChatSidebar.State) (action : string) (w : World) :
  trim (ChatSidebar.input s) <> EmptyString ->
  ChatSidebar.connected s = true ->
  ChatSidebar.tokenTruthy (ChatSidebar.token s) = true ->
  ChatSidebar.detectIntent (ChatSidebar.input s) = ChatSidebar.EditorModify action ->
  let run := ChatSidebar.handleSubmit bullet checkMark warningSign s w in
  exists msg,
    ChatSidebar.modifyEditorContent s action w = (Normal msg, snd run)
    /\ ChatSidebar.messages (fst run)
       = (ChatSidebar.messages s
          ++ [ChatSidebar.mkAIMessage (ChatSidebar.input s) ChatSidebar.User None None None;
              ChatSidebar.mkAIMessage msg ChatSidebar.Assistant (Some true)
                (Some Editor.Replace) (Some EmptyString)])%list.
Proof.
  intros Hin Hc Ht Hintent; cbn zeta.
  apply truthy_nonempty in Hin.
  unfold ChatSidebar.handleSubmit. rewrite Hin, Hc, Ht, Hintent. cbn [negb orb].
  set (s0 := ChatSidebar.setIsLoading true _).
  rewrite (modifyEditorContent_reads_session s0 s action w eq_refl eq_refl).
  destruct (modifyEditorContent_requests s action w) as ((msg & Hmsg) & _).
  destruct (ChatSidebar.modifyEditorContent s action w) as [res w'].
  cbn [fst] in Hmsg. subst res. exists msg. cbn. rewrite <- app_assoc.
  split; reflexivity.
Qed.


End InsertionExtras.

Section InsertionExamples.
Import JsString Js Browser Statements.

Lemma transform_reply_is_marked_witness :
  let run := ChatSidebar.handleSubmit "*" "+" "!" (Samples.readyChat "fix grammar")
               (Samples.editorWith "  " (Some None)) in
  map ChatSidebar.hasEditorAction (ChatSidebar.messages (fst run)) = [None; Some true]
  /\ map ChatSidebar.content (ChatSidebar.messages (fst run))
     = ["fix grammar"; "No content found in the editor to modify."].
Proof.
  cbn zeta.
  assert (Hne : trim "fix grammar" <> EmptyString) by discriminate.
  destruct (transform_reply_is_marked "*" "+" "!" (Samples.readyChat "fix grammar")
              "grammar" (Samples.editorWith "  " (Some None))
              Hne eq_refl eq_refl eq_refl) as (msg & Hmsg & Hm).
  cbn zeta in Hm. rewrite Hm.
  assert (msg = "No content found in the editor to modify.")
    by (cbv in Hmsg; congruence).
  subst msg. split; reflexivity.
Defined.


(** With no range in the selection the reply still says that the
    content was inserted, while the document keeps its text. *)
Example create_without_range_inserts_nothing :
  let w := Samples.editorAnswering "Intro." " Solar power is clean. " (Some None) in
  let run := ChatSidebar.handleSubmit "*" "+" "!"
               (Samples.readyChat "write a line about solar and insert it") w in
  contentRef (snd run) = Some "Intro."
  /\ map ChatSidebar.hasEditorAction (ChatSidebar.messages (fst run))
     = [None; Some true]
  /\ map ChatSidebar.editorContent (ChatSidebar.messages (fst run))
     = [None; Some "Solar power is clean."].
Proof. cbn zeta. repeat split; reflexivity. Qed.

End InsertionExamples.

Section MoreExamples.
Import JsString Js Statements.

Lemma editor_modify_exactly_on_transform_witness :
  ChatSidebar.detectIntent "Search the web and make shorter"
  = ChatSidebar.EditorModify "summarize"
  /\ ChatSidebar.prompts "summarize" "text" <> None.
Proof.
  destruct (editor_modify_exactly_on_transform "Search the web and make shorter")
    as (_ & Hknown).
  split; [reflexivity|].
  destruct (Hknown "summarize" eq_refl) as (_ & Hprompt). exact (Hprompt "text").
Defined.

Lemma authenticated_request_guards_session_witness :
  let a := AuthContext.mkAuth (VObj [("name", VStr "Ann")]) (VStr "abc") false
             [("theme", "dark"); ("auth_token", "abc"); ("user", "{}")] []
             (fun _ => Normal (mkResponse false 401 (Throw NonError)))
             (fun _ => "{}") (fun _ _ _ => None) in
  let run := AuthContext.makeAuthenticatedRequest "/api/documents"
               (AuthContext.mkOptions [] None None) a in
  fst run = Throw (ErrorObj "Authentication failed")
  /\ AuthContext.token (snd run) = VStr "abc"
  /\ AuthContext.storage (snd run)
     = [("theme", "dark"); ("auth_token", "abc"); ("user", "{}")]
  /\ AuthContext.sent (snd run)
     = [AuthContext.Authenticated "/api/documents"
          [("Content-Type", "application/json"); ("Authorization", "Bearer abc")]
          None None;
        AuthContext.Logout "Bearer abc"]
  /\ AuthContext.token (AuthContext.logoutFinish (snd run)) = VNull
  /\ AuthContext.storage (AuthContext.logoutFinish (snd run)) = [("theme", "dark")].
Proof.
  cbn zeta.
  destruct (authenticated_request_guards_session "/api/documents"
              (AuthContext.mkOptions [] None None)
              (AuthContext.mkAuth (VObj [("name", VStr "Ann")]) (VStr "abc") false
                 [("theme", "dark"); ("auth_token", "abc"); ("user", "{}")] []
                 (fun _ => Normal (mkResponse false 401 (Throw NonError)))
                 (fun _ => "{}") (fun _ _ _ => None))) as (_ & _ & Hsent).
  destruct (Hsent "abc" eq_refl eq_refl)
    as (_ & Htoken & Hstorage & Hthrow & Hreq & _ & Hcleared & _).
  split; [exact Hthrow|]. split; [exact Htoken|]. split; [exact Hstorage|].
  split; [exact Hreq|]. split; [exact Hcleared | reflexivity].
Defined.

End MoreExamples.
